(** * Plugin_traceroute: the traceroute plugin of NetScout-Go

    A shallow embedding of [plugin.go]: the line parser inside
    [performTraceroute], the single-shot run and the iterated run
    [executeWithIteration] with its history, over a small model of the Go
    values the program manipulates (dynamically typed [interface{}] values,
    maps and slices as references into a heap). *)

From Stdlib Require Import ZArith Ascii String List Bool Lia.
From Stdlib Require Import Floats.SpecFloat.
From stdpp Require Import base option list strings gmap pretty.

Set Warnings "-register-all".

Open Scope string_scope.
Open Scope Z_scope.

(** ** Go strings and the [strings] / [strconv] functions the plugin calls

    A Go string is a sequence of bytes; [string] (a list of [ascii], that is
    of bytes) models it. *)

Module GoStrings.

Definition byte_of (c : ascii) : Z := Z.of_nat (nat_of_ascii c).

(** [strings.Split(s, "\n")]: the pieces between line feeds; never empty. *)
Fixpoint split_nl (cur : string) (s : string) : list string :=
  match s with
  | EmptyString => [cur]
  | String c rest =>
      if (byte_of c =? 10)
      then cur :: split_nl EmptyString rest
      else split_nl (cur +:+ String c EmptyString) rest
  end.

Definition Split_newline (s : string) : list string := split_nl EmptyString s.

(** [unicode.IsSpace] on the rune that starts at the head of [s], as the
    number of bytes of that rune: the six ASCII spaces, U+0085 and U+00A0
    (two bytes), U+1680, U+2000..U+200A, U+2028, U+2029, U+202F, U+205F
    and U+3000 (three bytes); [0] when the head is not white space.  A
    UTF-8 lead byte never occurs inside a well-formed sequence and Go
    steps one byte over an ill-formed one, so matching the encodings at
    every byte position agrees with Go's rune-by-rune scan. *)
Definition space_width (s : string) : nat :=
  match s with
  | EmptyString => 0%nat
  | String c0 r0 =>
      let b0 := byte_of c0 in
      if (b0 =? 9) || (b0 =? 10) || (b0 =? 11) || (b0 =? 12) || (b0 =? 13)
         || (b0 =? 32)
      then 1%nat
      else
        match r0 with
        | EmptyString => 0%nat
        | String c1 r1 =>
            let b1 := byte_of c1 in
            if (b0 =? 194) && ((b1 =? 133) || (b1 =? 160)) then 2%nat
            else
              match r1 with
              | EmptyString => 0%nat
              | String c2 _ =>
                  let b2 := byte_of c2 in
                  if (b0 =? 225) && (b1 =? 154) && (b2 =? 128) then 3%nat
                  else if (b0 =? 226) && (b1 =? 128)
                          && (((128 <=? b2) && (b2 <=? 138))
                              || (b2 =? 168) || (b2 =? 169) || (b2 =? 175))
                  then 3%nat
                  else if (b0 =? 226) && (b1 =? 129) && (b2 =? 159) then 3%nat
                  else if (b0 =? 227) && (b1 =? 128) && (b2 =? 128) then 3%nat
                  else 0%nat
              end
        end
  end.

Definition flush (cur : string) : list string :=
  match cur with
  | EmptyString => []
  | _ => [cur]
  end.

(** [skip] counts the remaining bytes of a white-space rune being
    stepped over; [cur] is the field being collected. *)
Fixpoint fields_from (skip : nat) (cur : string) (s : string) : list string :=
  match s with
  | EmptyString => flush cur
  | String c rest =>
      match skip with
      | S k => fields_from k cur rest
      | O =>
          match space_width s with
          | O => fields_from 0 (cur +:+ String c EmptyString) rest
          | S k => flush cur ++ fields_from k EmptyString rest
          end
      end
  end.

(** [strings.Fields(s)]: the maximal runs of non-space characters. *)
Definition Fields (s : string) : list string := fields_from 0 EmptyString s.

(** [strings.HasSuffix(s, suffix)]. *)
Definition HasSuffix (s suffix : string) : bool :=
  (String.length suffix <=? String.length s)%nat
  && String.eqb (substring (String.length s - String.length suffix)
                           (String.length suffix) s) suffix.

(** [strings.TrimSuffix(s, suffix)]: [s[:len(s)-len(suffix)]] when [s]
    ends with [suffix], [s] itself otherwise. *)
Definition TrimSuffix (s suffix : string) : string :=
  if HasSuffix s suffix
  then substring 0 (String.length s - String.length suffix) s
  else s.

(** Errors of [strconv]: [strconv.ErrSyntax] and [strconv.ErrRange]. *)
Inductive NumError := ErrSyntax | ErrRange.

Definition is_digit (c : ascii) : bool :=
  (48 <=? byte_of c) && (byte_of c <=? 57).

(** The digit loop of [strconv.ParseUint(s, 10, 64)]: the first byte
    that is not a decimal digit is a syntax error, a value that leaves
    the unsigned 64-bit range is a range error (value [2^64 - 1]). *)
Fixpoint parse_digits (n : Z) (s : string) : Z * option NumError :=
  match s with
  | EmptyString => (n, None)
  | String c rest =>
      if is_digit c then
        let n1 := n * 10 + (byte_of c - 48) in
        if 2 ^ 64 <=? n1 then (2 ^ 64 - 1, Some ErrRange)
        else parse_digits n1 rest
      else (0, Some ErrSyntax)
  end.

Definition ParseUint (s : string) : Z * option NumError :=
  match s with
  | EmptyString => (0, Some ErrSyntax)
  | _ => parse_digits 0 s
  end.

(** [strconv.ParseInt(s, 10, 0)] on a 64-bit platform. *)
Definition ParseInt (s : string) : Z * option NumError :=
  match s with
  | EmptyString => (0, Some ErrSyntax)
  | String c rest =>
      let neg := byte_of c =? 45 in
      let body := if (byte_of c =? 43) || neg then rest else s in
      match ParseUint body with
      | (_, Some ErrSyntax) => (0, Some ErrSyntax)
      | (un, _) =>
          if negb neg && (2 ^ 63 <=? un) then (2 ^ 63 - 1, Some ErrRange)
          else if neg && (2 ^ 63 <? un) then (- 2 ^ 63, Some ErrRange)
          else (if neg then - un else un, None)
      end
  end.

(** [strconv.Atoi(s)]: [ParseInt(s, 10, 0)] converted to [int]; Go's fast
    path for short strings computes the same result. *)
Definition Atoi (s : string) : Z * option NumError := ParseInt s.

End GoStrings.
Export GoStrings.

(** ** Go values, the heap and the outside world *)

(** Heap addresses.  Maps and the backing arrays of slices live in the heap
    and are shared by every value that refers to them. *)
Definition loc := nat.

(** A [float64] is an IEEE 754 binary64 number. *)
Definition float64 := spec_float.

Definition float64_zero : float64 := S754_zero false.
Definition float64_of_Z (z : Z) : float64 := binary_normalize 53 1024 z 0 false.

(** The two slice types whose values the plugin stores in an interface. *)
Inductive SliceType :=
| SliceOfMaps   (* []map[string]interface{} *)
| SliceOfAny.   (* []interface{} *)

(** A value of type [interface{}], by dynamic type. *)
Inductive Value :=
| VNil
| VBool (b : bool)
| VInt (n : Z)
| VFloat64 (f : float64)
| VString (s : string)
| VMap (l : loc)                               (* map[string]interface{} *)
| VSlice (t : SliceType) (a : loc) (len : nat). (* backing array and length *)

Inductive Object :=
| ObjMap (m : gmap string Value)
| ObjArray (elems : list Value).

(** A Go [error] is its message. *)
Definition error := string.

(** The plugin struct. *)
Record TraceroutePlugin := mkPlugin {
  Results : list Value;
  StartTime : Z;
  IterationCount : Z
}.

(** What running the external command left behind: the error of
    [cmd.Run()] (its text) and the two buffers. *)
Record CmdResult := mkCmdResult {
  cmd_err : option string;
  cmd_stdout : string;
  cmd_stderr : string
}.

(** The answers of the outside world during one call of the plugin. *)
Record World := mkWorld {
  exec_Run : string -> list string -> CmdResult;          (* exec.Command(..).Run() *)
  LookupAddr : string -> list string * option string;     (* net.LookupAddr *)
  now_result : Z;     (* time.Now() when the result is assembled *)
  now_since : Z       (* time.Now() inside time.Since *)
}.

(** Functions of the Go library and run time that the plugin calls and
    whose definitions are outside this repository. *)
Class Platform := mkPlatform {
  (* strconv.ParseFloat(s, 64) *)
  ParseFloat : string -> float64 * option NumError;
  (* int(f) when f has no int64 value: implementation-dependent *)
  int_of_unrepresentable : float64 -> Z;
  (* t.Format(time.RFC3339) *)
  Format_RFC3339 : Z -> string;
  (* d.String() for a time.Duration *)
  Duration_String : Z -> string
}.

(** What Go's [strconv.ParseFloat] returns next to [ErrSyntax]: zero. *)
Definition ParseFloat_zero_on_syntax_error `{!Platform} : Prop :=
  forall s f, ParseFloat s = (f, Some ErrSyntax) -> f = float64_zero.

(** What Go's [strconv.ParseFloat] returns next to [ErrRange]: an
    infinity. *)
Definition ParseFloat_infinite_on_range_error `{!Platform} : Prop :=
  forall s f, ParseFloat s = (f, Some ErrRange) -> exists sign, f = S754_infinity sign.

(** [number] is [token] without its trailing "ms", if it has one. *)
Definition unit_stripped (token number : string) : Prop :=
  token = number +:+ "ms" \/ (token = number /\ forall s, token <> s +:+ "ms").

Record State := mkState {
  plugin : TraceroutePlugin;
  heap : list Object;
  probes : list (list string)   (* argument lists of the commands run so far *)
}.

(** A Go computation either returns, with a new state, or panics. *)
Inductive Outcome (A : Type) :=
| Returns (a : A) (st : State)
| Panics.
Arguments Returns {A} a st.
Arguments Panics {A}.

Definition Go (A : Type) : Type := State -> Outcome A.

#[global] Instance Go_ret : MRet Go := fun A a st => Returns a st.
#[global] Instance Go_bind : MBind Go := fun A B f m st =>
  match m st with
  | Returns a st' => f a st'
  | Panics => Panics
  end.

Definition panic {A} : Go A := fun _ => Panics.

Definition get_plugin : Go TraceroutePlugin := fun st => Returns (plugin st) st.

Definition set_plugin (p : TraceroutePlugin) : Go unit := fun st =>
  Returns tt (mkState p (heap st) (probes st)).

(** [make] or a composite literal: a new object at a fresh address. *)
Definition new_object (o : Object) : Go loc := fun st =>
  Returns (length (heap st)) (mkState (plugin st) (heap st ++ [o]) (probes st)).

Definition load (l : loc) : Go Object := fun st =>
  match heap st !! l with
  | Some o => Returns o st
  | None => Panics
  end.

Definition load_map (l : loc) : Go (gmap string Value) :=
  o ← load l;
  match o with
  | ObjMap m => mret m
  | ObjArray _ => panic
  end.

(** [m[k]] for a map held in an interface value already asserted to be a
    map. *)
Definition map_index (l : loc) (k : string) : Go (option Value) :=
  m ← load_map l; mret (m !! k).

(** [m[k] = v]. *)
Definition map_assign (l : loc) (k : string) (v : Value) : Go unit := fun st =>
  match heap st !! l with
  | Some (ObjMap m) =>
      Returns tt (mkState (plugin st) (<[l := ObjMap (<[k := v]> m)]> (heap st)) (probes st))
  | _ => Panics
  end.

(** The elements [s[0..len)] of a slice. *)
Definition load_slice (a : loc) (len : nat) : Go (list Value) :=
  o ← load a;
  match o with
  | ObjArray elems => mret (take len elems)
  | ObjMap _ => panic
  end.

(** [exec.Command(name, args...)] followed by [Run()]. *)
Definition run_command (w : World) (name : string) (args : list string) : Go CmdResult :=
  fun st =>
    Returns (exec_Run w name args)
            (mkState (plugin st) (heap st) (probes st ++ [name :: args])).

(** Type assertions [v.(T)] in their two-result form. *)
Definition assert_string (v : option Value) : string * bool :=
  match v with
  | Some (VString s) => (s, true)
  | _ => (EmptyString, false)
  end.

Definition assert_float64 (v : option Value) : float64 * bool :=
  match v with
  | Some (VFloat64 f) => (f, true)
  | _ => (float64_zero, false)
  end.

Definition assert_bool (v : option Value) : bool * bool :=
  match v with
  | Some (VBool b) => (b, true)
  | _ => (false, false)
  end.

(** The one-result form [v.(string)] panics on another dynamic type. *)
Definition must_string (v : option Value) : Go string :=
  match v with
  | Some (VString s) => mret s
  | _ => panic
  end.

(** [int] is 64 bits wide; arithmetic wraps around. *)
Definition wrap_int (z : Z) : Z := (z + 2 ^ 63) mod 2 ^ 64 - 2 ^ 63.

Definition in_int_range (z : Z) : bool := (- 2 ^ 63 <=? z) && (z <? 2 ^ 63).

(** ** The plugin *)

Section Plugin.
Context `{!Platform}.

(** The integer part of a finite [float64]; [None] for NaN and the
    infinities. *)
Definition trunc_float64 (f : float64) : option Z :=
  match f with
  | S754_zero _ => Some 0
  | S754_finite s m e =>
      let a := if 0 <=? e then Z.pos m * 2 ^ e else Z.pos m / 2 ^ (- e) in
      Some (if s then - a else a)
  | S754_infinity _ | S754_nan => None
  end.

(** The conversion [int(f)]: truncation toward zero. *)
Definition int_of_float64 (f : float64) : Z :=
  match trunc_float64 f with
  | Some z => if in_int_range z then z else int_of_unrepresentable f
  | None => int_of_unrepresentable f
  end.

(** [parts[i]]; every use below is guarded by a test on [len(parts)]. *)
Definition index (parts : list string) (i : nat) : string :=
  nth i parts EmptyString.

(** The closure that computes the "status" entry of a hop. *)
Definition status_of (hopIP : string) : string :=
  if negb (String.eqb hopIP "*") then "OK" else "NO RESPONSE".

(** The map literal that makes a hop. *)
Definition hop_record (hopNumber : Z) (hopIP hopName : string) (rtt : float64)
  : gmap string Value :=
  {[ "hop" := VInt hopNumber;
     "host" := VString hopIP;
     "name" := VString hopName;
     "rtt" := VFloat64 rtt;
     "status" := VString (status_of hopIP) ]}.

(** Reverse lookup of a hop address, falling back on the address. *)
Definition name_of (w : World) (hopIP : string) : string :=
  match LookupAddr w hopIP with
  | (name :: _, None) => TrimSuffix name "."
  | _ => hopIP
  end.

(** The body of the loop over the output lines, from [strings.Fields] to
    the hop literal: [None] stands for [continue]. *)
Definition hop_of_line (w : World) (line : string) : option (gmap string Value) :=
  let parts := Fields line in
  if (length parts <? 2)%nat then None
  else
    match Atoi (index parts 0) with
    | (_, Some _) => None
    | (hopNumber, None) =>
        if (4 <=? length parts)%nat && negb (String.eqb (index parts 1) "*")
        then
          let hopIP := index parts 1 in
          let hopName := name_of w hopIP in
          let rttStr := TrimSuffix (index parts 2) "ms" in
          Some (hop_record hopNumber hopIP hopName (fst (ParseFloat rttStr)))
        else Some (hop_record hopNumber "*" "*" float64_zero)
    end.

(** The loop over [lines]: the header line (index 0) and empty lines are
    passed over, every hop is a new map appended to [hops]. *)
Fixpoint parse_lines (w : World) (i : nat) (lines : list string) : Go (list Value) :=
  match lines with
  | [] => mret []
  | line :: rest =>
      if (i =? 0)%nat || (String.length line =? 0)%nat
      then parse_lines w (S i) rest
      else
        match hop_of_line w line with
        | None => parse_lines w (S i) rest
        | Some hop =>
            l ← new_object (ObjMap hop);
            hops ← parse_lines w (S i) rest;
            mret (VMap l :: hops)
        end
  end.

(** The records the loop emits, in order. *)
Fixpoint emitted_hops (w : World) (i : nat) (lines : list string)
  : list (gmap string Value) :=
  match lines with
  | [] => []
  | line :: rest =>
      if (i =? 0)%nat || (String.length line =? 0)%nat
      then emitted_hops w (S i) rest
      else
        match hop_of_line w line with
        | None => emitted_hops w (S i) rest
        | Some hop => hop :: emitted_hops w (S i) rest
        end
  end.

Definition host_required : error := "host parameter is required".

Definition traceroute_failed (err stderr : string) : error :=
  "traceroute failed: " +:+ err +:+ ": " +:+ stderr.

Definition maxHops_of (params : gmap string Value) : Z :=
  let '(maxHopsParam, ok) := assert_float64 (params !! "maxHops") in
  let maxHopsParam := if ok then maxHopsParam else float64_of_Z 30 in
  int_of_float64 maxHopsParam.

(** The test [err != nil && stderr.Len() > 0] after [cmd.Run()], with
    the error it makes the run return. *)
Definition command_failure (res : CmdResult) : option error :=
  match cmd_err res with
  | Some err =>
      if (0 <? String.length (cmd_stderr res))%nat
      then Some (traceroute_failed err (cmd_stderr res))
      else None
  | None => None
  end.

(** [host, _ := params["host"].(string)]. *)
Definition host_of (params : gmap string Value) : string :=
  fst (assert_string (params !! "host")).

Definition traceroute_args (maxHops : Z) (host : string) : list string :=
  ["-n"; "-m"; pretty maxHops; host].

(** The map literal that [performTraceroute] returns; [a] and [n] are the
    backing array and the length of [hops]. *)
Definition result_map (host : string) (a : loc) (n : nat) (timestamp output : string)
  : gmap string Value :=
  {[ "host" := VString host;
     "hops" := VSlice SliceOfMaps a n;
     "timestamp" := VString timestamp;
     "rawOutput" := VString output ]}.

(** [performTraceroute]: the returned pair is Go's [(interface{}, error)]. *)
Definition performTraceroute (w : World) (params : gmap string Value)
  : Go (Value * option error) :=
  let host := host_of params in
  let maxHops := maxHops_of params in
  if String.eqb host EmptyString then mret (VNil, Some host_required)
  else
    res ← run_command w "traceroute" (traceroute_args maxHops host);
    match command_failure res with
    | Some e => mret (VNil, Some e)
    | None =>
        let output := cmd_stdout res in
        hops ← parse_lines w 0 (Split_newline output);
        a ← new_object (ObjArray hops);
        r ← new_object (ObjMap (result_map host a (length hops)
                                  (Format_RFC3339 (now_result w)) output));
        mret (VMap r, None)
    end.

(** The state a run that does not fail leaves: the emitted records, the
    backing array of [hops] and the result map, in allocation order. *)
Definition state_after_run (w : World) (params : gmap string Value) (st : State)
  : State :=
  let res := exec_Run w "traceroute"
               (traceroute_args (maxHops_of params) (host_of params)) in
  let hops := emitted_hops w 0 (Split_newline (cmd_stdout res)) in
  let n0 := length (heap st) in
  mkState (plugin st)
    (((heap st ++ (ObjMap <$> hops))
        ++ [ObjArray (VMap <$> seq n0 (length hops))])
        ++ [ObjMap (result_map (host_of params) (n0 + length hops)%nat (length hops)
                      (Format_RFC3339 (now_result w)) (cmd_stdout res))])
    (probes st ++ ["traceroute" :: traceroute_args (maxHops_of params) (host_of params)]).

(** The address of the last hop for the summaries: the "ip" entry when it
    is a string, else the "host" entry when it is one, else empty. *)
Definition last_hop_of (hops : list Value) : Go string :=
  match last hops with
  | Some (VMap l) =>
      ip ← map_index l "ip";
      match ip with
      | Some (VString s) => mret s
      | _ =>
          host ← map_index l "host";
          match host with
          | Some (VString s) => mret s
          | _ => mret EmptyString
          end
      end
  | Some _ => mret EmptyString   (* no map: indexing yields no string *)
  | None => mret EmptyString
  end.

(** [hopCount] and [lastHopIP] from the "hops" entry of a result, when
    that entry is a [[]map[string]interface{}]. *)
Definition hops_summary (hops : option Value) : Go (option (Z * string)) :=
  match hops with
  | Some (VSlice SliceOfMaps a n) =>
      elems ← load_slice a n;
      lastHopIP ← last_hop_of elems;
      mret (Some (Z.of_nat n, lastHopIP))
  | _ => mret None
  end.

Definition iteration_summary (count : Z) (host : string) (hopCount : Z)
    (lastHopIP : string) : string :=
  "Iteration " +:+ pretty count +:+ ": " +:+ host +:+ " - "
    +:+ pretty hopCount +:+ " hops, final: " +:+ lastHopIP.

(** The loop that condenses [p.Results] into the "history" list; [i] is
    the index of the head of [results]. *)
Fixpoint history_entries (i : nat) (results : list Value) : Go (list Value) :=
  match results with
  | [] => mret []
  | VMap l :: rest =>
      host ← (v ← map_index l "host"; must_string v);
      timestamp ← (v ← map_index l "timestamp"; must_string v);
      hops ← map_index l "hops";
      summary ← hops_summary hops;
      let '(hopCount, lastHopIP) := default (0, EmptyString) summary in
      e ← new_object (ObjMap {[ "iteration" := VInt (Z.of_nat i + 1);
                              "timestamp" := VString timestamp;
                              "host" := VString host;
                              "hopCount" := VInt hopCount;
                              "lastHop" := VString lastHopIP ]});
      entries ← history_entries (S i) rest;
      mret (VMap e :: entries)
  | _ :: rest => history_entries (S i) rest
  end.

(** "Create a summary for the UI": the "iteration_data" entry of the
    result at [r]. *)
Definition add_iteration_data (r : loc) : Go unit :=
  p ← get_plugin;
  host ← (map_index r "host" ≫= must_string);
  hops ← map_index r "hops";
  summary ← hops_summary hops;
  match summary with
  | Some (hopCount, lastHopIP) =>
      d ← new_object (ObjMap {[ "can_iterate" := VBool true;
                                "supports_iteration" := VBool true;
                                "iteration_summary" :=
                                  VString (iteration_summary (IterationCount p) host
                                             hopCount lastHopIP) ]});
      map_assign r "iteration_data" (VMap d)
  | None => mret tt
  end.

(** "Add history summary": the "history" entry, from the second run on. *)
Definition add_history_summary (r : loc) : Go unit :=
  p ← get_plugin;
  if (1 <? length (Results p))%nat then
    history ← history_entries 0 (Results p);
    a ← new_object (ObjArray history);
    map_assign r "history" (VSlice SliceOfMaps a (length history))
  else mret tt.

(** The part of [executeWithIteration] guarded by the assertion that the
    result is a map, here the map at [r]. *)
Definition annotate (w : World) (r : loc) : Go unit :=
  resultMap ← load_map r;
  historyCopy ← new_object (ObjMap resultMap);
  p ← get_plugin;
  set_plugin (mkPlugin (Results p ++ [VMap historyCopy]) (StartTime p) (IterationCount p));;
  map_assign r "iterationCount" (VInt (IterationCount p));;
  map_assign r "elapsedTime" (VString (Duration_String (now_since w - StartTime p)));;
  add_iteration_data r;;
  add_history_summary r.

Definition executeWithIteration (w : World) (params : gmap string Value)
  : Go (Value * option error) :=
  '(result, err) ← performTraceroute w params;
  match err with
  | Some e => mret (VNil, Some e)
  | None =>
      p ← get_plugin;
      set_plugin (mkPlugin (Results p) (StartTime p) (wrap_int (IterationCount p + 1)));;
      match result with
      | VMap r => annotate w r
      | _ => mret tt
      end;;
      mret (result, None)
  end.

Definition Execute (w : World) (params : gmap string Value)
  : Go (Value * option error) :=
  let continueToIterate := fst (assert_bool (params !! "continueToIterate")) in
  if continueToIterate then executeWithIteration w params
  else performTraceroute w params.

(** A sequence of calls in iteration mode, one world per call. *)
Fixpoint iterate (calls : list (World * gmap string Value))
  : Go (list (Value * option error)) :=
  match calls with
  | [] => mret []
  | (w, params) :: rest =>
      r ← executeWithIteration w params;
      rs ← iterate rest;
      mret (r :: rs)
  end.
End Plugin.

(** [NewPlugin] at time [now], and the state of a process that has just
    created its plugin. *)
Definition NewPlugin (now : Z) : TraceroutePlugin := mkPlugin [] now 0.

Definition initial_state (now : Z) : State := mkState (NewPlugin now) [] [].

(** ** Observing and mutating the object graph

    What a caller holding a value can see of it, to a given depth, and the
    assignments it can make through it. *)

Inductive Tree :=
| TScalar (v : Value)
| TMap (m : gmap string Tree)
| TSlice (elems : list Tree)
| TCut.

Fixpoint snapshot (depth : nat) (h : list Object) (v : Value) : Tree :=
  match depth with
  | O => TCut
  | S d =>
      match v with
      | VMap l =>
          match h !! l with
          | Some (ObjMap m) => TMap (snapshot d h <$> m)
          | _ => TCut
          end
      | VSlice _ a n =>
          match h !! a with
          | Some (ObjArray elems) => TSlice (snapshot d h <$> take n elems)
          | _ => TCut
          end
      | _ => TScalar v
      end
  end.

(** [v[k]] on a map and [v[i]] on a slice. *)
Inductive Selector :=
| Key (k : string)
| Index (i : nat).

Definition select (h : list Object) (v : Value) (sel : Selector) : option Value :=
  match v, sel with
  | VMap l, Key k =>
      match h !! l with
      | Some (ObjMap m) => m !! k
      | _ => None
      end
  | VSlice _ a n, Index i =>
      if (i <? n)%nat then
        match h !! a with
        | Some (ObjArray elems) => elems !! i
        | _ => None
        end
      else None
  | _, _ => None
  end.

Fixpoint resolve (h : list Object) (v : Value) (path : list Selector) : option Value :=
  match path with
  | [] => Some v
  | sel :: rest =>
      match select h v sel with
      | Some v' => resolve h v' rest
      | None => None
      end
  end.

Inductive Update :=
| Assign (x : Value)   (* c[sel] = x *)
| Delete.              (* delete(c, k) *)

(** The statement [root path.. [sel] = x] (or [delete(root path.., k)]):
    the heap after it, [None] when the container is not there or is not
    of the right kind. *)
Definition mutate (h : list Object) (root : Value) (path : list Selector)
    (sel : Selector) (u : Update) : option (list Object) :=
  match resolve h root path, sel, u with
  | Some (VMap l), Key k, Assign x =>
      match h !! l with
      | Some (ObjMap m) => Some (<[l := ObjMap (<[k := x]> m)]> h)
      | _ => None
      end
  | Some (VMap l), Key k, Delete =>
      match h !! l with
      | Some (ObjMap m) => Some (<[l := ObjMap (delete k m)]> h)
      | _ => None
      end
  | Some (VSlice _ a n), Index i, Assign x =>
      if (i <? n)%nat then
        match h !! a with
        | Some (ObjArray elems) => Some (<[a := ObjArray (<[i := x]> elems)]> h)
        | _ => None
        end
      else None
  | _, _, _ => None
  end.

(** The part of a snapshot that a path leads to. *)
Fixpoint tree_at (t : Tree) (path : list Selector) : option Tree :=
  match path with
  | [] => Some t
  | Key k :: rest =>
      match t with
      | TMap m =>
          match m !! k with
          | Some t' => tree_at t' rest
          | None => None
          end
      | _ => None
      end
  | Index i :: rest =>
      match t with
      | TSlice elems =>
          match elems !! i with
          | Some t' => tree_at t' rest
          | None => None
          end
      | _ => None
      end
  end.

(** Paths that enter the "hops" entry of the root. *)
Definition through_hops (path : list Selector) : bool :=
  match path with
  | Key k :: _ => String.eqb k "hops"
  | _ => false
  end.

(** A statement of a caller: [root path.. [sel] = x] or
    [delete(root path.., k)]. *)
Record Statement := mkStatement {
  stmt_root : Value;
  stmt_path : list Selector;
  stmt_sel : Selector;
  stmt_update : Update
}.

(** The object a statement writes into: the map, or the backing array of
    the slice, that its path leads to. *)
Definition target (h : list Object) (root : Value) (path : list Selector)
  : option loc :=
  match resolve h root path with
  | Some (VMap l) => Some l
  | Some (VSlice _ a _) => Some a
  | _ => None
  end.

(** Statements run one after the other; [None] when one of them cannot
    run. *)
Fixpoint run_statements (h : list Object) (stmts : list Statement)
  : option (list Object) :=
  match stmts with
  | [] => Some h
  | s :: rest =>
      match mutate h (stmt_root s) (stmt_path s) (stmt_sel s) (stmt_update s) with
      | Some h1 => run_statements h1 rest
      | None => None
      end
  end.

(** No statement of [stmts], run from [h], writes into an object of
    [kept]. *)
Fixpoint writes_outside (kept : loc -> Prop) (h : list Object)
    (stmts : list Statement) : Prop :=
  match stmts with
  | [] => True
  | s :: rest =>
      match mutate h (stmt_root s) (stmt_path s) (stmt_sel s) (stmt_update s) with
      | Some h1 =>
          (forall l, target h (stmt_root s) (stmt_path s) = Some l -> ~ kept l)
          /\ writes_outside kept h1 rest
      | None => True
      end
  end.

(** ** Well-formed history

    What [executeWithIteration] relies on when it condenses the history:
    every stored entry is a map with string "host" and "timestamp" entries
    whose "hops" entry, when a slice of maps, has its backing array in the
    heap. *)

Definition value_refs (P : loc -> Prop) (v : Value) : Prop :=
  match v with
  | VMap l => P l
  | VSlice _ a _ => P a
  | _ => True
  end.

Definition object_refs (P : loc -> Prop) (o : Object) : Prop :=
  match o with
  | ObjMap m => map_Forall (fun _ v => value_refs P v) m
  | ObjArray elems => Forall (value_refs P) elems
  end.

Definition last_ok (h : list Object) (v : option Value) : Prop :=
  match v with
  | Some (VMap l) => exists m, h !! l = Some (ObjMap m)
  | _ => True
  end.

Definition hops_ok (h : list Object) (v : option Value) : Prop :=
  match v with
  | Some (VSlice SliceOfMaps a n) =>
      exists elems, h !! a = Some (ObjArray elems) /\ last_ok h (last (take n elems))
  | _ => True
  end.

Definition entry_ok (h : list Object) (v : Value) : Prop :=
  match v with
  | VMap l =>
      exists m host timestamp,
        h !! l = Some (ObjMap m)
        /\ m !! "host" = Some (VString host)
        /\ m !! "timestamp" = Some (VString timestamp)
        /\ hops_ok h (m !! "hops")
  | _ => True
  end.

Definition history_ok (st : State) : Prop :=
  Forall (entry_ok (heap st)) (Results (plugin st)).

(** Every object of [h] is still there in [h']. *)
Definition heap_incl (h h' : list Object) : Prop :=
  forall l o, h !! l = Some o -> h' !! l = Some o.

(** The heap while [executeWithIteration] annotates the result at [r]:
    [h1] is the heap when the annotation starts and [resmap] the result
    map at that time.  The copy sits right after [h1]; below it only the
    object at [r] changes; the "host" and "hops" entries of the result
    stay, and whatever else the result or a later object refers to was
    allocated after the copy. *)
Record annotating (r : loc) (h1 : list Object) (resmap : gmap string Value)
    (h : list Object) : Prop := {
  an_r : (r < length h1)%nat;
  an_len : (length h1 < length h)%nat;
  an_old : forall l o, l <> r -> h1 !! l = Some o -> h !! l = Some o;
  an_copy : h !! length h1 = Some (ObjMap resmap);
  an_result : exists m,
      h !! r = Some (ObjMap m)
      /\ m !! "host" = resmap !! "host"
      /\ m !! "hops" = resmap !! "hops"
      /\ forall k v, k <> "hops" -> m !! k = Some v ->
                     value_refs (fun l => (length h1 < l)%nat) v;
  an_new : forall l o, (length h1 < l)%nat -> h !! l = Some o ->
                       object_refs (fun l' => (length h1 < l')%nat) o
}.

(** The objects a history entry is made of: the records and the backing
    array of the run, and the copy. *)
Definition entry_objects (n0 r : loc) (l : loc) : Prop :=
  (n0 <= l < r)%nat \/ l = S r.

(** A call that [performTraceroute] does not refuse: the host is there and
    the command did not fail with something on its standard error. *)
Definition run_succeeds `{!Platform} (call : World * gmap string Value) : Prop :=
  host_of call.2 <> EmptyString
  /\ command_failure
       (exec_Run call.1 "traceroute"
          (traceroute_args (maxHops_of call.2) (host_of call.2))) = None.

(** ** A sample platform and sample worlds *)

Module Samples.

(** A table standing for [strconv.ParseFloat] on the tokens used below. *)
Definition ParseFloat_table (s : string) : float64 * option NumError :=
  if String.eqb s "1.234" then (S754_finite false 5557441940175192 (-52), None)
  else if String.eqb s "1e999" then (S754_infinity false, Some ErrRange)
  else (float64_zero, Some ErrSyntax).

Definition platform : Platform :=
  {| ParseFloat := ParseFloat_table;
     int_of_unrepresentable := fun _ => - 2 ^ 63;
     Format_RFC3339 := fun t => "T" +:+ pretty t;
     Duration_String := fun d => pretty d +:+ "ns" |}.

Definition output : string :=
"traceroute to 10.0.0.1 (10.0.0.1), 5 hops max, 60 byte packets
 1  10.0.0.1  1.234 ms
 2  *
".

Definition no_names (addr : string) : list string * option string :=
  ([], Some "lookup: no such host").

(** The probe succeeds. *)
Definition world_ok : World :=
  mkWorld (fun _ _ => mkCmdResult None output EmptyString) no_names 100 200.

(** The probe fails and says why. *)
Definition world_unreachable : World :=
  mkWorld (fun _ _ => mkCmdResult (Some "exit status 1") EmptyString "unreachable")
          no_names 100 200.

(** The probe fails and says nothing. *)
Definition world_silent_failure : World :=
  mkWorld (fun _ _ => mkCmdResult (Some "exit status 1") EmptyString EmptyString)
          no_names 100 200.

Definition params_ok : gmap string Value :=
  {[ "host" := VString "10.0.0.1"; "maxHops" := VFloat64 (float64_of_Z 5) ]}.

Definition params_zero_hops : gmap string Value :=
  {[ "host" := VString "10.0.0.1"; "maxHops" := VFloat64 float64_zero ]}.

Definition params_no_host : gmap string Value :=
  {[ "maxHops" := VFloat64 (float64_of_Z 5) ]}.

Definition params_host_only : gmap string Value :=
  {[ "host" := VString "10.0.0.1" ]}.

Definition params_huge_hops : gmap string Value :=
  {[ "host" := VString "10.0.0.1"; "maxHops" := VFloat64 (float64_of_Z (10 ^ 30)) ]}.

Definition hop_line : string := " 1  10.0.0.1  1.234 ms".

(** A hop line whose times carry their unit. *)
Definition unit_line : string := " 1  10.0.0.1  1.234ms  1.301ms".

(** A hop line whose time is too large for a [float64]. *)
Definition huge_line : string := " 4  10.0.0.4  1e999 ms".

(** [hops[0]["rtt"] = 99] on a result. *)
Definition path_to_first_hop : list Selector := [Key "hops"; Index 0].

Definition float64_99 : float64 := float64_of_Z 99.

End Samples.

(** ** Pure readings of the heap

    What the summaries of [executeWithIteration] read, as functions of the
    heap. *)

(** A string without a line feed. *)
Fixpoint no_line_feed (s : string) : bool :=
  match s with
  | EmptyString => true
  | String c rest => negb (byte_of c =? 10) && no_line_feed rest
  end.

(** The string that [last_hop_of] returns in heap [h]. *)
Definition last_hop_in (h : list Object) (elems : list Value) : string :=
  match last elems with
  | Some (VMap l) =>
      match h !! l with
      | Some (ObjMap m) =>
          match m !! "ip" with
          | Some (VString s) => s
          | _ =>
              match m !! "host" with
              | Some (VString s) => s
              | _ => EmptyString
              end
          end
      | _ => EmptyString
      end
  | _ => EmptyString
  end.

(** The pair that [hops_summary] returns in heap [h]. *)
Definition hops_summary_in (h : list Object) (hops : option Value)
  : option (Z * string) :=
  match hops with
  | Some (VSlice SliceOfMaps a n) =>
      match h !! a with
      | Some (ObjArray elems) => Some (Z.of_nat n, last_hop_in h (take n elems))
      | _ => None
      end
  | _ => None
  end.

(** The map literal of the "iteration_data" entry. *)
Definition iteration_data_map (count : Z) (host : string)
    (hopCount : Z) (lastHopIP : string) : gmap string Value :=
  {[ "can_iterate" := VBool true;
     "supports_iteration" := VBool true;
     "iteration_summary" :=
       VString (iteration_summary count host hopCount lastHopIP) ]}.

(** The map literal of one entry of the "history" list. *)
Definition history_entry (i : nat) (timestamp host : string) (hopCount : Z)
    (lastHopIP : string) : gmap string Value :=
  {[ "iteration" := VInt (Z.of_nat i + 1);
     "timestamp" := VString timestamp;
     "host" := VString host;
     "hopCount" := VInt hopCount;
     "lastHop" := VString lastHopIP ]}.

(** The entries that the history loop builds from [results] in heap [h],
    [i] being the index of the head of [results]; the loop stops where Go
    would panic. *)
Fixpoint condensed (h : list Object) (i : nat) (results : list Value)
  : list (gmap string Value) :=
  match results with
  | [] => []
  | VMap l :: rest =>
      match h !! l with
      | Some (ObjMap m) =>
          match m !! "host", m !! "timestamp" with
          | Some (VString host), Some (VString timestamp) =>
              let summary := default (0, EmptyString) (hops_summary_in h (m !! "hops")) in
              history_entry i timestamp host summary.1 summary.2
                :: condensed h (S i) rest
          | _, _ => []
          end
      | _ => []
      end
  | _ :: rest => condensed h (S i) rest
  end.

(** The address shown for the last hop of a run: that of its last record,
    nothing when the run has no record. *)
Definition final_hop (hops : list (gmap string Value)) : string :=
  match last hops with
  | Some hop =>
      match hop !! "host" with
      | Some (VString s) => s
      | _ => EmptyString
      end
  | None => EmptyString
  end.

(** The heap that a run in iteration mode leaves when it does not fail:
    after the objects of the run come the copy for the history, the
    "iteration_data" map and, from the second entry on, the entries of the
    "history" list and their backing array; the result map, at [r], has
    received the iteration entries. *)
Definition heap_after_iteration `{!Platform} (w : World)
    (params : gmap string Value) (st : State) : list Object :=
  let res := exec_Run w "traceroute"
               (traceroute_args (maxHops_of params) (host_of params)) in
  let hops := emitted_hops w 0 (Split_newline (cmd_stdout res)) in
  let r := S (length (heap st) + length hops)%nat in
  let count := wrap_int (IterationCount (plugin st) + 1) in
  let results := (Results (plugin st) ++ [VMap (S r)])%list in
  let resmap := result_map (host_of params) (length (heap st) + length hops)%nat
                  (length hops) (Format_RFC3339 (now_result w)) (cmd_stdout res) in
  let mC := <["elapsedTime" :=
                VString (Duration_String (now_since w - StartTime (plugin st)))]>
              (<["iterationCount" := VInt count]> resmap) in
  let hC := <[r := ObjMap mC]> (heap (state_after_run w params st) ++ [ObjMap resmap])%list in
  let mD := <["iteration_data" := VMap (S (S r))]> mC in
  let hD := <[r := ObjMap mD]>
              (hC ++ [ObjMap (iteration_data_map count (host_of params)
                                (Z.of_nat (length hops)) (final_hop hops))])%list in
  if (1 <? length results)%nat then
    let entries := condensed hD 0 results in
    <[r := ObjMap (<["history" :=
                       VSlice SliceOfMaps (S (S (S r)) + length entries)%nat
                              (length entries)]> mD)]>
      ((hD ++ (ObjMap <$> entries))
         ++ [ObjArray (VMap <$> seq (S (S (S r))) (length entries))])%list
  else hD.

(** Every stored entry is a map. *)
Definition history_of_maps (st : State) : Prop :=
  Forall (fun v => exists l, v = VMap l) (Results (plugin st)).

(** ** Calls in sequence and the command line *)

(** Calls made one after the other on the same plugin, one world for each. *)
Fixpoint serve `{!Platform} (calls : list (World * gmap string Value))
  : Go (list (Value * option error)) :=
  match calls with
  | [] => mret []
  | (w, params) :: rest =>
      out ← Execute w params;
      outs ← serve rest;
      mret (out :: outs)
  end.

(** What [main] gets from the operating system and from [encoding/json],
    whose definitions are outside this repository: the arguments, the
    reading of a file (its contents, or the text of the error), the
    decoding of the parameters (the map, with the heap that holds what its
    values refer to, or the text of the error), the encoding of a result
    read in a heap, and the time at which the plugin is created. *)
Record Process := mkProcess {
  os_Args : list string;
  os_ReadFile : string -> string + string;
  json_Unmarshal : string -> (gmap string Value * list Object) + string;
  json_Marshal : list Object -> Value -> string + string;
  process_start : Z
}.

Definition LF : string := String "010"%char EmptyString.
Definition dquote : string := String "034"%char EmptyString.

(** [fmt.Println(s)]. *)
Definition Println (s : string) : string := s +:+ LF.

(** [strings.HasPrefix] and [strings.TrimPrefix]. *)
Definition HasPrefix (s prefix : string) : bool := String.prefix prefix s.

Definition TrimPrefix (s prefix : string) : string :=
  if HasPrefix s prefix
  then substring (String.length prefix) (String.length s - String.length prefix) s
  else s.

Definition usage : string :=
  "Usage: plugin.go --definition|--execute='{" +:+ dquote +:+ "params" +:+ dquote
    +:+ ":...}'".

(** The line printed for an error of [Execute]: the message between
    quotes, as it is. *)
Definition error_line (msg : string) : string :=
  Println ("{" +:+ dquote +:+ "error" +:+ dquote +:+ ": " +:+ dquote +:+ msg
             +:+ dquote +:+ "}").

(** [main]: what is written on the standard output and the exit status;
    [None] when the program panics. *)
Definition main `{!Platform} (proc : Process) (w : World) : option (string * Z) :=
  let plugin := NewPlugin (process_start proc) in
  match os_Args proc with
  | [] | [_] => Some (Println usage, 1)
  | _ :: arg :: _ =>
      if String.eqb arg "--definition" then
        match os_ReadFile proc "plugin.json" with
        | inr err => Some (Println err, 1)
        | inl definitionBytes => Some (Println definitionBytes, 0)
        end
      else if HasPrefix arg "--execute=" then
        let paramsJSON := TrimPrefix arg "--execute=" in
        match json_Unmarshal proc paramsJSON with
        | inr err => Some (Println err, 1)
        | inl (params, h) =>
            match Execute w params (mkState plugin h []) with
            | Panics => None
            | Returns (_, Some err) _ => Some (error_line err, 1)
            | Returns (result, None) st' =>
                match json_Marshal proc (heap st') result with
                | inr err => Some (Println err, 1)
                | inl resultJSON => Some (Println resultJSON, 0)
                end
            end
        end
      else Some (Println "Unknown command", 1)
  end.

(** What every state of a plugin satisfies: the history is well formed and
    made of maps, and the count is the number of entries. *)
Definition plugin_inv (st : State) : Prop :=
  history_ok st /\ history_of_maps st
  /\ IterationCount (plugin st) = wrap_int (Z.of_nat (length (Results (plugin st)))).

(** The state left by a first call in iteration mode, on the sample world. *)
Definition sample_second_state : State :=
  mkState (mkPlugin [VMap 4%nat] 0 1)
    (@heap_after_iteration Samples.platform Samples.world_ok Samples.params_ok
       (initial_state 0))
    [["traceroute"; "-n"; "-m"; "5"; "10.0.0.1"]].

Definition sample_iterating_params : gmap string Value :=
  {[ "host" := VString "10.0.0.1"; "continueToIterate" := VBool true ]}.

(** A process started as [plugin --execute={}], whose parameters decode to
    the empty map. *)
Definition sample_process : Process :=
  mkProcess ["plugin"; "--execute={}"]
            (fun _ => inr "open plugin.json: no such file or directory")
            (fun _ => inl (∅, []))
            (fun _ _ => inl "{}")
            0.

(** * Properties *)

(** ** Trimming a suffix *)

Section Suffix.

Lemma append_cons c s t : String c s +:+ t = String c (s +:+ t).
Proof. reflexivity. Qed.

Lemma append_nil t : EmptyString +:+ t = t.
Proof. reflexivity. Qed.

Lemma string_length_app s t :
  String.length (s +:+ t) = (String.length s + String.length t)%nat.
Proof.
  induction s as [|c s IH]; [done|].
  rewrite append_cons. simpl. f_equal. exact IH.
Qed.

Lemma substring_whole s : substring 0 (String.length s) s = s.
Proof. induction s as [|c s IH]; simpl; [done|]. f_equal. exact IH. Qed.

Lemma substring_app_l s t : substring 0 (String.length s) (s +:+ t) = s.
Proof.
  induction s as [|c s IH]; [rewrite append_nil; by destruct t|].
  rewrite append_cons. simpl. f_equal. exact IH.
Qed.

Lemma substring_app_r s t m :
  substring (String.length s) m (s +:+ t) = substring 0 m t.
Proof.
  induction s as [|c s IH]; [done|]. rewrite append_cons. simpl. exact IH.
Qed.

Lemma substring_split s : forall n, (n <= String.length s)%nat ->
  s = substring 0 n s +:+ substring n (String.length s - n) s.
Proof.
  induction s as [|c s IH]; intros n Hn.
  - by destruct n.
  - destruct n as [|n]; simpl.
    + rewrite append_nil. f_equal. symmetry. apply substring_whole.
    + simpl in Hn. rewrite append_cons. f_equal. apply IH. lia.
Qed.

(** A string that has the suffix is what comes before it, then the
    suffix. *)
Lemma HasSuffix_split s suffix :
  HasSuffix s suffix = true ->
  s = substring 0 (String.length s - String.length suffix) s +:+ suffix.
Proof.
  intros Hs. apply andb_true_iff in Hs as [Hlen Heq].
  apply Nat.leb_le in Hlen. apply String.eqb_eq in Heq.
  pose proof (substring_split s (String.length s - String.length suffix)) as Hsplit.
  replace (String.length s - (String.length s - String.length suffix))%nat
    with (String.length suffix) in Hsplit by lia.
  rewrite Heq in Hsplit. apply Hsplit. lia.
Qed.

(** [TrimSuffix] removes the suffix when it is there, once. *)
Lemma TrimSuffix_app s suffix : TrimSuffix (s +:+ suffix) suffix = s.
Proof.
  unfold TrimSuffix, HasSuffix. rewrite string_length_app.
  replace (String.length s + String.length suffix - String.length suffix)%nat
    with (String.length s) by lia.
  rewrite substring_app_r, substring_whole, String.eqb_refl, andb_true_r.
  destruct (Nat.leb_spec (String.length suffix) (String.length s + String.length suffix));
    [|lia].
  apply substring_app_l.
Qed.

(** [TrimSuffix] leaves alone a string that does not end with the
    suffix. *)
Lemma TrimSuffix_other s suffix :
  (forall s', s <> s' +:+ suffix) -> TrimSuffix s suffix = s.
Proof.
  intros Hno. unfold TrimSuffix.
  destruct (HasSuffix s suffix) eqn:Hs; [|done].
  by destruct (Hno _ (HasSuffix_split s suffix Hs)).
Qed.

Lemma unit_stripped_TrimSuffix token number :
  unit_stripped token number -> TrimSuffix token "ms" = number.
Proof.
  intros [->|[-> Hno]]; [apply TrimSuffix_app|by apply TrimSuffix_other].
Qed.

(** Every token is of one of the two kinds. *)
Lemma unit_stripped_total token : exists number, unit_stripped token number.
Proof.
  destruct (HasSuffix token "ms") eqn:Hs.
  - eexists. left. by apply HasSuffix_split.
  - exists token. right. split; [done|]. intros s ->.
    pose proof (TrimSuffix_app s "ms") as Ht.
    unfold TrimSuffix in Ht. rewrite Hs in Ht.
    apply (f_equal String.length) in Ht. rewrite string_length_app in Ht.
    simpl in Ht. lia.
Qed.

End Suffix.

(** ** The line parser *)

Section Parser.
Context `{!Platform}.

Lemma hop_record_lookup n ip name rtt :
  hop_record n ip name rtt !! "hop" = Some (VInt n)
  /\ hop_record n ip name rtt !! "host" = Some (VString ip)
  /\ hop_record n ip name rtt !! "name" = Some (VString name)
  /\ hop_record n ip name rtt !! "rtt" = Some (VFloat64 rtt)
  /\ hop_record n ip name rtt !! "status" = Some (VString (status_of ip)).
Proof. repeat split; reflexivity. Qed.

Lemma status_of_other ip : ip <> "*" -> status_of ip = "OK".
Proof.
  intros Hne. unfold status_of.
  apply String.eqb_neq in Hne. by rewrite Hne.
Qed.

(** The three ways out of the loop body. *)
Lemma hop_of_line_cases w line :
  let parts := Fields line in
  (hop_of_line w line = None
   /\ ((length parts < 2)%nat \/ exists v e, Atoi (index parts 0) = (v, Some e)))
  \/ (exists n,
        (2 <= length parts)%nat /\ Atoi (index parts 0) = (n, None)
        /\ (4 <= length parts)%nat /\ index parts 1 <> "*"
        /\ hop_of_line w line =
             Some (hop_record n (index parts 1) (name_of w (index parts 1))
                     (fst (ParseFloat (TrimSuffix (index parts 2) "ms")))))
  \/ (exists n,
        (2 <= length parts)%nat /\ Atoi (index parts 0) = (n, None)
        /\ ((length parts < 4)%nat \/ index parts 1 = "*")
        /\ hop_of_line w line = Some (hop_record n "*" "*" float64_zero)).
Proof.
  intros parts. unfold hop_of_line. fold parts.
  destruct (length parts <? 2)%nat eqn:Hlen.
  { left. apply Nat.ltb_lt in Hlen. auto. }
  apply Nat.ltb_ge in Hlen.
  destruct (Atoi (index parts 0)) as [n [e|]] eqn:Hatoi.
  { left. split; [done|]. right. eauto. }
  right.
  destruct (4 <=? length parts)%nat eqn:H4; simpl.
  - apply Nat.leb_le in H4.
    destruct (String.eqb (index parts 1) "*") eqn:Hstar; simpl.
    + right. exists n. apply String.eqb_eq in Hstar. auto 6.
    + left. exists n. apply String.eqb_neq in Hstar. auto 6.
  - apply Nat.leb_gt in H4. right. exists n. auto 6.
Qed.

Lemma status_of_OK_iff ip : status_of ip = "OK" <-> ip <> "*".
Proof.
  split.
  - intros Hs ->. discriminate Hs.
  - apply status_of_other.
Qed.

(** C5: a hop line (its first token is the hop number) whose second token
    is the timeout sentinel yields a record with address and display name
    "*", a zero round-trip time and the status "NO RESPONSE". *)
Theorem timeout_hop_is_unresponsive w line t0 rest n :
  Fields line = t0 :: "*" :: rest ->
  Atoi t0 = (n, None) ->
  exists m,
    hop_of_line w line = Some m
    /\ m !! "hop" = Some (VInt n)
    /\ m !! "host" = Some (VString "*")
    /\ m !! "name" = Some (VString "*")
    /\ m !! "rtt" = Some (VFloat64 float64_zero)
    /\ m !! "status" = Some (VString "NO RESPONSE").
Proof.
  intros Hparts Hatoi.
  exists (hop_record n "*" "*" float64_zero). split.
  - unfold hop_of_line. rewrite Hparts. cbn [length index nth Nat.ltb Nat.leb].
    rewrite Hatoi. by rewrite andb_false_r.
  - repeat split.
Qed.

(** C6 (amended): a line is passed over exactly when it has fewer than two
    tokens or its first token is not an integer for [strconv.Atoi]; a
    line that is not passed over yields a record whose hop number is that
    integer, of either sign. *)
Theorem skipped_lines w line :
  (hop_of_line w line = None
   <-> (length (Fields line) < 2)%nat
       \/ snd (Atoi (index (Fields line) 0)) <> None)
  /\ (forall m, hop_of_line w line = Some m ->
        exists n, Atoi (index (Fields line) 0) = (n, None)
                  /\ m !! "hop" = Some (VInt n)).
Proof.
  destruct (hop_of_line_cases w line)
    as [[Hnone Hwhy] | [(n & Hlen & Hatoi & _ & _ & Hsome)
                       | (n & Hlen & Hatoi & _ & Hsome)]].
  - split.
    + split; [intros _|done].
      destruct Hwhy as [?|(v & e & Hatoi)]; [by left|right].
      by rewrite Hatoi.
    + intros m Hm. congruence.
  - split.
    + split; [congruence|].
      intros [?|Herr]; [lia|]. by rewrite Hatoi in Herr.
    + intros m Hm. exists n. split; [done|].
      rewrite Hsome in Hm. by injection Hm as <-.
  - split.
    + split; [congruence|].
      intros [?|Herr]; [lia|]. by rewrite Hatoi in Herr.
    + intros m Hm. exists n. split; [done|].
      rewrite Hsome in Hm. by injection Hm as <-.
Qed.

(** C7: in every record the parser emits, the status is "OK" exactly when
    the address is not "*", and an address "*" comes with a zero round-trip
    time and the display name "*". *)
Theorem hop_record_consistent w line m :
  hop_of_line w line = Some m ->
  exists hopIP hopName rtt status,
    m !! "host" = Some (VString hopIP)
    /\ m !! "name" = Some (VString hopName)
    /\ m !! "rtt" = Some (VFloat64 rtt)
    /\ m !! "status" = Some (VString status)
    /\ (status = "OK" \/ status = "NO RESPONSE")
    /\ (status = "OK" <-> hopIP <> "*")
    /\ (hopIP = "*" -> rtt = float64_zero /\ hopName = "*").
Proof.
  intros Hm.
  destruct (hop_of_line_cases w line)
    as [[Hnone _] | [(n & _ & _ & _ & Hip & Hsome)
                    | (n & _ & _ & _ & Hsome)]];
    rewrite Hm in *; try discriminate.
  - injection Hsome as ->.
    eexists _, _, _, _. repeat split; try reflexivity.
    + left. by apply status_of_other.
    + by apply status_of_OK_iff.
    + by apply status_of_OK_iff.
    + contradiction.
    + contradiction.
  - injection Hsome as ->.
    exists "*", "*", float64_zero, "NO RESPONSE".
    repeat split; try reflexivity; try discriminate.
    + by right.
    + intros Hne. by destruct Hne.
Qed.

(** C9 (amended): a hop line with at least four tokens whose second token
    is not "*" always yields a record, and its round-trip time is the
    number that [strconv.ParseFloat] returns for the third token without
    its trailing "ms", the error being dropped: the parsed number when
    there is no error, zero when the token is not the syntax of a number,
    an infinity when it is a number out of the range of [float64]. *)
Theorem responsive_hop_rtt w line n :
  ParseFloat_zero_on_syntax_error ->
  ParseFloat_infinite_on_range_error ->
  (4 <= length (Fields line))%nat ->
  index (Fields line) 1 <> "*" ->
  Atoi (index (Fields line) 0) = (n, None) ->
  exists m rtt,
    hop_of_line w line = Some m
    /\ m !! "hop" = Some (VInt n)
    /\ m !! "host" = Some (VString (index (Fields line) 1))
    /\ m !! "status" = Some (VString "OK")
    /\ m !! "rtt" = Some (VFloat64 rtt)
    /\ (exists number, unit_stripped (index (Fields line) 2) number)
    /\ forall number,
         unit_stripped (index (Fields line) 2) number ->
         rtt = fst (ParseFloat number)
         /\ (forall v, ParseFloat number = (v, None) -> rtt = v)
         /\ (snd (ParseFloat number) = Some ErrSyntax -> rtt = float64_zero)
         /\ (snd (ParseFloat number) = Some ErrRange ->
             exists sign, rtt = S754_infinity sign).
Proof.
  intros Hsyntax Hrange Hlen Hip Hatoi.
  set (token := TrimSuffix (index (Fields line) 2) "ms").
  destruct (hop_record_lookup n (index (Fields line) 1)
              (name_of w (index (Fields line) 1)) (fst (ParseFloat token)))
    as (Hhop & Hhost & _ & Hrtt & Hstatus).
  rewrite (status_of_other _ Hip) in Hstatus.
  eexists _, _.
  split; [|split; [exact Hhop|split; [exact Hhost|split; [exact Hstatus|
           split; [exact Hrtt|split]]]]].
  - unfold hop_of_line.
    destruct (length (Fields line) <? 2)%nat eqn:H2;
      [apply Nat.ltb_lt in H2; lia|].
    rewrite Hatoi.
    apply Nat.leb_le in Hlen. rewrite Hlen.
    apply String.eqb_neq in Hip. rewrite Hip. reflexivity.
  - apply unit_stripped_total.
  - intros number Hnumber. apply unit_stripped_TrimSuffix in Hnumber.
    subst token. rewrite Hnumber.
    split; [reflexivity|].
    destruct (ParseFloat number) as [f e] eqn:Hpf. simpl.
    split; [by intros v [= <- _]|]. split.
    + intros ->. by apply Hsyntax in Hpf.
    + intros ->. by apply Hrange in Hpf.
Qed.

(** C10: a line with two or three tokens whose first token is an integer
    and whose second token is not "*" is not passed over; its second token
    is dropped and the record is that of an unresponsive hop. *)
Theorem short_line_is_unresponsive w line n :
  (2 <= length (Fields line) < 4)%nat ->
  Atoi (index (Fields line) 0) = (n, None) ->
  index (Fields line) 1 <> "*" ->
  exists m,
    hop_of_line w line = Some m
    /\ m !! "hop" = Some (VInt n)
    /\ m !! "host" = Some (VString "*")
    /\ m !! "name" = Some (VString "*")
    /\ m !! "rtt" = Some (VFloat64 float64_zero)
    /\ m !! "status" = Some (VString "NO RESPONSE").
Proof.
  intros [Hlo Hhi] Hatoi _.
  exists (hop_record n "*" "*" float64_zero). split.
  - unfold hop_of_line.
    destruct (length (Fields line) <? 2)%nat eqn:H2;
      [apply Nat.ltb_lt in H2; lia|].
    rewrite Hatoi.
    destruct (4 <=? length (Fields line))%nat eqn:H4;
      [apply Nat.leb_le in H4; lia|].
    reflexivity.
  - repeat split.
Qed.

End Parser.

(** ** One run *)

Section Run.
Context `{!Platform}.

Lemma bind_unfold {A B} (m : Go A) (f : A -> Go B) st :
  (m ≫= f) st = match m st with Returns a st' => f a st' | Panics => Panics end.
Proof. reflexivity. Qed.

(** The loop allocates the emitted records one after the other and
    changes nothing else. *)
Lemma parse_lines_emitted w lines : forall i st,
  parse_lines w i lines st =
    Returns (VMap <$> seq (length (heap st)) (length (emitted_hops w i lines)))
            (mkState (plugin st) (heap st ++ (ObjMap <$> emitted_hops w i lines))
                     (probes st)).
Proof.
  induction lines as [|line rest IH]; intros i st.
  - cbn. rewrite app_nil_r. by destruct st.
  - cbn [parse_lines emitted_hops].
    destruct ((i =? 0)%nat || (String.length line =? 0)%nat); [apply IH|].
    destruct (hop_of_line w line) as [hop|]; [|apply IH].
    rewrite bind_unfold. cbn [new_object].
    rewrite bind_unfold, IH. cbn.
    rewrite length_app, Nat.add_1_r, <- app_assoc. reflexivity.
Qed.

Lemma performTraceroute_no_host w params st :
  host_of params = EmptyString ->
  performTraceroute w params st = Returns (VNil, Some host_required) st.
Proof. intros Hhost. unfold performTraceroute. by rewrite Hhost. Qed.

Lemma performTraceroute_failure w params st e :
  host_of params <> EmptyString ->
  command_failure (exec_Run w "traceroute"
                     (traceroute_args (maxHops_of params) (host_of params))) = Some e ->
  performTraceroute w params st =
    Returns (VNil, Some e)
      (mkState (plugin st) (heap st)
         (probes st ++ ["traceroute" :: traceroute_args (maxHops_of params) (host_of params)])).
Proof.
  intros Hhost Hfail. unfold performTraceroute.
  apply String.eqb_neq in Hhost. rewrite Hhost.
  rewrite bind_unfold. cbn [run_command]. by rewrite Hfail.
Qed.

Lemma performTraceroute_success w params st :
  host_of params <> EmptyString ->
  command_failure (exec_Run w "traceroute"
                     (traceroute_args (maxHops_of params) (host_of params))) = None ->
  performTraceroute w params st =
    Returns (VMap (S (length (heap st)
                      + length (emitted_hops w 0
                          (Split_newline
                             (cmd_stdout
                                (exec_Run w "traceroute"
                                   (traceroute_args (maxHops_of params) (host_of params))))))))%nat,
             None)
            (state_after_run w params st).
Proof.
  intros Hhost Hok. unfold performTraceroute, state_after_run.
  apply String.eqb_neq in Hhost. rewrite Hhost.
  rewrite bind_unfold. cbn [run_command]. rewrite Hok.
  rewrite bind_unfold, parse_lines_emitted.
  repeat (rewrite bind_unfold; cbn [new_object heap plugin probes]).
  unfold mret, Go_ret.
  rewrite !length_app, !length_fmap, length_seq. cbn [length].
  rewrite Nat.add_1_r. reflexivity.
Qed.

(** Where the objects of a run are. *)
Lemma state_after_run_heap w params st :
  let res := exec_Run w "traceroute"
               (traceroute_args (maxHops_of params) (host_of params)) in
  let hops := emitted_hops w 0 (Split_newline (cmd_stdout res)) in
  let n0 := length (heap st) in
  let h' := heap (state_after_run w params st) in
  length h' = S (S (n0 + length hops)%nat)
  /\ (forall l o, heap st !! l = Some o -> h' !! l = Some o)
  /\ (forall i m, hops !! i = Some m -> h' !! (n0 + i)%nat = Some (ObjMap m))
  /\ h' !! (n0 + length hops)%nat = Some (ObjArray (VMap <$> seq n0 (length hops)))
  /\ h' !! S (n0 + length hops)%nat =
       Some (ObjMap (result_map (host_of params) (n0 + length hops)%nat (length hops)
                       (Format_RFC3339 (now_result w)) (cmd_stdout res))).
Proof.
  intros res hops n0 h'. subst h'. unfold state_after_run.
  fold res. fold hops. fold n0. cbn [heap].
  repeat split.
  - rewrite !length_app, length_fmap. cbn [length]. lia.
  - intros l o Hl. rewrite <- !app_assoc. by apply lookup_app_l_Some.
  - intros i m Hi. rewrite <- !app_assoc.
    rewrite lookup_app_r by lia.
    replace (n0 + i - length (heap st))%nat with i by lia.
    apply lookup_app_l_Some. by rewrite list_lookup_fmap, Hi.
  - rewrite lookup_app_l by (rewrite !length_app, length_fmap; cbn [length]; lia).
    rewrite lookup_app_r by (rewrite !length_app, length_fmap; lia).
    rewrite !length_app, length_fmap.
    replace (n0 + length hops - (length (heap st) + length hops))%nat with 0%nat by lia.
    reflexivity.
  - rewrite lookup_app_r by (rewrite !length_app, length_fmap; cbn [length]; lia).
    rewrite !length_app, length_fmap. cbn [length].
    replace (S (n0 + length hops) - (length (heap st) + length hops + 1))%nat
      with 0%nat by lia.
    reflexivity.
Qed.

Lemma command_failure_Some res err :
  cmd_err res = Some err -> cmd_stderr res <> EmptyString ->
  command_failure res = Some (traceroute_failed err (cmd_stderr res)).
Proof.
  intros Herr Hne. unfold command_failure. rewrite Herr.
  destruct (cmd_stderr res); [done|reflexivity].
Qed.

Lemma command_failure_silent res :
  cmd_stderr res = EmptyString -> command_failure res = None.
Proof.
  intros Hs. unfold command_failure. rewrite Hs. by destruct (cmd_err res).
Qed.

(** A command that succeeds makes a call that is not refused. *)
Lemma run_succeeds_of_success w params :
  host_of params <> EmptyString ->
  cmd_err (exec_Run w "traceroute"
             (traceroute_args (maxHops_of params) (host_of params))) = None ->
  run_succeeds (w, params).
Proof.
  intros Hhost Herr. split; [done|]. cbn. unfold command_failure. by rewrite Herr.
Qed.

(** C1 (amended): when the command fails and wrote to its standard error,
    the run returns no result and the error "traceroute failed" with the
    text of the failure and that of the standard error, and has allocated
    nothing; when the command fails and wrote nothing to its standard
    error, the run returns no error: it returns the result assembled from
    the standard output. *)
Theorem probe_failure_reported w params st err :
  host_of params <> EmptyString ->
  cmd_err (exec_Run w "traceroute"
             (traceroute_args (maxHops_of params) (host_of params))) = Some err ->
  let res := exec_Run w "traceroute"
               (traceroute_args (maxHops_of params) (host_of params)) in
  (cmd_stderr res <> EmptyString ->
     exists st',
       performTraceroute w params st =
         Returns (VNil, Some (traceroute_failed err (cmd_stderr res))) st'
       /\ heap st' = heap st /\ plugin st' = plugin st)
  /\ (cmd_stderr res = EmptyString ->
     exists r st',
       performTraceroute w params st = Returns (VMap r, None) st'
       /\ heap st' !! r =
            Some (ObjMap (result_map (host_of params)
                            (length (heap st)
                             + length (emitted_hops w 0 (Split_newline (cmd_stdout res))))%nat
                            (length (emitted_hops w 0 (Split_newline (cmd_stdout res))))
                            (Format_RFC3339 (now_result w)) (cmd_stdout res)))).
Proof.
  intros Hhost Herr res. split.
  - intros Hne. eexists. split; [|split].
    + apply performTraceroute_failure; [done|].
      by apply command_failure_Some.
    + reflexivity.
    + reflexivity.
  - intros Hsilent. eexists _, _. split.
    + apply performTraceroute_success; [done|].
      by apply command_failure_silent.
    + apply (state_after_run_heap w params st).
Qed.

Lemma int_of_float64_30 : int_of_float64 (float64_of_Z 30) = 30.
Proof. reflexivity. Qed.

(** C3 (amended): the run uses 30 when the maxHops parameter is absent or
    is not a number; when it is a number whose integer part is an [int]
    the run uses that integer part, of either sign; when it is a number
    that has no [int] value (not a number, infinite, integer part out of
    range) the run uses what the conversion makes of it on the platform;
    in every case that value is what the command receives after "-m". *)
Theorem maxHops_default params :
  ((forall f, params !! "maxHops" <> Some (VFloat64 f)) -> maxHops_of params = 30)
  /\ (forall f z, params !! "maxHops" = Some (VFloat64 f) ->
        trunc_float64 f = Some z -> in_int_range z = true ->
        maxHops_of params = z)
  /\ (forall f, params !! "maxHops" = Some (VFloat64 f) ->
        (trunc_float64 f = None
         \/ exists z, trunc_float64 f = Some z /\ in_int_range z = false) ->
        maxHops_of params = int_of_unrepresentable f)
  /\ (forall w st, host_of params <> EmptyString ->
        exists out st',
          performTraceroute w params st = Returns out st'
          /\ probes st' =
               (probes st ++ [["traceroute"; "-n"; "-m"; pretty (maxHops_of params);
                               host_of params]])%list).
Proof.
  split; [|split; [|split]].
  - intros Hnot. unfold maxHops_of.
    destruct (params !! "maxHops") as [[]|]; try apply int_of_float64_30.
    by destruct (Hnot f).
  - intros f z Hf Hz Hr. unfold maxHops_of. rewrite Hf. cbn.
    unfold int_of_float64. by rewrite Hz, Hr.
  - intros f Hf Hno. unfold maxHops_of. rewrite Hf. cbn.
    unfold int_of_float64.
    destruct Hno as [->|(z & -> & ->)]; reflexivity.
  - intros w st Hhost.
    destruct (command_failure
                (exec_Run w "traceroute"
                   (traceroute_args (maxHops_of params) (host_of params))))
      as [e|] eqn:Hf.
    + eexists _, _. split; [by apply performTraceroute_failure|reflexivity].
    + eexists _, _. split; [by apply performTraceroute_success|reflexivity].
Qed.

End Run.

(** ** The history *)

Section History.
Context `{!Platform}.
Local Open Scope list_scope.

Lemma heap_incl_app h h2 : heap_incl h (h ++ h2).
Proof. intros l o Hl. by apply lookup_app_l_Some. Qed.

Lemma last_ok_mono h h' v : heap_incl h h' -> last_ok h v -> last_ok h' v.
Proof.
  intros Hincl. destruct v as [[]|]; cbn; try done.
  intros [m Hm]. exists m. by apply Hincl.
Qed.

Lemma hops_ok_mono h h' v : heap_incl h h' -> hops_ok h v -> hops_ok h' v.
Proof.
  intros Hincl. destruct v as [[| | | | | |[] a n]|]; cbn; try done.
  intros (elems & Ha & Hlast). exists elems. split; [by apply Hincl|].
  by apply (last_ok_mono h).
Qed.

Lemma entry_ok_mono h h' v : heap_incl h h' -> entry_ok h v -> entry_ok h' v.
Proof.
  intros Hincl. destruct v; cbn; try done.
  intros (m & host & ts & Hl & Hhost & Hts & Hhops).
  exists m, host, ts. repeat split; try done; [by apply Hincl|].
  by apply (hops_ok_mono h).
Qed.

Lemma value_refs_mono (P Q : loc -> Prop) v :
  (forall l, P l -> Q l) -> value_refs P v -> value_refs Q v.
Proof. intros HPQ. destruct v; cbn; auto. Qed.

(** Elementary steps. *)
Lemma load_map_eq l m st :
  heap st !! l = Some (ObjMap m) -> load_map l st = Returns m st.
Proof.
  intros Hl. unfold load_map. rewrite bind_unfold. unfold load. by rewrite Hl.
Qed.

Lemma map_index_eq l k m st :
  heap st !! l = Some (ObjMap m) -> map_index l k st = Returns (m !! k) st.
Proof.
  intros Hl. unfold map_index. rewrite bind_unfold. by rewrite (load_map_eq l m).
Qed.

Lemma load_slice_eq a n elems st :
  heap st !! a = Some (ObjArray elems) -> load_slice a n st = Returns (take n elems) st.
Proof.
  intros Ha. unfold load_slice. rewrite bind_unfold. unfold load. by rewrite Ha.
Qed.

(** The summaries only read, and never panic on a well-formed "hops". *)
Lemma last_hop_of_returns elems st :
  last_ok (heap st) (last elems) ->
  exists s, last_hop_of elems st = Returns s st.
Proof.
  unfold last_hop_of. destruct (last elems) as [v|]; [|by eexists].
  destruct v; try by eexists.
  intros [m Hm]. rewrite bind_unfold, (map_index_eq l "ip" m) by done.
  destruct (m !! "ip") as [[]|]; try by eexists.
  all: rewrite bind_unfold, (map_index_eq l "host" m) by done.
  all: destruct (m !! "host") as [[]|]; by eexists.
Qed.

Lemma hops_summary_returns v st :
  hops_ok (heap st) v ->
  exists s, hops_summary v st = Returns s st.
Proof.
  unfold hops_summary. destruct v as [[| | | | | |[] a n]|]; try by eexists.
  intros (elems & Ha & Hlast).
  rewrite bind_unfold, (load_slice_eq a n elems) by done.
  destruct (last_hop_of_returns (take n elems) st Hlast) as [s Hs].
  rewrite bind_unfold, Hs. by eexists.
Qed.

Lemma map_assign_eq l k v m st :
  heap st !! l = Some (ObjMap m) ->
  map_assign l k v st =
    Returns tt (mkState (plugin st) (<[l := ObjMap (<[k := v]> m)]> (heap st)) (probes st)).
Proof. intros Hl. unfold map_assign. by rewrite Hl. Qed.

Lemma must_string_index l k m s st :
  heap st !! l = Some (ObjMap m) -> m !! k = Some (VString s) ->
  (map_index l k ≫= must_string) st = Returns s st.
Proof.
  intros Hl Hk. by rewrite bind_unfold, (map_index_eq l k m), Hk.
Qed.

Lemma annotating_start r h1 resmap :
  h1 !! r = Some (ObjMap resmap) ->
  (forall k v, k <> "hops" -> resmap !! k = Some v -> value_refs (fun _ => False) v) ->
  annotating r h1 resmap (h1 ++ [ObjMap resmap]).
Proof.
  intros Hr Hscalar.
  assert (r < length h1)%nat by (by eapply lookup_lt_Some).
  split.
  - done.
  - rewrite length_app. cbn. lia.
  - intros l o _ Hl. by apply lookup_app_l_Some.
  - by rewrite lookup_app_r, Nat.sub_diag.
  - exists resmap. repeat split; [by apply lookup_app_l_Some|].
    intros k v Hk Hv. eapply value_refs_mono; [|by eapply Hscalar]. done.
  - intros l o Hl Ho. apply lookup_lt_Some in Ho.
    rewrite length_app in Ho. cbn in Ho. lia.
Qed.

Lemma annotating_alloc r h1 resmap h o :
  annotating r h1 resmap h ->
  object_refs (fun l => (length h1 < l)%nat) o ->
  annotating r h1 resmap (h ++ [o]).
Proof.
  intros [Hr Hlen Hold Hcopy Hres Hnew] Ho. split.
  - done.
  - rewrite length_app. lia.
  - intros l o' Hne Hl. apply lookup_app_l_Some. auto.
  - by apply lookup_app_l_Some.
  - destruct Hres as (m & Hm & ?). exists m. split; [|done].
    by apply lookup_app_l_Some.
  - intros l o' Hl Hlook.
    apply lookup_app_Some in Hlook as [Hlook|[_ Hlook]]; [eauto|].
    apply list_lookup_singleton_Some in Hlook as [_ <-]. done.
Qed.

Lemma annotating_assign r h1 resmap h k v :
  annotating r h1 resmap h ->
  k <> "host" -> k <> "hops" ->
  value_refs (fun l => (length h1 < l)%nat) v ->
  exists m, h !! r = Some (ObjMap m)
            /\ annotating r h1 resmap (<[r := ObjMap (<[k := v]> m)]> h).
Proof.
  intros [Hr Hlen Hold Hcopy Hres Hnew] Hk1 Hk2 Hv.
  destruct Hres as (m & Hm & Hhost & Hhops & Hrest).
  exists m. split; [done|]. split.
  - done.
  - by rewrite length_insert.
  - intros l o Hne Hl. rewrite list_lookup_insert_ne by done. auto.
  - rewrite list_lookup_insert_ne by lia. done.
  - exists (<[k := v]> m). repeat split.
    + apply list_lookup_insert_eq. lia.
    + by rewrite lookup_insert_ne.
    + by rewrite lookup_insert_ne.
    + intros k' v' Hk' Hlook.
      apply lookup_insert_Some in Hlook as [[_ <-]|[_ Hlook]]; eauto.
  - intros l o Hl Hlook. rewrite list_lookup_insert_ne in Hlook by lia. eauto.
Qed.

Lemma annotating_incl r h1 resmap h :
  annotating r h1 resmap h -> heap_incl (take r h1) h.
Proof.
  intros Han l o Hl. apply lookup_take_Some in Hl as [Hl Hlt].
  apply (an_old _ _ _ _ Han); [lia|done].
Qed.

Lemma scalar_refs (P : loc -> Prop) v :
  value_refs (fun _ => False) v -> value_refs P v.
Proof. apply value_refs_mono. done. Qed.

(** The history loop reads the entries, allocates one summary for each
    and changes nothing else. *)
Lemma history_entries_spec r h1 resmap results : forall i p h pr,
  annotating r h1 resmap h ->
  Forall (entry_ok h) results ->
  exists es h',
    history_entries i results (mkState p h pr) = Returns es (mkState p h' pr)
    /\ annotating r h1 resmap h'
    /\ Forall (value_refs (fun l => (length h1 < l)%nat)) es.
Proof.
  induction results as [|res rest IH]; intros i p h pr Han Hok.
  - exists [], h. split; [reflexivity|]. split; [done|constructor].
  - apply Forall_cons in Hok as [Hres Hrest].
    destruct res; try (cbn [history_entries]; by apply IH).
    destruct Hres as (m & host & ts & Hl & Hhost & Hts & Hhops).
    cbn [history_entries].
    rewrite bind_unfold, (must_string_index l "host" m host) by done.
    rewrite bind_unfold, (must_string_index l "timestamp" m ts) by done.
    rewrite bind_unfold, (map_index_eq l "hops" m) by done.
    destruct (hops_summary_returns (m !! "hops") (mkState p h pr) Hhops) as [s Hs].
    rewrite bind_unfold, Hs.
    destruct (default (0, EmptyString) s) as [hopCount lastHopIP].
    rewrite bind_unfold. cbn [new_object heap plugin probes].
    set (entry := ObjMap _).
    assert (Han' : annotating r h1 resmap (h ++ [entry])).
    { apply annotating_alloc; [done|]. subst entry. cbn.
      repeat apply map_Forall_insert_2; try apply map_Forall_singleton; done. }
    destruct (IH (S i) p (h ++ [entry]) pr Han') as (es & h' & Hes & Han'' & Hrefs).
    { eapply Forall_impl; [exact Hrest|].
      intros v. apply entry_ok_mono, heap_incl_app. }
    rewrite bind_unfold, Hes.
    exists (VMap (length h) :: es), h'. split; [reflexivity|]. split; [done|].
    apply Forall_cons. split; [|done]. cbn. apply (an_len _ _ _ _ Han).
Qed.

Lemma add_iteration_data_spec r h1 resmap host p h pr :
  annotating r h1 resmap h ->
  resmap !! "host" = Some (VString host) ->
  hops_ok (take r h1) (resmap !! "hops") ->
  exists h',
    add_iteration_data r (mkState p h pr) = Returns tt (mkState p h' pr)
    /\ annotating r h1 resmap h'.
Proof.
  intros Han Hhost Hhops.
  destruct (an_result _ _ _ _ Han) as (m & Hm & Hmhost & Hmhops & _).
  unfold add_iteration_data.
  rewrite bind_unfold. cbn [get_plugin plugin].
  rewrite bind_unfold, (must_string_index r "host" m host) by (done || congruence).
  rewrite bind_unfold, (map_index_eq r "hops" m), Hmhops by done.
  destruct (hops_summary_returns (resmap !! "hops") (mkState p h pr)) as [s Hs].
  { eapply hops_ok_mono; [|exact Hhops]. by eapply annotating_incl. }
  rewrite bind_unfold, Hs.
  destruct s as [[hopCount lastHopIP]|]; [|by exists h].
  rewrite bind_unfold. cbn [new_object heap plugin probes].
  set (d := ObjMap _).
  assert (Han' : annotating r h1 resmap (h ++ [d])).
  { apply annotating_alloc; [done|]. subst d. cbn.
    repeat apply map_Forall_insert_2; try apply map_Forall_singleton; done. }
  destruct (annotating_assign r h1 resmap (h ++ [d]) "iteration_data" (VMap (length h)))
    as (m' & Hm' & Han''); try done.
  { cbn. apply (an_len _ _ _ _ Han). }
  rewrite (map_assign_eq r _ _ m') by done.
  eexists. split; [reflexivity|done].
Qed.

Lemma add_history_summary_spec r h1 resmap p h pr :
  annotating r h1 resmap h ->
  Forall (entry_ok h) (Results p) ->
  exists h',
    add_history_summary r (mkState p h pr) = Returns tt (mkState p h' pr)
    /\ annotating r h1 resmap h'.
Proof.
  intros Han Hok. unfold add_history_summary.
  rewrite bind_unfold. cbn [get_plugin plugin].
  destruct (1 <? length (Results p))%nat; [|by exists h].
  destruct (history_entries_spec r h1 resmap (Results p) 0%nat p h pr Han Hok)
    as (es & h' & Hes & Han' & Hrefs).
  rewrite bind_unfold, Hes.
  rewrite bind_unfold. cbn [new_object heap plugin probes].
  assert (Han'' : annotating r h1 resmap (h' ++ [ObjArray es])).
  { by apply annotating_alloc. }
  destruct (annotating_assign r h1 resmap (h' ++ [ObjArray es]) "history"
              (VSlice SliceOfMaps (length h') (length es)))
    as (m' & Hm' & Han3); try done.
  { cbn. apply (an_len _ _ _ _ Han'). }
  rewrite (map_assign_eq r _ _ m') by done.
  eexists. split; [reflexivity|done].
Qed.

(** The copy is a well-formed history entry as long as the annotation
    lasts. *)
Lemma copy_entry_ok r h1 resmap host ts h :
  annotating r h1 resmap h ->
  resmap !! "host" = Some (VString host) ->
  resmap !! "timestamp" = Some (VString ts) ->
  hops_ok (take r h1) (resmap !! "hops") ->
  entry_ok h (VMap (length h1)).
Proof.
  intros Han Hhost Hts Hhops.
  exists resmap, host, ts. repeat split; try done.
  - apply (an_copy _ _ _ _ Han).
  - eapply hops_ok_mono; [|exact Hhops]. by eapply annotating_incl.
Qed.

Lemma annotate_spec w r resmap host ts p h1 pr :
  h1 !! r = Some (ObjMap resmap) ->
  resmap !! "host" = Some (VString host) ->
  resmap !! "timestamp" = Some (VString ts) ->
  hops_ok (take r h1) (resmap !! "hops") ->
  Forall (entry_ok (take r h1)) (Results p) ->
  (forall k v, k <> "hops" -> resmap !! k = Some v -> value_refs (fun _ => False) v) ->
  exists h',
    annotate w r (mkState p h1 pr) =
      Returns tt (mkState (mkPlugin (Results p ++ [VMap (length h1)])
                                    (StartTime p) (IterationCount p)) h' pr)
    /\ annotating r h1 resmap h'.
Proof.
  intros Hr Hhost Hts Hhops Hold Hscalar.
  pose proof (annotating_start r h1 resmap Hr Hscalar) as Han0.
  unfold annotate.
  rewrite bind_unfold, (load_map_eq r resmap) by done.
  rewrite bind_unfold. cbn [new_object heap plugin probes].
  rewrite bind_unfold. cbn [get_plugin heap plugin probes].
  rewrite bind_unfold. cbn [set_plugin heap plugin probes].
  set (p' := mkPlugin _ _ _).
  destruct (annotating_assign r h1 resmap _ "iterationCount" (VInt (IterationCount p)) Han0)
    as (m1 & Hm1 & Han1); try done.
  rewrite bind_unfold, (map_assign_eq r _ _ m1) by done.
  cbn [heap plugin probes].
  destruct (annotating_assign r h1 resmap _ "elapsedTime"
              (VString (Duration_String (now_since w - StartTime p))) Han1)
    as (m2 & Hm2 & Han2); try done.
  rewrite bind_unfold, (map_assign_eq r _ _ m2) by done.
  cbn [heap plugin probes].
  destruct (add_iteration_data_spec r h1 resmap host p' _ pr Han2 Hhost Hhops)
    as (h3 & Hh3 & Han3).
  rewrite bind_unfold, Hh3.
  destruct (add_history_summary_spec r h1 resmap p' h3 pr Han3) as (h4 & Hh4 & Han4).
  { subst p'. cbn [Results]. apply Forall_app. split.
    - eapply Forall_impl; [exact Hold|].
      intros v. apply entry_ok_mono. by eapply annotating_incl.
    - apply Forall_singleton. by eapply copy_entry_ok. }
  exists h4. by split.
Qed.

Lemma result_map_scalars host a n ts out k v :
  k <> "hops" -> result_map host a n ts out !! k = Some v ->
  value_refs (fun _ => False) v.
Proof.
  intros Hk. unfold result_map.
  rewrite !lookup_insert_Some, lookup_singleton_Some.
  intros [[_ <-]|[_ [[? _]|[_ [[_ <-]|[_ [_ <-]]]]]]]; done.
Qed.

(** The result of a run, seen from below its own address, has a
    well-formed "hops" entry. *)
Lemma run_hops_ok w params st :
  let st1 := state_after_run w params st in
  let hops := emitted_hops w 0
                (Split_newline
                   (cmd_stdout (exec_Run w "traceroute"
                                  (traceroute_args (maxHops_of params) (host_of params))))) in
  hops_ok (take (S (length (heap st) + length hops)) (heap st1))
          (Some (VSlice SliceOfMaps (length (heap st) + length hops)%nat (length hops))).
Proof.
  intros st1 hops.
  destruct (state_after_run_heap w params st) as (Hlen & Hold & Hmaps & Harr & Hres).
  fold hops in Hlen, Hmaps, Harr, Hres. fold st1 in Hlen, Hold, Hmaps, Harr, Hres.
  cbn [hops_ok]. eexists. split.
  - rewrite lookup_take_lt by lia. exact Harr.
  - rewrite (take_ge (VMap <$> _)) by (by rewrite length_fmap, length_seq).
    rewrite last_lookup, length_fmap, length_seq, list_lookup_fmap.
    destruct (length hops) as [|k] eqn:Hk; [done|].
    cbn [pred]. rewrite lookup_seq_lt by lia. cbn.
    destruct (lookup_lt_is_Some_2 hops k) as [m Hm]; [lia|].
    exists m. rewrite lookup_take_lt by lia. by apply Hmaps.
Qed.

(** A run in iteration mode that does not fail: the call returns the
    result, the counter is incremented, the copy is appended to the
    history, and the heap is as [annotating] says. *)
Lemma executeWithIteration_success w params st :
  history_ok st ->
  host_of params <> EmptyString ->
  command_failure (exec_Run w "traceroute"
                     (traceroute_args (maxHops_of params) (host_of params))) = None ->
  let res := exec_Run w "traceroute"
               (traceroute_args (maxHops_of params) (host_of params)) in
  let hops := emitted_hops w 0 (Split_newline (cmd_stdout res)) in
  let st1 := state_after_run w params st in
  let r := S (length (heap st) + length hops) in
  exists h',
    executeWithIteration w params st =
      Returns (VMap r, None)
        (mkState (mkPlugin (Results (plugin st) ++ [VMap (S r)])
                           (StartTime (plugin st))
                           (wrap_int (IterationCount (plugin st) + 1)))
                 h' (probes st1))
    /\ annotating r (heap st1)
         (result_map (host_of params) (length (heap st) + length hops)%nat (length hops)
            (Format_RFC3339 (now_result w)) (cmd_stdout res))
         h'
    /\ history_ok (mkState (mkPlugin (Results (plugin st) ++ [VMap (S r)])
                           (StartTime (plugin st))
                           (wrap_int (IterationCount (plugin st) + 1)))
                 h' (probes st1)).
Proof.
  intros Hok Hhost Hcmd res hops st1 r.
  destruct (state_after_run_heap w params st) as (Hlen & Hold & Hmaps & Harr & Hres).
  fold res in Hlen, Hmaps, Harr, Hres. fold hops in Hlen, Hmaps, Harr, Hres.
  fold st1 in Hlen, Hold, Hmaps, Harr, Hres. fold r in Hres.
  set (resmap := result_map _ _ _ _ _) in *.
  assert (Hhops : hops_ok (take r (heap st1)) (resmap !! "hops")).
  { apply (run_hops_ok w params st). }
  assert (Hentries : Forall (entry_ok (take r (heap st1))) (Results (plugin st))).
  { eapply Forall_impl; [exact Hok|].
    intros v. apply entry_ok_mono. intros l o Hl.
    apply lookup_take_Some. split; [by apply Hold|].
    apply lookup_lt_Some in Hl. subst r. lia. }
  destruct (annotate_spec w r resmap (host_of params) (Format_RFC3339 (now_result w))
              (mkPlugin (Results (plugin st)) (StartTime (plugin st))
                        (wrap_int (IterationCount (plugin st) + 1)))
              (heap st1) (probes st1))
    as (h' & Hann & Han); try done.
  { intros k v. apply result_map_scalars. }
  cbn [Results StartTime IterationCount] in Hann. rewrite Hlen in Hann. fold r in Hann.
  exists h'. split; [|split; [done|]].
  - unfold executeWithIteration.
    rewrite bind_unfold, performTraceroute_success by done.
    fold res. fold hops. fold r. fold st1.
    rewrite bind_unfold. cbn [get_plugin]. rewrite bind_unfold. cbn [set_plugin].
    rewrite bind_unfold.
    replace (mkState _ (heap st1) (probes st1))
      with (mkState (mkPlugin (Results (plugin st)) (StartTime (plugin st))
                       (wrap_int (IterationCount (plugin st) + 1)))
                    (heap st1) (probes st1)) by reflexivity.
    rewrite Hann. reflexivity.
  - unfold history_ok. cbn [heap plugin Results]. apply Forall_app. split.
    + eapply Forall_impl; [exact Hentries|].
      intros v. apply entry_ok_mono. by eapply annotating_incl.
    + apply Forall_singleton. unfold r at 1. rewrite <- Hlen.
      by eapply (copy_entry_ok r (heap st1) resmap).
Qed.

(** A run in iteration mode that fails changes nothing but the log of
    commands. *)
Lemma executeWithIteration_error w params st v e st' :
  executeWithIteration w params st = Returns (v, Some e) st' ->
  performTraceroute w params st = Returns (VNil, Some e) st'
  /\ v = VNil /\ plugin st' = plugin st /\ heap st' = heap st.
Proof.
  unfold executeWithIteration. rewrite bind_unfold.
  destruct (decide (host_of params = EmptyString)) as [Hhost|Hhost].
  { rewrite performTraceroute_no_host by done. by intros [= <- <- <-]. }
  destruct (command_failure
              (exec_Run w "traceroute"
                 (traceroute_args (maxHops_of params) (host_of params))))
    as [e'|] eqn:Hf.
  { rewrite (performTraceroute_failure w params st e') by done.
    intros [= <- <- <-]. done. }
  rewrite performTraceroute_success by done.
  rewrite bind_unfold. cbn [get_plugin]. rewrite bind_unfold. cbn [set_plugin].
  rewrite bind_unfold.
  destruct (annotate _ _ _); [|discriminate]. discriminate.
Qed.

Lemma executeWithIteration_refused w params st e st' :
  performTraceroute w params st = Returns (VNil, Some e) st' ->
  executeWithIteration w params st = Returns (VNil, Some e) st'.
Proof.
  intros Hrun. unfold executeWithIteration. by rewrite bind_unfold, Hrun.
Qed.

(** A single-shot run always returns; it leaves the plugin alone and only
    adds objects to the heap. *)
Lemma performTraceroute_returns w params st :
  exists out st',
    performTraceroute w params st = Returns out st'
    /\ plugin st' = plugin st /\ heap_incl (heap st) (heap st').
Proof.
  destruct (decide (host_of params = EmptyString)) as [Hhost|Hhost].
  { eexists _, st. rewrite performTraceroute_no_host by done.
    split; [reflexivity|]. split; [reflexivity|]. by intros l o. }
  destruct (command_failure
              (exec_Run w "traceroute"
                 (traceroute_args (maxHops_of params) (host_of params))))
    as [e|] eqn:Hf.
  - eexists _, _. rewrite (performTraceroute_failure w params st e) by done.
    split; [reflexivity|]. split; [reflexivity|]. by intros l o.
  - eexists _, _. rewrite performTraceroute_success by done.
    split; [reflexivity|]. split; [reflexivity|].
    exact (proj1 (proj2 (state_after_run_heap w params st))).
Qed.

(** [history_ok] is an invariant of the plugin: from a state that
    satisfies it every call returns, in either mode, and leaves a state
    that satisfies it. *)
Lemma Execute_keeps_history_ok w params st :
  history_ok st ->
  exists out st', Execute w params st = Returns out st' /\ history_ok st'.
Proof.
  intros Hok. unfold Execute.
  destruct (assert_bool (params !! "continueToIterate")).1.
  - destruct (decide (host_of params = EmptyString)) as [Hhost|Hhost].
    { eexists _, st. split; [|done].
      by apply executeWithIteration_refused, performTraceroute_no_host. }
    destruct (command_failure
                (exec_Run w "traceroute"
                   (traceroute_args (maxHops_of params) (host_of params))))
      as [e|] eqn:Hf.
    + eexists _, _. split.
      * by apply executeWithIteration_refused, performTraceroute_failure.
      * exact Hok.
    + destruct (executeWithIteration_success w params st Hok Hhost Hf)
        as (h' & Hrun & _ & Hok').
      eexists _, _. by split.
  - destruct (performTraceroute_returns w params st)
      as (out & st' & Hrun & Hplugin & Hincl).
    exists out, st'. split; [done|].
    unfold history_ok. rewrite Hplugin.
    eapply Forall_impl; [exact Hok|]. intros v. by apply entry_ok_mono.
Qed.

Lemma wrap_int_small z : - 2 ^ 63 <= z < 2 ^ 63 -> wrap_int z = z.
Proof. intros Hz. unfold wrap_int. rewrite Z.mod_small; lia. Qed.

(** A run in iteration mode that does not fail keeps every object that
    was in the heap. *)
Lemma executeWithIteration_keeps_heap w params st h' :
  let res := exec_Run w "traceroute"
               (traceroute_args (maxHops_of params) (host_of params)) in
  let hops := emitted_hops w 0 (Split_newline (cmd_stdout res)) in
  let r := S (length (heap st) + length hops) in
  annotating r (heap (state_after_run w params st))
    (result_map (host_of params) (length (heap st) + length hops)%nat (length hops)
       (Format_RFC3339 (now_result w)) (cmd_stdout res)) h' ->
  heap_incl (heap st) h'.
Proof.
  intros res hops r Han l o Hl.
  apply (an_old _ _ _ _ Han).
  - apply lookup_lt_Some in Hl. unfold r. lia.
  - by apply (proj1 (proj2 (state_after_run_heap w params st))).
Qed.

Lemma iterate_counts calls : forall st,
  history_ok st ->
  Forall run_succeeds calls ->
  - 2 ^ 63 <= IterationCount (plugin st) ->
  IterationCount (plugin st) + Z.of_nat (length calls) < 2 ^ 63 ->
  exists rs st',
    iterate calls st = Returns rs st'
    /\ Forall2 (fun call out =>
                 exists r m,
                   out = (VMap r, None)
                   /\ heap st' !! r = Some (ObjMap m)
                   /\ m !! "host" = Some (VString (host_of call.2)))
               calls rs
    /\ IterationCount (plugin st') = IterationCount (plugin st) + Z.of_nat (length calls)
    /\ length (Results (plugin st')) = (length (Results (plugin st)) + length calls)%nat
    /\ history_ok st'
    /\ heap_incl (heap st) (heap st').
Proof.
  induction calls as [|[w params] rest IH]; intros st Hok Hcalls Hlo Hhi.
  - exists [], st. cbn. split; [done|]. split; [constructor|].
    split; [lia|]. split; [lia|]. split; [done|]. by intros l o.
  - apply Forall_cons in Hcalls as [[Hhost Hcmd] Hrest]. cbn in Hhost, Hcmd.
    destruct (executeWithIteration_success w params st Hok Hhost Hcmd)
      as (h' & Hrun & Han & Hok').
    pose proof (executeWithIteration_keeps_heap w params st h' Han) as Hkeep.
    destruct (an_result _ _ _ _ Han) as (m & Hm & Hmhost & _).
    cbn [iterate]. rewrite bind_unfold, Hrun.
    cbn [length] in Hhi.
    match type of Hok' with history_ok ?s => set (st1 := s) in * end.
    destruct (IH st1) as (rs & st' & Hiter & Hrs & Hcount & Hlen & Hok'' & Hincl);
      try done.
    { subst st1. cbn [plugin IterationCount]. rewrite wrap_int_small; lia. }
    { subst st1. cbn [plugin IterationCount]. rewrite wrap_int_small; lia. }
    rewrite bind_unfold, Hiter.
    eexists _, st'. split; [reflexivity|].
    split; [|split; [|split; [|split; [done|]]]].
    + apply Forall2_cons. split; [|done].
      eexists _, m. split; [reflexivity|]. split; [|exact Hmhost].
      apply Hincl. exact Hm.
    + rewrite Hcount. subst st1. cbn [plugin IterationCount length].
      rewrite wrap_int_small; lia.
    + rewrite Hlen. subst st1. cbn [plugin Results length].
      rewrite length_app. cbn [length]. lia.
    + intros l o Hl. apply Hincl, Hkeep, Hl.
Qed.

(** C4 (amended): calls in iteration mode, each with a host and a command
    that succeeds or that fails without writing to its standard error,
    all return a result (no error, and a map of the heap that holds the
    host asked for, one for each call), add their number to the iteration
    count and to the length of the history; a call that returns an error returns no result
    and leaves the count and the history as they were, and a command that
    fails with something on its standard error makes such a call. *)
Theorem runs_recorded :
  (forall calls st,
     history_ok st ->
     Forall run_succeeds calls ->
     - 2 ^ 63 <= IterationCount (plugin st) ->
     IterationCount (plugin st) + Z.of_nat (length calls) < 2 ^ 63 ->
     exists rs st',
       iterate calls st = Returns rs st'
       /\ length rs = length calls
       /\ Forall2 (fun call out =>
                    exists r m,
                      out = (VMap r, None)
                      /\ heap st' !! r = Some (ObjMap m)
                      /\ m !! "host" = Some (VString (host_of call.2)))
                  calls rs
       /\ IterationCount (plugin st')
          = IterationCount (plugin st) + Z.of_nat (length calls)
       /\ length (Results (plugin st'))
          = (length (Results (plugin st)) + length calls)%nat)
  /\ (forall w params st v e st',
        executeWithIteration w params st = Returns (v, Some e) st' ->
        v = VNil
        /\ IterationCount (plugin st') = IterationCount (plugin st)
        /\ Results (plugin st') = Results (plugin st))
  /\ (forall w params st err,
        host_of params <> EmptyString ->
        cmd_err (exec_Run w "traceroute"
                   (traceroute_args (maxHops_of params) (host_of params))) = Some err ->
        cmd_stderr (exec_Run w "traceroute"
                      (traceroute_args (maxHops_of params) (host_of params)))
          <> EmptyString ->
        exists e st', executeWithIteration w params st = Returns (VNil, Some e) st').
Proof.
  split; [|split].
  - intros calls st Hok Hcalls Hlo Hhi.
    destruct (iterate_counts calls st Hok Hcalls Hlo Hhi)
      as (rs & st' & Hrun & Hrs & Hcount & Hlen & _).
    exists rs, st'. split; [done|].
    split; [symmetry; by eapply Forall2_length|]. by split.
  - intros w params st v e st' Hrun.
    apply executeWithIteration_error in Hrun as (_ & -> & -> & _). done.
  - intros w params st err Hhost Herr Hstderr.
    pose proof (command_failure_Some _ err Herr Hstderr) as Hfail.
    eexists _, _.
    by apply executeWithIteration_refused, performTraceroute_failure.
Qed.

(** C8: when the host parameter is missing, is not a string or is empty,
    the call fails with "host parameter is required" in either mode and
    the state is the one before the call: no command was run, nothing was
    allocated, the iteration count and the history are as they were. *)
Theorem empty_host_rejected w params st :
  host_of params = EmptyString ->
  performTraceroute w params st = Returns (VNil, Some host_required) st
  /\ executeWithIteration w params st = Returns (VNil, Some host_required) st
  /\ Execute w params st = Returns (VNil, Some host_required) st.
Proof.
  intros Hhost.
  assert (Hit : executeWithIteration w params st
                = Returns (VNil, Some host_required) st).
  { by apply executeWithIteration_refused, performTraceroute_no_host. }
  repeat split; [by apply performTraceroute_no_host|done|].
  unfold Execute. destruct (assert_bool _).1; [done|].
  by apply performTraceroute_no_host.
Qed.

(** *** What a mutation of the returned result can reach *)

(** A snapshot only depends on the objects of a set of addresses that is
    closed under reference. *)
Lemma snapshot_frame (P : loc -> Prop) h h' :
  (forall l, P l -> h' !! l = h !! l) ->
  (forall l o, P l -> h !! l = Some o -> object_refs P o) ->
  forall depth v, value_refs P v -> snapshot depth h' v = snapshot depth h v.
Proof.
  intros Hagree Hclosed. induction depth as [|d IH]; intros v Hv; [done|].
  destruct v; try done; cbn [snapshot]; cbn in Hv; rewrite (Hagree _ Hv).
  - destruct (h !! l) as [[m|elems]|] eqn:Hl; try done.
    f_equal. apply map_fmap_ext. intros k x Hk. apply IH.
    exact (Hclosed l _ Hv Hl k x Hk).
  - destruct (h !! a) as [[m|elems]|] eqn:Ha; try done.
    f_equal. apply Forall_fmap_ext_1.
    pose proof (Hclosed a _ Hv Ha) as Hrefs. cbn in Hrefs.
    eapply Forall_impl; [apply Forall_take, Hrefs|]. intros x. apply IH.
Qed.

(** An assignment changes one object: the container the path leads to. *)
Lemma mutate_target h root path sel u h' :
  mutate h root path sel u = Some h' ->
  exists l o v,
    h' = <[l := o]> h /\ resolve h root path = Some v
    /\ (v = VMap l \/ exists t n, v = VSlice t l n).
Proof.
  unfold mutate. destruct (resolve h root path) as [v|]; [|done].
  destruct v; try done; destruct sel; try done; destruct u; try done.
  - destruct (h !! l) as [[m|]|]; try done. intros [= <-].
    eexists l, _, _. eauto.
  - destruct (h !! l) as [[m|]|]; try done. intros [= <-].
    eexists l, _, _. eauto.
  - destruct (i <? len)%nat; [|done].
    destruct (h !! a) as [[|elems]|]; try done. intros [= <-].
    eexists a, _, _. eauto 6.
Qed.

Lemma select_refs (Q : loc -> Prop) h v sel v' :
  (forall l o, Q l -> h !! l = Some o -> object_refs Q o) ->
  value_refs Q v -> select h v sel = Some v' -> value_refs Q v'.
Proof.
  intros Hclosed Hv. destruct v; try done; destruct sel; try done;
    cbn [select value_refs] in *.
  - destruct (h !! l) as [[m|]|] eqn:Hl; try done. intros Hk.
    exact (Hclosed l _ Hv Hl k v' Hk).
  - destruct (i <? len)%nat; [|done].
    destruct (h !! a) as [[|elems]|] eqn:Ha; try done. intros Hi.
    pose proof (Hclosed a _ Hv Ha) as Hrefs. cbn in Hrefs.
    by eapply Forall_lookup_1.
Qed.

Lemma resolve_refs (Q : loc -> Prop) h path : forall v v',
  (forall l o, Q l -> h !! l = Some o -> object_refs Q o) ->
  value_refs Q v -> resolve h v path = Some v' -> value_refs Q v'.
Proof.
  induction path as [|sel rest IH]; intros v v' Hclosed Hv; cbn.
  - by intros [= <-].
  - destruct (select h v sel) as [v1|] eqn:Hsel; [|done].
    apply IH; [done|]. by eapply select_refs.
Qed.

(** Away from "hops", a path from the result stays at the result or among
    the objects allocated after the copy. *)
Lemma resolve_result r h1 resmap h path v :
  annotating r h1 resmap h ->
  through_hops path = false ->
  resolve h (VMap r) path = Some v ->
  v = VMap r \/ value_refs (fun l => (length h1 < l)%nat) v.
Proof.
  intros Han Hpath. destruct path as [|sel rest]; cbn.
  - intros [= <-]. by left.
  - destruct sel as [k|i]; [|discriminate]. cbn in Hpath.
    apply String.eqb_neq in Hpath.
    destruct (an_result _ _ _ _ Han) as (m & Hm & _ & _ & Hrest).
    rewrite Hm. destruct (m !! k) as [v1|] eqn:Hk; [|done].
    intros Hres. right.
    eapply resolve_refs; [|by eapply Hrest|exact Hres].
    apply (an_new _ _ _ _ Han).
Qed.

Lemma hop_of_line_scalars w line m :
  hop_of_line w line = Some m ->
  map_Forall (fun _ v => value_refs (fun _ => False) v) m.
Proof.
  intros Hm.
  destruct (hop_of_line_cases w line)
    as [[Hnone _] | [(n & _ & _ & _ & _ & Hsome) | (n & _ & _ & _ & Hsome)]];
    rewrite Hm in *; try discriminate; injection Hsome as ->.
  all: unfold hop_record.
  all: repeat apply map_Forall_insert_2; try apply map_Forall_singleton; done.
Qed.

Lemma emitted_hops_scalars w lines : forall i,
  Forall (map_Forall (fun _ v => value_refs (fun _ => False) v))
         (emitted_hops w i lines).
Proof.
  induction lines as [|line rest IH]; intros i; cbn [emitted_hops]; [constructor|].
  destruct ((i =? 0)%nat || (String.length line =? 0)%nat); [apply IH|].
  destruct (hop_of_line w line) as [hop|] eqn:Hhop; [|apply IH].
  apply Forall_cons. split; [|apply IH]. by eapply hop_of_line_scalars.
Qed.

Lemma entry_objects_closed w params st h' :
  let res := exec_Run w "traceroute"
               (traceroute_args (maxHops_of params) (host_of params)) in
  let hops := emitted_hops w 0 (Split_newline (cmd_stdout res)) in
  let r := S (length (heap st) + length hops) in
  annotating r (heap (state_after_run w params st))
    (result_map (host_of params) (length (heap st) + length hops)%nat (length hops)
       (Format_RFC3339 (now_result w)) (cmd_stdout res)) h' ->
  forall l o, entry_objects (length (heap st)) r l -> h' !! l = Some o ->
              object_refs (entry_objects (length (heap st)) r) o.
Proof.
  intros res hops r Han l o Hl Ho.
  destruct (state_after_run_heap w params st) as (Hlen & Hold & Hmaps & Harr & Hres).
  fold res in Hlen, Hmaps, Harr, Hres. fold hops in Hlen, Hmaps, Harr, Hres.
  unfold r in *.
  destruct Hl as [[Hlo Hhi]| ->].
  - assert (Hne : l <> r) by (unfold r; lia).
    destruct (decide (l = length (heap st) + length hops)%nat) as [->|Hl].
    + pose proof (an_old _ _ _ _ Han _ _ Hne Harr) as Ho'.
      rewrite Ho in Ho'. injection Ho' as ->. cbn [object_refs].
      apply Forall_fmap, Forall_forall. intros x Hx.
      apply elem_of_seq in Hx. cbn. left. lia.
    + destruct (lookup_lt_is_Some_2 hops (l - length (heap st))) as [m Hm];
        [lia|].
      pose proof (Hmaps _ _ Hm) as Hobj.
      replace (length (heap st) + (l - length (heap st)))%nat with l in Hobj by lia.
      pose proof (an_old _ _ _ _ Han _ _ Hne Hobj) as Ho'.
      rewrite Ho in Ho'. injection Ho' as ->. cbn [object_refs].
      pose proof (emitted_hops_scalars w (Split_newline (cmd_stdout res)) 0%nat) as Hsc.
      fold hops in Hsc.
      eapply map_Forall_impl; [exact (Forall_lookup_1 _ _ _ _ Hsc Hm)|].
      intros k v. apply scalar_refs.
  - pose proof (an_copy _ _ _ _ Han) as Hcopy. rewrite Hlen in Hcopy.
    pose proof (eq_trans (eq_sym Ho) Hcopy) as Heq.
    injection Heq as ->. cbn [object_refs].
    intros k v Hk. destruct (decide (k = "hops")) as [->|Hne].
    + injection Hk as <-. cbn. left. lia.
    + apply scalar_refs. by eapply result_map_scalars.
Qed.

(** Statements that write outside a set of objects leave these objects as
    they were. *)
Lemma run_statements_frame (P : loc -> Prop) stmts : forall h h'',
  writes_outside P h stmts ->
  run_statements h stmts = Some h'' ->
  forall l, P l -> h'' !! l = h !! l.
Proof.
  induction stmts as [|s rest IH]; intros h h'' Hout Hrun l Hl;
    cbn [run_statements writes_outside] in *.
  - by injection Hrun as <-.
  - destruct (mutate h (stmt_root s) (stmt_path s) (stmt_sel s) (stmt_update s))
      as [h1|] eqn:Hmut; [|done].
    destruct Hout as [Htarget Hrest].
    rewrite (IH h1 h'' Hrest Hrun l Hl).
    apply mutate_target in Hmut as (l' & o & v & -> & Hres & Hv).
    apply list_lookup_insert_ne. intros <-. apply (Htarget l'); [|done].
    unfold target. rewrite Hres. by destruct Hv as [->|(t & n & ->)].
Qed.

(** Assignments to the keys of one map write into that map. *)
Lemma top_level_writes_outside (P : loc -> Prop) r stmts :
  ~ P r ->
  Forall (fun s => stmt_root s = VMap r /\ stmt_path s = []) stmts ->
  forall h, writes_outside P h stmts.
Proof.
  intros Hr. induction 1 as [|s rest [Hroot Hpath] _ IH]; intros h; [done|].
  cbn [writes_outside].
  destruct (mutate h (stmt_root s) (stmt_path s) (stmt_sel s) (stmt_update s));
    [|done].
  split; [|apply IH]. intros l'. rewrite Hroot, Hpath. by intros [= <-].
Qed.

(** Where the objects of a history entry are while and after the result
    at [r] is annotated. *)
Lemma entry_layout w params st h' :
  let res := exec_Run w "traceroute"
               (traceroute_args (maxHops_of params) (host_of params)) in
  let hops := emitted_hops w 0 (Split_newline (cmd_stdout res)) in
  let a := (length (heap st) + length hops)%nat in
  let resmap := result_map (host_of params) a (length hops)
                  (Format_RFC3339 (now_result w)) (cmd_stdout res) in
  annotating (S a) (heap (state_after_run w params st)) resmap h' ->
  h' !! S (S a) = Some (ObjMap resmap)
  /\ (exists m, h' !! S a = Some (ObjMap m)
                /\ m !! "hops" = Some (VSlice SliceOfMaps a (length hops)))
  /\ h' !! a = Some (ObjArray (VMap <$> seq (length (heap st)) (length hops)))
  /\ (forall i hop, hops !! i = Some hop ->
        h' !! (length (heap st) + i)%nat = Some (ObjMap hop)).
Proof.
  intros res hops a resmap Han.
  destruct (state_after_run_heap w params st) as (Hlen & _ & Hmaps & Harr & _).
  fold res in Hlen, Hmaps, Harr. fold hops in Hlen, Hmaps, Harr.
  fold a in Hlen, Harr.
  split; [|split; [|split]].
  - rewrite <- Hlen. apply (an_copy _ _ _ _ Han).
  - destruct (an_result _ _ _ _ Han) as (m & Hm & _ & Hhops & _).
    exists m. split; [exact Hm|]. rewrite Hhops. reflexivity.
  - apply (an_old _ _ _ _ Han); [lia|exact Harr].
  - intros i hop Hi. pose proof (lookup_lt_Some _ _ _ Hi).
    apply (an_old _ _ _ _ Han); [unfold a; lia|by apply Hmaps].
Qed.

(** C2 (amended): the history entry stored by a call is a shallow copy of
    the result: a new map that holds the pairs of the result as
    [performTraceroute] returned it, whose "hops" value is the slice of
    the returned result, with the same backing array and the same hop
    records.  Statements that write neither into the copy, nor into that
    backing array, nor into a hop record leave what the entry shows as it
    was, at any depth: so does any sequence of assignments to and
    deletions of keys of the returned result, whatever the keys and the
    values, and so does, after the call, any statement on what a path
    from the returned result leads to when the path does not start at
    "hops".  An assignment to a key of a hop record made through "hops"
    of the returned result shows in the entry. *)
Theorem history_entry_isolated w params st :
  history_ok st ->
  host_of params <> EmptyString ->
  command_failure (exec_Run w "traceroute"
                     (traceroute_args (maxHops_of params) (host_of params))) = None ->
  let res := exec_Run w "traceroute"
               (traceroute_args (maxHops_of params) (host_of params)) in
  let hops := emitted_hops w 0 (Split_newline (cmd_stdout res)) in
  let n0 := length (heap st) in
  let a := (n0 + length hops)%nat in
  let resmap := result_map (host_of params) a (length hops)
                  (Format_RFC3339 (now_result w)) (cmd_stdout res) in
  exists r hc st1 st',
    performTraceroute w params st = Returns (VMap r, None) st1
    /\ heap st1 !! r = Some (ObjMap resmap)
    /\ heap st1 !! hc = None
    /\ executeWithIteration w params st = Returns (VMap r, None) st'
    /\ last (Results (plugin st')) = Some (VMap hc)
    /\ heap st' !! hc = Some (ObjMap resmap)
    /\ (exists m, heap st' !! r = Some (ObjMap m)
                  /\ m !! "hops" = Some (VSlice SliceOfMaps a (length hops)))
    /\ heap st' !! a = Some (ObjArray (VMap <$> seq n0 (length hops)))
    /\ (forall i hop, hops !! i = Some hop ->
          heap st' !! (n0 + i)%nat = Some (ObjMap hop))
    /\ (forall stmts h'',
          writes_outside (fun l => l = hc \/ l = a \/ (n0 <= l < n0 + length hops)%nat)
            (heap st') stmts ->
          run_statements (heap st') stmts = Some h'' ->
          forall depth, snapshot depth h'' (VMap hc) = snapshot depth (heap st') (VMap hc))
    /\ (forall stmts h'',
          Forall (fun s => stmt_root s = VMap r /\ stmt_path s = []) stmts ->
          run_statements (heap st') stmts = Some h'' ->
          forall depth, snapshot depth h'' (VMap hc) = snapshot depth (heap st') (VMap hc))
    /\ (forall path sel u h'',
          through_hops path = false ->
          mutate (heap st') (VMap r) path sel u = Some h'' ->
          forall depth, snapshot depth h'' (VMap hc) = snapshot depth (heap st') (VMap hc))
    /\ (forall i k x, (i < length hops)%nat ->
          exists h'',
            mutate (heap st') (VMap r) [Key "hops"; Index i] (Key k) (Assign x) = Some h''
            /\ resolve h'' (VMap hc) [Key "hops"; Index i; Key k] = Some x).
Proof.
  intros Hok Hhost Hcmd res hops n0 a resmap.
  destruct (executeWithIteration_success w params st Hok Hhost Hcmd)
    as (h' & Hrun & Han & _).
  destruct (state_after_run_heap w params st) as (Hlen & _ & _ & _ & Hres).
  fold res in Hrun, Han, Hlen, Hres. fold hops in Hrun, Han, Hlen, Hres.
  fold n0 in Hrun, Han, Hlen, Hres. fold a in Hrun, Han, Hlen, Hres.
  fold resmap in Han, Hres.
  destruct (entry_layout w params st h' Han) as (Hcopy & (m & Hm & Hmhops) & Harr & Hmaps).
  fold res in Hcopy, Hmhops, Harr, Hmaps. fold hops in Hcopy, Hmhops, Harr, Hmaps.
  fold n0 in Hcopy, Hmhops, Harr, Hmaps. fold a in Hcopy, Hm, Hmhops, Harr, Hmaps.
  fold resmap in Hcopy.
  assert (Hframe : forall h'',
            (forall l, entry_objects n0 (S a) l -> h'' !! l = h' !! l) ->
            forall depth, snapshot depth h'' (VMap (S (S a))) = snapshot depth h' (VMap (S (S a)))).
  { intros h'' Hagree depth.
    apply (snapshot_frame (entry_objects n0 (S a))); [done| |by right].
    by apply (entry_objects_closed w params st). }
  change (h' !! S a = Some (ObjMap m)) in Hm.
  eexists (S a), (S (S a)), (state_after_run w params st), _.
  split; [by apply performTraceroute_success|].
  split; [exact Hres|].
  split; [apply lookup_ge_None; lia|].
  split; [exact Hrun|]. cbn [plugin heap Results].
  split; [apply last_snoc|].
  split; [exact Hcopy|].
  split; [by exists m|].
  split; [exact Harr|].
  split; [exact Hmaps|].
  split; [|split; [|split]].
  - intros stmts h'' Hout Hstmts. apply Hframe. intros l Hl.
    apply (run_statements_frame _ stmts h' h'' Hout Hstmts).
    destruct Hl as [Hl| ->]; [|by left]. right.
    destruct (decide (l = a)); [by left|right; unfold a in *; lia].
  - intros stmts h'' Htop Hstmts. apply Hframe. intros l Hl.
    apply (run_statements_frame (entry_objects n0 (S a)) stmts h' h''); [|done..].
    apply (top_level_writes_outside _ (S a)); [|done].
    intros [?| ?]; lia.
  - intros path sel u h'' Hpath Hmut.
    apply mutate_target in Hmut as (l & o & v & -> & Hresolve & Hv).
    apply Hframe. intros l' Hl'. apply list_lookup_insert_ne. intros <-.
    destruct (resolve_result _ _ _ _ _ _ Han Hpath Hresolve) as [->|Hfresh].
    + destruct Hv as [[= <-]|(? & ? & [=])]. destruct Hl' as [?| ?]; lia.
    + rewrite Hlen in Hfresh.
      destruct Hv as [->|(? & ? & ->)]; cbn in Hfresh; destruct Hl' as [?| ?]; lia.
  - intros i k x Hi.
    destruct (lookup_lt_is_Some_2 hops i Hi) as [hop Hhop].
    pose proof (Hmaps i hop Hhop) as Hrecord.
    assert (Helem : (VMap <$> seq n0 (length hops)) !! i = Some (VMap (n0 + i)%nat)).
    { by rewrite list_lookup_fmap, lookup_seq_lt. }
    apply Nat.ltb_lt in Hi as Hi'.
    eexists. split.
    + unfold mutate. cbn [resolve select]. unfold loc in *.
      rewrite Hm, Hmhops. cbn [select]. rewrite Hi'.
      unfold loc in *. rewrite Harr, Helem.
      unfold loc in *. rewrite Hrecord. reflexivity.
    + cbn [resolve select]. unfold loc in *.
      rewrite list_lookup_insert_ne by (unfold a; lia). rewrite Hcopy.
      change (resmap !! "hops") with (Some (VSlice SliceOfMaps a (length hops))).
      cbn [select]. rewrite Hi'. unfold loc in *.
      rewrite list_lookup_insert_ne by (unfold a; lia). rewrite Harr, Helem.
      cbn [select]. unfold loc in *.
      rewrite list_lookup_insert_eq by (by eapply lookup_lt_Some).
      by rewrite lookup_insert_eq.
Qed.

End History.

(** ** Concrete runs *)

Section Concrete.
Import Samples.
Local Existing Instance platform.
Local Open Scope list_scope.

Example Fields_of_a_hop_line :
  Fields " 1  10.0.0.1  1.234 ms" = ["1"; "10.0.0.1"; "1.234"; "ms"].
Proof. reflexivity. Qed.

Example Atoi_samples :
  Atoi "-3" = (-3, None) /\ Atoi "+7" = (7, None)
  /\ Atoi "12a" = (0, Some ErrSyntax) /\ Atoi "+" = (0, Some ErrSyntax)
  /\ Atoi EmptyString = (0, Some ErrSyntax)
  /\ Atoi "9223372036854775808" = (9223372036854775807, Some ErrRange)
  /\ Atoi "-9223372036854775808" = (-9223372036854775808, None).
Proof. repeat split; vm_compute; reflexivity. Qed.

Example TrimSuffix_samples :
  TrimSuffix "1.2ms" "ms" = "1.2" /\ TrimSuffix "ms" "ms" = EmptyString
  /\ TrimSuffix "1.2" "ms" = "1.2" /\ TrimSuffix "s" "ms" = "s"
  /\ TrimSuffix "msx" "ms" = "msx" /\ TrimSuffix "host.example." "." = "host.example"
  /\ TrimSuffix "abc" EmptyString = "abc".
Proof. repeat split; vm_compute; reflexivity. Qed.

(** The scenario of a reachable hop followed by a timeout. *)
Example two_hops :
  emitted_hops world_ok 0 (Split_newline output)
  = [ hop_record 1 "10.0.0.1" "10.0.0.1" (S754_finite false 5557441940175192 (-52));
      hop_record 2 "*" "*" float64_zero ].
Proof. vm_compute. reflexivity. Qed.

(** A token that is a number too large for a [float64]: the record carries
    the infinity that [ParseFloat] returns next to [ErrRange]. *)
Example rtt_of_a_huge_token :
  hop_of_line world_ok " 4  10.0.0.4  1e999 ms"
  = Some (hop_record 4 "10.0.0.4" "10.0.0.4" (S754_infinity false)).
Proof. vm_compute. reflexivity. Qed.

Lemma ParseFloat_table_lawful : ParseFloat_zero_on_syntax_error.
Proof.
  intros s f. cbn. unfold ParseFloat_table.
  destruct (String.eqb s "1.234"); [discriminate|].
  destruct (String.eqb s "1e999"); [discriminate|].
  congruence.
Qed.

Lemma ParseFloat_table_range : ParseFloat_infinite_on_range_error.
Proof.
  intros s f. cbn. unfold ParseFloat_table.
  destruct (String.eqb s "1.234"); [discriminate|].
  destruct (String.eqb s "1e999"); [|discriminate].
  intros [= <-]. by eexists.
Qed.

Lemma history_ok_initial now : history_ok (initial_state now).
Proof. constructor. Qed.

Lemma probe_failure_reported_witness :
  exists st',
    performTraceroute world_unreachable params_ok (initial_state 0) =
      Returns (VNil, Some "traceroute failed: exit status 1: unreachable") st'
    /\ heap st' = [] /\ plugin st' = NewPlugin 0.
Proof.
  refine (proj1 (probe_failure_reported world_unreachable params_ok (initial_state 0)
                   "exit status 1" _ _) _).
  - vm_compute. discriminate.
  - reflexivity.
  - vm_compute. discriminate.
Defined.

Lemma probe_failure_without_text_returns_result :
  cmd_err (exec_Run world_silent_failure "traceroute"
             (traceroute_args (maxHops_of params_ok) (host_of params_ok)))
    = Some "exit status 1"
  /\ exists r st',
       performTraceroute world_silent_failure params_ok (initial_state 0)
       = Returns (VMap r, None) st'.
Proof. split; [reflexivity|]. eexists _, _. vm_compute. reflexivity. Qed.

Lemma history_entry_isolated_witness :
  exists r hc st',
    executeWithIteration world_ok params_ok (initial_state 0)
      = Returns (VMap r, None) st'
    /\ last (Results (plugin st')) = Some (VMap hc)
    /\ heap st' !! hc = Some (ObjMap (result_map "10.0.0.1" 2%nat 2%nat (Format_RFC3339 100) output))
    /\ select (heap st') (VMap r) (Key "hops") = Some (VSlice SliceOfMaps 2%nat 2%nat)
    /\ (forall x h'',
          run_statements (heap st')
            [mkStatement (VMap r) [] (Key "host") (Assign x);
             mkStatement (VMap r) [] (Key "iteration_data") Delete] = Some h'' ->
          snapshot 4 h'' (VMap hc) = snapshot 4 (heap st') (VMap hc))
    /\ (forall x h'',
          mutate (heap st') (VMap r) [Key "iteration_data"] (Key "can_iterate")
            (Assign x) = Some h'' ->
          snapshot 4 h'' (VMap hc) = snapshot 4 (heap st') (VMap hc))
    /\ exists h'',
         mutate (heap st') (VMap r) path_to_first_hop (Key "rtt")
           (Assign (VFloat64 float64_99)) = Some h''
         /\ resolve h'' (VMap hc) (path_to_first_hop ++ [Key "rtt"])
            = Some (VFloat64 float64_99).
Proof.
  destruct (history_entry_isolated world_ok params_ok (initial_state 0))
    as (r & hc & st1 & st' & _ & _ & _ & Hrun & Hlast & Hcopy & (m & Hm & Hhops)
        & _ & _ & _ & Htop & Hpath & Hshared).
  - apply history_ok_initial.
  - vm_compute. discriminate.
  - reflexivity.
  - exists r, hc, st'.
    split; [exact Hrun|]. split; [exact Hlast|]. split; [exact Hcopy|].
    split; [cbn [select]; unfold loc in *; rewrite Hm; exact Hhops|].
    split; [|split].
    + intros x h'' Hstmts. eapply Htop; [|exact Hstmts].
      repeat constructor.
    + intros x h'' Hmut. eapply Hpath; [|exact Hmut]. reflexivity.
    + apply (Hshared 0%nat "rtt" (VFloat64 float64_99)). vm_compute. lia.
Defined.

Lemma hop_mutation_reaches_history :
  exists r hc st' h'',
    executeWithIteration world_ok params_ok (initial_state 0)
      = Returns (VMap r, None) st'
    /\ last (Results (plugin st')) = Some (VMap hc)
    /\ mutate (heap st') (VMap r) path_to_first_hop (Key "rtt")
         (Assign (VFloat64 float64_99)) = Some h''
    /\ tree_at (snapshot 4 (heap st') (VMap hc)) (path_to_first_hop ++ [Key "rtt"])
       = Some (TScalar (VFloat64 (S754_finite false 5557441940175192 (-52))))
    /\ tree_at (snapshot 4 h'' (VMap hc)) (path_to_first_hop ++ [Key "rtt"])
       = Some (TScalar (VFloat64 float64_99))
    /\ snapshot 4 h'' (VMap hc) <> snapshot 4 (heap st') (VMap hc).
Proof.
  eexists _, _, _, _.
  split; [vm_compute; reflexivity|].
  split; [vm_compute; reflexivity|].
  split; [vm_compute; reflexivity|].
  split; [vm_compute; reflexivity|].
  split; [vm_compute; reflexivity|].
  intros Heq.
  apply (f_equal (fun t => tree_at t (path_to_first_hop ++ [Key "rtt"]))) in Heq.
  vm_compute in Heq. discriminate Heq.
Qed.

(** Why the statements are told apart by the object they write into and
    not by their path: once the returned result holds a second reference
    to its hops, a path that does not start at "hops" leads to a hop
    record, and the entry shows the write. *)
Example alias_of_hops_reaches_history :
  exists r hc st' h'',
    executeWithIteration world_ok params_ok (initial_state 0)
      = Returns (VMap r, None) st'
    /\ last (Results (plugin st')) = Some (VMap hc)
    /\ run_statements (heap st')
         [mkStatement (VMap r) [] (Key "alias") (Assign (VSlice SliceOfMaps 2%nat 2%nat));
          mkStatement (VMap r) [Key "alias"; Index 0] (Key "rtt")
            (Assign (VFloat64 float64_99))] = Some h''
    /\ select (heap st') (VMap r) (Key "hops") = Some (VSlice SliceOfMaps 2%nat 2%nat)
    /\ resolve (heap st') (VMap hc) (path_to_first_hop ++ [Key "rtt"])
       = Some (VFloat64 (S754_finite false 5557441940175192 (-52)))
    /\ resolve h'' (VMap hc) (path_to_first_hop ++ [Key "rtt"])
       = Some (VFloat64 float64_99).
Proof.
  eexists _, _, _, _.
  split; [vm_compute; reflexivity|].
  split; [vm_compute; reflexivity|].
  split; [vm_compute; reflexivity|].
  split; [vm_compute; reflexivity|].
  split; vm_compute; reflexivity.
Qed.

(** The integer part of a number that is not an integer. *)
Example fractional_maxHops_is_truncated :
  trunc_float64 (S754_finite false 23 (-2)) = Some 5
  /\ trunc_float64 (S754_finite true 23 (-2)) = Some (-5)
  /\ trunc_float64 (float64_of_Z (10 ^ 30)) = Some 1000000000000000019884624838656
  /\ in_int_range 1000000000000000019884624838656 = false.
Proof. repeat split; vm_compute; reflexivity. Qed.

Lemma maxHops_default_witness :
  maxHops_of params_host_only = 30 /\ maxHops_of params_ok = 5
  /\ maxHops_of params_huge_hops = - 2 ^ 63.
Proof.
  split; [|split].
  - apply (proj1 (maxHops_default params_host_only)).
    intros f. vm_compute. discriminate.
  - apply (proj1 (proj2 (maxHops_default params_ok)) (float64_of_Z 5) 5);
      reflexivity.
  - rewrite (proj1 (proj2 (proj2 (maxHops_default params_huge_hops)))
               (float64_of_Z (10 ^ 30))); [reflexivity|reflexivity|].
    right. eexists. split; [vm_compute; reflexivity|reflexivity].
Defined.

Lemma zero_maxHops_is_used :
  maxHops_of params_zero_hops = 0
  /\ exists out st',
       performTraceroute world_ok params_zero_hops (initial_state 0) = Returns out st'
       /\ probes st' = [["traceroute"; "-n"; "-m"; "0"; "10.0.0.1"]].
Proof.
  split; [reflexivity|]. eexists _, _. split; vm_compute; reflexivity.
Qed.

Lemma run_succeeds_ok : run_succeeds (world_ok, params_ok).
Proof. apply run_succeeds_of_success; [vm_compute; discriminate|reflexivity]. Qed.

Lemma runs_recorded_witness :
  (exists rs st',
     iterate [(world_ok, params_ok); (world_ok, params_ok)] (initial_state 0)
       = Returns rs st'
     /\ length rs = 2%nat
     /\ Forall2 (fun call out =>
                    exists r m,
                      out = (VMap r, None)
                      /\ heap st' !! r = Some (ObjMap m)
                      /\ m !! "host" = Some (VString (host_of call.2)))
                  [(world_ok, params_ok); (world_ok, params_ok)] rs
     /\ IterationCount (plugin st') = 2
     /\ length (Results (plugin st')) = 2%nat)
  /\ (exists e st',
        executeWithIteration world_unreachable params_ok (initial_state 0)
          = Returns (VNil, Some e) st').
Proof.
  split.
  - apply (proj1 runs_recorded [(world_ok, params_ok); (world_ok, params_ok)]
             (initial_state 0)).
    + apply history_ok_initial.
    + repeat constructor; apply run_succeeds_ok.
    + vm_compute. discriminate.
    + reflexivity.
  - apply (proj2 (proj2 runs_recorded) world_unreachable params_ok (initial_state 0)
             "exit status 1").
    + vm_compute. discriminate.
    + reflexivity.
    + vm_compute. discriminate.
Defined.

Lemma silent_failure_is_recorded :
  cmd_err (exec_Run world_silent_failure "traceroute"
             (traceroute_args (maxHops_of params_ok) (host_of params_ok)))
    = Some "exit status 1"
  /\ exists r st',
       executeWithIteration world_silent_failure params_ok (initial_state 0)
         = Returns (VMap r, None) st'
       /\ IterationCount (plugin st') = 1
       /\ length (Results (plugin st')) = 1%nat.
Proof.
  split; [reflexivity|]. eexists _, _.
  split; [vm_compute; reflexivity|]. split; reflexivity.
Qed.

Lemma timeout_hop_is_unresponsive_witness :
  Fields " 2  *" = ["2"; "*"]
  /\ exists m,
       hop_of_line world_ok " 2  *" = Some m
       /\ m !! "hop" = Some (VInt 2)
       /\ m !! "host" = Some (VString "*")
       /\ m !! "name" = Some (VString "*")
       /\ m !! "rtt" = Some (VFloat64 float64_zero)
       /\ m !! "status" = Some (VString "NO RESPONSE").
Proof.
  split; [reflexivity|].
  apply (timeout_hop_is_unresponsive world_ok " 2  *" "2" [] 2); reflexivity.
Defined.

Lemma skipped_lines_witness :
  hop_of_line world_ok "traceroute:" = None
  /\ exists n, Atoi (index (Fields " 2  *") 0) = (n, None)
               /\ hop_record 2 "*" "*" float64_zero !! "hop" = Some (VInt n).
Proof.
  split.
  - apply (proj1 (skipped_lines world_ok "traceroute:")). left. vm_compute. lia.
  - apply (proj2 (skipped_lines world_ok " 2  *")). reflexivity.
Defined.

Lemma nonpositive_hop_number_emitted :
  (exists m, hop_of_line world_ok "0 *" = Some m /\ m !! "hop" = Some (VInt 0))
  /\ (exists m, hop_of_line world_ok "-3 10.0.0.1 1.234 ms" = Some m
                /\ m !! "hop" = Some (VInt (-3))
                /\ m !! "status" = Some (VString "OK")).
Proof.
  split; eexists; (split; [vm_compute; reflexivity|]); repeat split.
Qed.

Lemma hop_record_consistent_witness :
  hop_of_line world_ok " 1  10.0.0.1  1.234 ms"
    = Some (hop_record 1 "10.0.0.1" "10.0.0.1" (S754_finite false 5557441940175192 (-52)))
  /\ exists hopIP hopName rtt status,
       hop_record 1 "10.0.0.1" "10.0.0.1" (S754_finite false 5557441940175192 (-52))
         !! "host" = Some (VString hopIP)
       /\ hop_record 1 "10.0.0.1" "10.0.0.1" (S754_finite false 5557441940175192 (-52))
            !! "name" = Some (VString hopName)
       /\ hop_record 1 "10.0.0.1" "10.0.0.1" (S754_finite false 5557441940175192 (-52))
            !! "rtt" = Some (VFloat64 rtt)
       /\ hop_record 1 "10.0.0.1" "10.0.0.1" (S754_finite false 5557441940175192 (-52))
            !! "status" = Some (VString status)
       /\ (status = "OK" \/ status = "NO RESPONSE")
       /\ (status = "OK" <-> hopIP <> "*")
       /\ (hopIP = "*" -> rtt = float64_zero /\ hopName = "*").
Proof.
  split; [vm_compute; reflexivity|].
  apply (hop_record_consistent world_ok " 1  10.0.0.1  1.234 ms").
  vm_compute. reflexivity.
Defined.

Lemma responsive_hop_rtt_witness :
  Fields unit_line = ["1"; "10.0.0.1"; "1.234ms"; "1.301ms"]
  /\ exists m,
       hop_of_line world_ok unit_line = Some m
       /\ m !! "hop" = Some (VInt 1)
       /\ m !! "status" = Some (VString "OK")
       /\ m !! "rtt" = Some (VFloat64 (S754_finite false 5557441940175192 (-52))).
Proof.
  split; [reflexivity|].
  destruct (responsive_hop_rtt world_ok unit_line 1)
    as (m & rtt & Hm & Hhop & _ & Hstatus & Hrtt & _ & Hnumber).
  - apply ParseFloat_table_lawful.
  - apply ParseFloat_table_range.
  - vm_compute. lia.
  - vm_compute. discriminate.
  - reflexivity.
  - exists m. split; [exact Hm|]. split; [exact Hhop|]. split; [exact Hstatus|].
    destruct (Hnumber "1.234") as (-> & _); [by left|]. exact Hrtt.
Defined.

(** A token that is a number too large for a [float64] does not parse
    ([ParseFloat] returns [ErrRange]), and the round-trip time of the
    record is not zero: it is the infinity that [ParseFloat] returns next
    to the error. *)
Lemma out_of_range_rtt_is_not_zero :
  (4 <= length (Fields huge_line))%nat
  /\ index (Fields huge_line) 1 <> "*"
  /\ TrimSuffix (index (Fields huge_line) 2) "ms" = "1e999"
  /\ snd (ParseFloat "1e999") = Some ErrRange
  /\ exists m,
       hop_of_line world_ok huge_line = Some m
       /\ m !! "rtt" = Some (VFloat64 (S754_infinity false))
       /\ m !! "rtt" <> Some (VFloat64 float64_zero).
Proof.
  split; [vm_compute; lia|]. split; [vm_compute; discriminate|].
  split; [reflexivity|]. split; [reflexivity|].
  eexists. split; [vm_compute; reflexivity|]. split; [reflexivity|discriminate].
Qed.

Lemma short_line_is_unresponsive_witness :
  exists m,
    hop_of_line world_ok " 3  10.0.0.9  0.5ms" = Some m
    /\ m !! "hop" = Some (VInt 3)
    /\ m !! "host" = Some (VString "*")
    /\ m !! "name" = Some (VString "*")
    /\ m !! "rtt" = Some (VFloat64 float64_zero)
    /\ m !! "status" = Some (VString "NO RESPONSE").
Proof.
  apply (short_line_is_unresponsive world_ok " 3  10.0.0.9  0.5ms" 3).
  - vm_compute. lia.
  - reflexivity.
  - vm_compute. discriminate.
Defined.

Lemma empty_host_rejected_witness :
  host_of params_no_host = EmptyString
  /\ performTraceroute world_ok params_no_host (initial_state 0)
     = Returns (VNil, Some host_required) (initial_state 0)
  /\ executeWithIteration world_ok params_no_host (initial_state 0)
     = Returns (VNil, Some host_required) (initial_state 0)
  /\ Execute world_ok params_no_host (initial_state 0)
     = Returns (VNil, Some host_required) (initial_state 0).
Proof.
  split; [reflexivity|].
  apply (empty_host_rejected world_ok params_no_host (initial_state 0)).
  reflexivity.
Defined.

End Concrete.

(** * Further properties *)

(** ** Lines and records *)

Section Records.
Context `{!Platform}.
Local Open Scope list_scope.

Lemma hop_record_lookup_other n ip name name' rtt k :
  k <> "name" ->
  hop_record n ip name rtt !! k = hop_record n ip name' rtt !! k.
Proof.
  intros Hk. unfold hop_record.
  rewrite !lookup_insert. repeat case_decide; congruence.
Qed.

(** X1: the outside world reaches the parse of a line through the "name"
    entry only: whether a line yields a record, and every other entry of
    the record, are the same in any two worlds. *)
Theorem world_only_sets_name w1 w2 line :
  (hop_of_line w1 line = None <-> hop_of_line w2 line = None)
  /\ (forall m1 m2 k,
        hop_of_line w1 line = Some m1 -> hop_of_line w2 line = Some m2 ->
        k <> "name" -> m1 !! k = m2 !! k).
Proof.
  unfold hop_of_line.
  destruct (length (Fields line) <? 2)%nat; [by split|].
  destruct (Atoi (index (Fields line) 0)) as [n [e|]]; [by split|].
  destruct ((4 <=? length (Fields line))%nat
            && negb (String.eqb (index (Fields line) 1) "*")).
  - split; [by split|]. intros m1 m2 k [= <-] [= <-] Hk.
    by apply hop_record_lookup_other.
  - split; [by split|]. by intros m1 m2 k [= <-] [= <-] _.
Qed.

(** X2: the display name of a responsive hop is the first name of the
    reverse lookup without its trailing dot; when the lookup fails or
    returns no name it is the address itself, and the record is emitted
    all the same. *)
Theorem display_name w line n :
  (4 <= length (Fields line))%nat ->
  index (Fields line) 1 <> "*" ->
  Atoi (index (Fields line) 0) = (n, None) ->
  exists m,
    hop_of_line w line = Some m
    /\ (forall name names,
          LookupAddr w (index (Fields line) 1) = (name :: names, None) ->
          m !! "name" = Some (VString (TrimSuffix name ".")))
    /\ (forall names e,
          LookupAddr w (index (Fields line) 1) = (names, Some e) ->
          m !! "name" = Some (VString (index (Fields line) 1)))
    /\ (forall e,
          LookupAddr w (index (Fields line) 1) = ([], e) ->
          m !! "name" = Some (VString (index (Fields line) 1))).
Proof.
  intros Hlen Hip Hatoi.
  eexists. split.
  - unfold hop_of_line.
    destruct (length (Fields line) <? 2)%nat eqn:H2;
      [apply Nat.ltb_lt in H2; lia|].
    rewrite Hatoi. apply Nat.leb_le in Hlen. rewrite Hlen.
    apply String.eqb_neq in Hip. rewrite Hip. reflexivity.
  - repeat split.
    + intros name names Hl.
      change (Some (VString (name_of w (index (Fields line) 1)))
              = Some (VString (TrimSuffix name "."))).
      unfold name_of. by rewrite Hl.
    + intros names e Hl.
      change (Some (VString (name_of w (index (Fields line) 1)))
              = Some (VString (index (Fields line) 1))).
      unfold name_of. rewrite Hl. by destruct names.
    + intros e Hl.
      change (Some (VString (name_of w (index (Fields line) 1)))
              = Some (VString (index (Fields line) 1))).
      unfold name_of. by rewrite Hl.
Qed.






End Records.

(** ** Calls *)

Section Calls.
Context `{!Platform}.
Local Open Scope list_scope.

Lemma split_nl_single s : forall cur,
  no_line_feed s = true -> exists line, split_nl cur s = [line].
Proof.
  induction s as [|c rest IH]; intros cur Hs; [by eexists|].
  cbn in Hs. apply andb_true_iff in Hs as [Hc Hrest].
  cbn [split_nl]. apply negb_true_iff in Hc. rewrite Hc. by apply IH.
Qed.

Lemma result_map_dom host a n ts out :
  dom (result_map host a n ts out)
  = ({[ "host"; "hops"; "timestamp"; "rawOutput" ]} : gset string).
Proof.
  unfold result_map. rewrite !dom_insert_L, dom_singleton_L. set_solver.
Qed.

(** X5: when the command does not fail and its output has no line feed
    (an empty output, or a header alone), the run returns a result whose
    list of hops is empty, and no error. *)
Theorem single_line_output_has_no_hops w params st :
  host_of params <> EmptyString ->
  command_failure (exec_Run w "traceroute"
                     (traceroute_args (maxHops_of params) (host_of params))) = None ->
  no_line_feed (cmd_stdout (exec_Run w "traceroute"
                              (traceroute_args (maxHops_of params) (host_of params))))
    = true ->
  exists r a st',
    performTraceroute w params st = Returns (VMap r, None) st'
    /\ heap st' !! r =
         Some (ObjMap (result_map (host_of params) a 0 (Format_RFC3339 (now_result w))
                         (cmd_stdout (exec_Run w "traceroute"
                                        (traceroute_args (maxHops_of params)
                                           (host_of params))))))
    /\ heap st' !! a = Some (ObjArray []).
Proof.
  intros Hhost Hcmd Hout.
  destruct (split_nl_single _ EmptyString Hout) as [line Hline].
  destruct (state_after_run_heap w params st) as (_ & _ & _ & Harr & Hres).
  unfold Split_newline in Harr, Hres. rewrite Hline in Harr, Hres.
  cbn [emitted_hops Nat.eqb orb length seq fmap list_fmap] in Harr, Hres.
  exists (S (length (heap st) + 0)), (length (heap st) + 0)%nat,
    (state_after_run w params st).
  split; [|split; [exact Hres|exact Harr]].
  rewrite performTraceroute_success by done.
  unfold Split_newline. rewrite Hline. reflexivity.
Qed.

(** X6: the result of a run that does not fail is a map with the four
    entries "host", "hops", "timestamp" and "rawOutput" and no other: the
    host asked for, the output of the command as it was, and under "hops"
    the records of the lines in order, each with the entries the loop
    gave it. *)
Theorem result_lists_the_records w params st :
  host_of params <> EmptyString ->
  command_failure (exec_Run w "traceroute"
                     (traceroute_args (maxHops_of params) (host_of params))) = None ->
  let res := exec_Run w "traceroute"
               (traceroute_args (maxHops_of params) (host_of params)) in
  let hops := emitted_hops w 0 (Split_newline (cmd_stdout res)) in
  exists r a st' m,
    performTraceroute w params st = Returns (VMap r, None) st'
    /\ heap st' !! r = Some (ObjMap m)
    /\ dom m = ({[ "host"; "hops"; "timestamp"; "rawOutput" ]} : gset string)
    /\ m !! "host" = Some (VString (host_of params))
    /\ m !! "rawOutput" = Some (VString (cmd_stdout res))
    /\ m !! "timestamp" = Some (VString (Format_RFC3339 (now_result w)))
    /\ m !! "hops" = Some (VSlice SliceOfMaps a (length hops))
    /\ (forall i hop key,
          hops !! i = Some hop ->
          resolve (heap st') (VMap r) [Key "hops"; Index i; Key key] = hop !! key)
    /\ (forall i, (length hops <= i)%nat ->
          resolve (heap st') (VMap r) [Key "hops"; Index i] = None).
Proof.
  intros Hhost Hcmd res hops.
  destruct (state_after_run_heap w params st) as (_ & _ & Hmaps & Harr & Hres).
  fold res in Hmaps, Harr, Hres. fold hops in Hmaps, Harr, Hres.
  exists (S (length (heap st) + length hops)), (length (heap st) + length hops)%nat,
    (state_after_run w params st),
    (result_map (host_of params) (length (heap st) + length hops)%nat (length hops)
       (Format_RFC3339 (now_result w)) (cmd_stdout res)).
  split; [by apply performTraceroute_success|].
  split; [exact Hres|]. split; [apply result_map_dom|].
  do 4 (split; [reflexivity|]).
  split.
  - intros i hop key Hi.
    pose proof (lookup_lt_Some _ _ _ Hi) as Hlt.
    cbn [resolve select]. unfold loc in *. rewrite Hres.
    change (result_map _ _ _ _ _ !! "hops")
      with (Some (VSlice SliceOfMaps (length (heap st) + length hops)%nat (length hops))).
    cbn [select]. apply Nat.ltb_lt in Hlt as Hlt'. unfold loc in *. rewrite Hlt', Harr.
    rewrite list_lookup_fmap, (lookup_seq_lt _ _ _ Hlt). cbn [fmap option_fmap option_map].
    cbn [select]. unfold loc in *. rewrite (Hmaps i hop Hi).
    by destruct (hop !! key).
  - intros i Hge. cbn [resolve select]. unfold loc in *. rewrite Hres.
    change (result_map _ _ _ _ _ !! "hops")
      with (Some (VSlice SliceOfMaps (length (heap st) + length hops)%nat (length hops))).
    cbn [select]. apply Nat.ltb_ge in Hge. by rewrite Hge.
Qed.

(** What a call does, by mode and by what the command reports. *)
Lemma Execute_outcome w params st :
  history_ok st ->
  let cmd := "traceroute" :: traceroute_args (maxHops_of params) (host_of params) in
  let res := exec_Run w "traceroute"
               (traceroute_args (maxHops_of params) (host_of params)) in
  let r := S (length (heap st)
              + length (emitted_hops w 0 (Split_newline (cmd_stdout res)))) in
  (host_of params = EmptyString
   /\ Execute w params st = Returns (VNil, Some host_required) st)
  \/ (host_of params <> EmptyString
      /\ exists e, command_failure res = Some e
         /\ Execute w params st
            = Returns (VNil, Some e)
                (mkState (plugin st) (heap st) (probes st ++ [cmd])))
  \/ (host_of params <> EmptyString /\ command_failure res = None
      /\ (assert_bool (params !! "continueToIterate")).1 = false
      /\ Execute w params st = Returns (VMap r, None) (state_after_run w params st))
  \/ (host_of params <> EmptyString /\ command_failure res = None
      /\ (assert_bool (params !! "continueToIterate")).1 = true
      /\ exists h',
           Execute w params st
           = Returns (VMap r, None)
               (mkState (mkPlugin (Results (plugin st) ++ [VMap (S r)])
                                  (StartTime (plugin st))
                                  (wrap_int (IterationCount (plugin st) + 1)))
                        h' (probes st ++ [cmd]))
           /\ annotating r (heap (state_after_run w params st))
                (result_map (host_of params)
                   (length (heap st)
                    + length (emitted_hops w 0 (Split_newline (cmd_stdout res))))%nat
                   (length (emitted_hops w 0 (Split_newline (cmd_stdout res))))
                   (Format_RFC3339 (now_result w)) (cmd_stdout res))
                h').
Proof.
  intros Hok cmd res r.
  destruct (decide (host_of params = EmptyString)) as [Hhost|Hhost].
  { left. split; [done|]. unfold Execute.
    destruct (assert_bool _).1.
    - by apply executeWithIteration_refused, performTraceroute_no_host.
    - by apply performTraceroute_no_host. }
  right. destruct (command_failure res) as [e|] eqn:Hf.
  { left. split; [done|]. exists e. split; [done|]. unfold Execute.
    destruct (assert_bool _).1.
    - by apply executeWithIteration_refused, performTraceroute_failure.
    - by apply performTraceroute_failure. }
  right. unfold Execute.
  destruct (assert_bool (params !! "continueToIterate")).1 eqn:Hmode.
  - right. repeat (split; [done|]).
    destruct (executeWithIteration_success w params st Hok Hhost Hf)
      as (h' & Hrun & Han & _).
    exists h'. by split.
  - left. repeat (split; [done|]). by apply performTraceroute_success.
Qed.

(** X7: a call that does not ask for iteration never panics and leaves
    the plugin as it was, its count and its history, whatever state it
    starts from; the objects of the heap stay as they were and the result
    carries no iteration entry. *)
Theorem single_shot_leaves_plugin w params st :
  (assert_bool (params !! "continueToIterate")).1 = false ->
  exists out st',
    Execute w params st = Returns out st'
    /\ plugin st' = plugin st
    /\ (forall l o, heap st !! l = Some o -> heap st' !! l = Some o)
    /\ (forall r, out.1 = VMap r ->
          exists m, heap st' !! r = Some (ObjMap m)
                    /\ m !! "iterationCount" = None /\ m !! "elapsedTime" = None
                    /\ m !! "iteration_data" = None /\ m !! "history" = None).
Proof.
  intros Hmode. unfold Execute. rewrite Hmode.
  destruct (decide (host_of params = EmptyString)) as [Hhost|Hhost].
  { eexists _, _. split; [by apply performTraceroute_no_host|].
    repeat split; [done|]. intros r [=]. }
  destruct (command_failure
              (exec_Run w "traceroute"
                 (traceroute_args (maxHops_of params) (host_of params))))
    as [e|] eqn:Hf.
  { eexists _, _. split; [by apply performTraceroute_failure|].
    repeat split; [done|]. intros r [=]. }
  destruct (state_after_run_heap w params st) as (_ & Hold & _ & _ & Hres).
  eexists _, _. split; [by apply performTraceroute_success|].
  split; [reflexivity|]. split; [exact Hold|].
  intros r [= <-]. eexists. split; [exact Hres|]. by repeat split.
Qed.

(** X8: a call runs the command once, as "traceroute -n -m <maxHops>
    <host>", unless the host is missing, in which case it runs nothing;
    there is no second attempt in either mode. *)
Theorem at_most_one_command w params st :
  history_ok st ->
  exists out st',
    Execute w params st = Returns out st'
    /\ ((host_of params = EmptyString /\ probes st' = probes st)
        \/ (host_of params <> EmptyString
            /\ probes st'
               = probes st ++ [["traceroute"; "-n"; "-m"; pretty (maxHops_of params);
                                host_of params]])).
Proof.
  intros Hok.
  destruct (Execute_outcome w params st Hok)
    as [[Hhost Hrun]|[(Hhost & e & _ & Hrun)|[(Hhost & _ & _ & Hrun)
       |(Hhost & _ & _ & h' & Hrun & _)]]];
    eexists _, _; (split; [exact Hrun|]); auto.
Qed.

(** X9: a call only ever adds to the history: it appends at most one
    entry, none when it returns an error or when iteration is not asked
    for; the count moves with the history (by one when an entry is
    appended, not at all otherwise); the start time stays, and so does
    every object that was in the heap before the call. *)
Theorem history_is_append_only w params st :
  history_ok st ->
  exists out st' added,
    Execute w params st = Returns out st'
    /\ Results (plugin st') = Results (plugin st) ++ added
    /\ (added = []
        /\ IterationCount (plugin st') = IterationCount (plugin st)
        \/ (exists hc, added = [VMap hc])
           /\ out.2 = None
           /\ (assert_bool (params !! "continueToIterate")).1 = true
           /\ IterationCount (plugin st') = wrap_int (IterationCount (plugin st) + 1))
    /\ StartTime (plugin st') = StartTime (plugin st)
    /\ (forall l o, heap st !! l = Some o -> heap st' !! l = Some o).
Proof.
  intros Hok.
  destruct (Execute_outcome w params st Hok)
    as [[Hhost Hrun]|[(Hhost & e & _ & Hrun)|[(Hhost & _ & _ & Hrun)
       |(Hhost & _ & Hmode & h' & Hrun & Han)]]].
  - exists (VNil, Some host_required), st, []. rewrite app_nil_r. by auto 10.
  - eexists _, _, []. split; [exact Hrun|]. rewrite app_nil_r. by auto 10.
  - eexists _, _, []. split; [exact Hrun|]. rewrite app_nil_r.
    repeat split; [by left|].
    exact (proj1 (proj2 (state_after_run_heap w params st))).
  - eexists _, _, [_]. split; [exact Hrun|]. cbn [plugin heap Results StartTime].
    split; [done|]. split; [right; eauto 10|]. split; [done|].
    intros l o Hl.
    apply (an_old _ _ _ _ Han).
    + apply lookup_lt_Some in Hl. lia.
    + by apply (proj1 (proj2 (state_after_run_heap w params st))).
Qed.

End Calls.

(** ** The iteration entries *)

Section Annotations.
Context `{!Platform}.
Local Open Scope list_scope.

Lemma last_hop_of_eq elems st :
  last_ok (heap st) (last elems) ->
  last_hop_of elems st = Returns (last_hop_in (heap st) elems) st.
Proof.
  unfold last_hop_of, last_hop_in. destruct (last elems) as [v|]; [|done].
  destruct v; try done.
  intros [m Hm]. rewrite bind_unfold, (map_index_eq l "ip" m) by done.
  unfold loc in *. rewrite Hm.
  destruct (m !! "ip") as [[]|]; try done.
  all: rewrite bind_unfold, (map_index_eq l "host" m) by done.
  all: by destruct (m !! "host") as [[]|].
Qed.

Lemma hops_summary_eq v st :
  hops_ok (heap st) v ->
  hops_summary v st = Returns (hops_summary_in (heap st) v) st.
Proof.
  unfold hops_summary, hops_summary_in.
  destruct v as [[| | | | | |[] a n]|]; try done.
  intros (elems & Ha & Hlast).
  rewrite bind_unfold, (load_slice_eq a n elems) by done.
  rewrite bind_unfold, last_hop_of_eq by done.
  unfold loc in *. by rewrite Ha.
Qed.

(** Readings of well-formed values do not change when the heap grows. *)
Lemma last_hop_in_mono h h' elems :
  heap_incl h h' -> last_ok h (last elems) ->
  last_hop_in h' elems = last_hop_in h elems.
Proof.
  intros Hincl. unfold last_hop_in. destruct (last elems) as [[]|]; try done.
  intros [m Hm]. unfold loc in *. by rewrite (Hincl _ _ Hm), Hm.
Qed.

Lemma hops_summary_in_mono h h' v :
  heap_incl h h' -> hops_ok h v ->
  hops_summary_in h' v = hops_summary_in h v.
Proof.
  intros Hincl. unfold hops_summary_in.
  destruct v as [[| | | | | |[] a n]|]; try done.
  intros (elems & Ha & Hlast). unfold loc in *.
  rewrite (Hincl _ _ Ha), Ha. f_equal. f_equal. by apply last_hop_in_mono.
Qed.

Lemma condensed_mono h h' results : forall i,
  heap_incl h h' -> Forall (entry_ok h) results ->
  condensed h' i results = condensed h i results.
Proof.
  induction results as [|res rest IH]; intros i Hincl Hok; [done|].
  apply Forall_cons in Hok as [Hres Hrest].
  destruct res; cbn [condensed]; try by apply IH.
  destruct Hres as (m & host & ts & Hl & Hhost & Hts & Hhops).
  unfold loc in *. rewrite (Hincl _ _ Hl), Hl, Hhost, Hts.
  rewrite (hops_summary_in_mono h h') by done.
  f_equal. by apply IH.
Qed.

(** The history loop allocates the entries of [condensed], one after the
    other, and changes nothing else. *)
Lemma history_entries_eq results : forall i p h pr,
  Forall (entry_ok h) results ->
  history_entries i results (mkState p h pr)
  = Returns (VMap <$> seq (length h) (length (condensed h i results)))
            (mkState p (h ++ (ObjMap <$> condensed h i results)) pr).
Proof.
  induction results as [|res rest IH]; intros i p h pr Hok.
  - cbn. by rewrite app_nil_r.
  - apply Forall_cons in Hok as [Hres Hrest].
    destruct res; try (cbn [history_entries condensed]; by apply IH).
    destruct Hres as (m & host & ts & Hl & Hhost & Hts & Hhops).
    cbn [history_entries condensed].
    rewrite bind_unfold, (must_string_index l "host" m host) by done.
    rewrite bind_unfold, (must_string_index l "timestamp" m ts) by done.
    rewrite bind_unfold, (map_index_eq l "hops" m) by done.
    rewrite bind_unfold, hops_summary_eq by done.
    cbn [heap]. unfold loc in *. rewrite Hl, Hhost, Hts.
    destruct (default (0, EmptyString) (hops_summary_in h (m !! "hops")))
      as [hopCount lastHopIP].
    rewrite bind_unfold. cbn [new_object heap plugin probes fst snd].
    fold (history_entry i ts host hopCount lastHopIP).
    rewrite bind_unfold, IH;
      [|eapply Forall_impl; [exact Hrest|];
        intros v; apply entry_ok_mono, heap_incl_app].
    rewrite (condensed_mono h) by (done || apply heap_incl_app).
    cbn. rewrite length_app, Nat.add_1_r, <- app_assoc. reflexivity.
Qed.

Lemma condensed_app h results1 results2 : forall i,
  Forall (entry_ok h) results1 ->
  condensed h i (results1 ++ results2)
  = condensed h i results1 ++ condensed h (i + length results1) results2.
Proof.
  induction results1 as [|res rest IH]; intros i Hok.
  - cbn. by rewrite Nat.add_0_r.
  - apply Forall_cons in Hok as [Hres Hrest].
    cbn [app length].
    replace (i + S (length rest))%nat with (S i + length rest)%nat by lia.
    destruct res; cbn [condensed]; try by apply IH.
    destruct Hres as (m & host & ts & Hl & Hhost & Hts & Hhops).
    unfold loc in *. rewrite Hl, Hhost, Hts. cbn. f_equal. by apply IH.
Qed.

Lemma hop_of_line_keys w line m :
  hop_of_line w line = Some m ->
  m !! "ip" = None /\ exists s, m !! "host" = Some (VString s).
Proof.
  intros Hm.
  destruct (hop_of_line_cases w line)
    as [[Hnone _] | [(n & _ & _ & _ & _ & Hsome) | (n & _ & _ & _ & Hsome)]];
    rewrite Hm in *; try discriminate; injection Hsome as ->.
  all: split; [reflexivity|by eexists].
Qed.

Lemma emitted_hops_keys w lines : forall i,
  Forall (fun m => m !! "ip" = None /\ exists s, m !! "host" = Some (VString s))
         (emitted_hops w i lines).
Proof.
  induction lines as [|line rest IH]; intros i; cbn [emitted_hops]; [constructor|].
  destruct ((i =? 0)%nat || (String.length line =? 0)%nat); [apply IH|].
  destruct (hop_of_line w line) as [hop|] eqn:Hhop; [|apply IH].
  apply Forall_cons. split; [|apply IH]. by eapply hop_of_line_keys.
Qed.

(** What the summaries show for the last hop of the run being annotated. *)
Lemma last_hop_in_run h (hops : list (gmap string Value)) n0 :
  (forall i m, hops !! i = Some m -> h !! (n0 + i)%nat = Some (ObjMap m)) ->
  Forall (fun m => m !! "ip" = None /\ exists s, m !! "host" = Some (VString s)) hops ->
  last_hop_in h (take (length hops) (VMap <$> seq n0 (length hops))) = final_hop hops.
Proof.
  intros Hmaps Hkeys.
  rewrite take_ge by (by rewrite length_fmap, length_seq).
  unfold last_hop_in, final_hop.
  rewrite fmap_last, !last_lookup, length_seq.
  destruct (length hops) as [|k] eqn:Hk.
  { by destruct hops. }
  cbn [pred]. rewrite lookup_seq_lt by lia. cbn [fmap option_fmap option_map].
  destruct (lookup_lt_is_Some_2 hops k) as [m Hm]; [lia|].
  rewrite Hm. unfold loc in *. rewrite (Hmaps _ _ Hm).
  destruct (Forall_lookup_1 _ _ _ _ Hkeys Hm) as [Hip [s' Hhost]].
  by rewrite Hip, Hhost.
Qed.

Lemma executeWithIteration_closed w params st :
  history_ok st ->
  host_of params <> EmptyString ->
  command_failure (exec_Run w "traceroute"
                     (traceroute_args (maxHops_of params) (host_of params))) = None ->
  let r := S (length (heap st)
              + length (emitted_hops w 0
                          (Split_newline
                             (cmd_stdout
                                (exec_Run w "traceroute"
                                   (traceroute_args (maxHops_of params)
                                      (host_of params))))))) in
  executeWithIteration w params st
  = Returns (VMap r, None)
      (mkState (mkPlugin (Results (plugin st) ++ [VMap (S r)])
                         (StartTime (plugin st))
                         (wrap_int (IterationCount (plugin st) + 1)))
               (heap_after_iteration w params st)
               (probes (state_after_run w params st))).
Proof.
  intros Hok Hhost Hcmd r.
  destruct (state_after_run_heap w params st) as (Hlen & Hold & Hmaps & Harr & Hres).
  unfold heap_after_iteration.
  set (res := exec_Run w "traceroute" _) in *.
  set (hops := emitted_hops w 0 _) in *.
  fold r in Hres, Hlen |- *.
  set (resmap := result_map _ _ _ _ _) in *.
  set (st1 := state_after_run w params st) in *.
  set (count := wrap_int _).
  assert (Hr : (r < length (heap st1))%nat) by lia.
  assert (Hhops : hops_ok (take r (heap st1)) (resmap !! "hops")).
  { apply (run_hops_ok w params st). }
  assert (Hentries : Forall (entry_ok (take r (heap st1))) (Results (plugin st))).
  { eapply Forall_impl; [exact Hok|].
    intros v. apply entry_ok_mono. intros l o Hl.
    apply lookup_take_Some. split; [by apply Hold|].
    apply lookup_lt_Some in Hl. subst r. lia. }
  (* the heaps along the way *)
  set (mB := <["iterationCount" := VInt count]> resmap).
  set (mC := <["elapsedTime" := _]> mB).
  set (hA := heap st1 ++ [ObjMap resmap]).
  set (hC := <[r := ObjMap mC]> hA).
  assert (HA : hA !! r = Some (ObjMap resmap)) by (by apply lookup_app_l_Some).
  assert (HanA : annotating r (heap st1) resmap hA).
  { apply annotating_start; [done|]. intros k v. apply result_map_scalars. }
  assert (HanC : annotating r (heap st1) resmap hC).
  { destruct (annotating_assign r (heap st1) resmap hA "iterationCount" (VInt count) HanA)
      as (m1 & Hm1 & Han1); try done.
    pose proof (eq_trans (eq_sym Hm1) HA) as [= ->].
    destruct (annotating_assign r (heap st1) resmap _ "elapsedTime"
                (VString (Duration_String (now_since w - StartTime (plugin st)))) Han1)
      as (m2 & Hm2 & Han2); try done.
    rewrite list_lookup_insert_eq in Hm2 by (by eapply lookup_lt_Some).
    injection Hm2 as <-. by rewrite list_insert_insert_eq in Han2. }
  assert (HC : hC !! r = Some (ObjMap mC)).
  { apply list_lookup_insert_eq. by eapply lookup_lt_Some. }
  set (mD := <["iteration_data" := VMap (S (S r))]> mC).
  set (idata := iteration_data_map count (host_of params) (Z.of_nat (length hops))
                  (final_hop hops)).
  set (hD := <[r := ObjMap mD]> (hC ++ [ObjMap idata])).
  assert (HlenC : length hC = S (S r)).
  { subst hC hA. rewrite length_insert, length_app, Hlen. cbn. lia. }
  assert (HCapp : (hC ++ [ObjMap idata]) !! r = Some (ObjMap mC))
    by (by apply lookup_app_l_Some).
  assert (HanD : annotating r (heap st1) resmap hD).
  { destruct (annotating_assign r (heap st1) resmap (hC ++ [ObjMap idata])
                "iteration_data" (VMap (S (S r))))
      as (m & Hm & Han); try done.
    - apply annotating_alloc; [done|]. subst idata. unfold iteration_data_map. cbn.
      repeat apply map_Forall_insert_2; try apply map_Forall_singleton; done.
    - change (length (heap st1) < S (S r))%nat. rewrite Hlen. lia.
    - pose proof (eq_trans (eq_sym Hm) HCapp) as [= ->]. exact Han. }
  assert (HD : hD !! r = Some (ObjMap mD)).
  { apply list_lookup_insert_eq. rewrite length_app. lia. }
  assert (HlenD : length hD = S (S (S r))).
  { subst hD. rewrite length_insert, length_app, HlenC. cbn. lia. }
  (* the run *)
  unfold executeWithIteration.
  rewrite bind_unfold, performTraceroute_success by done.
  fold res. fold hops. fold r. fold st1.
  rewrite bind_unfold. cbn [get_plugin]. rewrite bind_unfold. cbn [set_plugin].
  rewrite bind_unfold.
  change (plugin st1) with (plugin st). cbn [Results StartTime IterationCount].
  fold count.
  unfold annotate.
  rewrite bind_unfold, (load_map_eq r resmap) by exact Hres.
  rewrite bind_unfold. cbn [new_object heap plugin probes].
  rewrite bind_unfold. cbn [get_plugin heap plugin probes].
  rewrite bind_unfold. cbn [set_plugin heap plugin probes].
  cbn [Results StartTime IterationCount]. rewrite Hlen. fold hA.
  rewrite bind_unfold, (map_assign_eq r _ _ resmap) by exact HA.
  cbn [heap plugin probes]. fold mB.
  rewrite bind_unfold, (map_assign_eq r _ _ mB)
    by (apply list_lookup_insert_eq; by eapply lookup_lt_Some).
  cbn [heap plugin probes]. rewrite list_insert_insert_eq. fold mC. fold hC.
  assert (Harr' : hC !! (length (heap st) + length hops)%nat
                  = Some (ObjArray (VMap <$> seq (length (heap st)) (length hops)))).
  { apply (an_old _ _ _ _ HanC); [lia|exact Harr]. }
  assert (Hmaps' : forall i m, hops !! i = Some m ->
                     hC !! (length (heap st) + i)%nat = Some (ObjMap m)).
  { intros i m Hi. apply (an_old _ _ _ _ HanC); [|by apply Hmaps].
    apply lookup_lt_Some in Hi. lia. }
  rewrite bind_unfold.
  replace (add_iteration_data r _)
    with (Returns tt (mkState (mkPlugin (Results (plugin st) ++ [VMap (S r)])
                                 (StartTime (plugin st)) count) hD (probes st1))).
  2: { symmetry. unfold add_iteration_data.
       rewrite bind_unfold. cbn [get_plugin plugin IterationCount].
       rewrite bind_unfold, (must_string_index r "host" mC (host_of params))
         by (exact HC || reflexivity).
       rewrite bind_unfold, (map_index_eq r "hops" mC) by exact HC.
       rewrite bind_unfold, hops_summary_eq
         by (eapply hops_ok_mono; [by eapply annotating_incl|exact Hhops]).
       cbn [heap].
       change (mC !! "hops")
         with (Some (VSlice SliceOfMaps (length (heap st) + length hops)%nat
                       (length hops))).
       unfold hops_summary_in. unfold loc in *. rewrite Harr'.
       pose proof (last_hop_in_run hC hops (length (heap st)) Hmaps'
                     (emitted_hops_keys w _ 0%nat)) as Hlast.
       unfold loc in Hlast. rewrite Hlast.
       rewrite bind_unfold. cbn [new_object heap plugin probes]. rewrite HlenC.
       rewrite (map_assign_eq r _ _ mC) by exact HCapp. reflexivity. }
  unfold add_history_summary. rewrite bind_unfold. cbn [get_plugin plugin Results].
  destruct (1 <? length (Results (plugin st) ++ [VMap (S r)]))%nat; [|reflexivity].
  rewrite bind_unfold, history_entries_eq.
  2: { apply Forall_app. split.
       - eapply Forall_impl; [exact Hentries|].
         intros v. apply entry_ok_mono. by eapply annotating_incl.
       - apply Forall_singleton. rewrite <- Hlen.
         by eapply (copy_entry_ok r (heap st1) resmap). }
  rewrite bind_unfold. cbn [new_object heap plugin probes].
  rewrite (map_assign_eq r _ _ mD)
    by (cbn [heap]; by do 2 apply lookup_app_l_Some).
  cbn [heap plugin probes].
  rewrite !length_app, !length_fmap, length_seq, HlenD. reflexivity.
Qed.

(** Where the objects of a run in iteration mode are, and what the result
    map holds at the end. *)
Lemma heap_after_iteration_lookup w params st :
  history_ok st ->
  let res := exec_Run w "traceroute"
               (traceroute_args (maxHops_of params) (host_of params)) in
  let hops := emitted_hops w 0 (Split_newline (cmd_stdout res)) in
  let r := S (length (heap st) + length hops) in
  let count := wrap_int (IterationCount (plugin st) + 1) in
  let entries :=
    condensed (heap st) 0 (Results (plugin st))
    ++ [history_entry (length (Results (plugin st))) (Format_RFC3339 (now_result w))
          (host_of params) (Z.of_nat (length hops)) (final_hop hops)] in
  let final := heap_after_iteration w params st in
  exists m,
    final !! r = Some (ObjMap m)
    /\ (forall key, key <> "iterationCount" -> key <> "elapsedTime" ->
          key <> "iteration_data" -> key <> "history" ->
          m !! key = result_map (host_of params) (length (heap st) + length hops)%nat
                       (length hops) (Format_RFC3339 (now_result w)) (cmd_stdout res)
                     !! key)
    /\ m !! "iterationCount" = Some (VInt count)
    /\ m !! "elapsedTime"
       = Some (VString (Duration_String (now_since w - StartTime (plugin st))))
    /\ m !! "iteration_data" = Some (VMap (S (S r)))
    /\ final !! S (S r)
       = Some (ObjMap (iteration_data_map count (host_of params)
                         (Z.of_nat (length hops)) (final_hop hops)))
    /\ (Results (plugin st) = [] -> m !! "history" = None)
    /\ (Results (plugin st) <> [] ->
          m !! "history"
          = Some (VSlice SliceOfMaps (S (S (S r)) + length entries)%nat (length entries))
          /\ final !! (S (S (S r)) + length entries)%nat
             = Some (ObjArray (VMap <$> seq (S (S (S r))) (length entries)))
          /\ forall j e, entries !! j = Some e ->
               final !! (S (S (S r)) + j)%nat = Some (ObjMap e)).
Proof.
  intros Hok res hops r count entries final.
  destruct (state_after_run_heap w params st) as (Hlen & Hold & Hmaps & Harr & Hres).
  subst final. unfold heap_after_iteration.
  fold res in Hlen, Hmaps, Harr, Hres |- *. fold hops in Hlen, Hmaps, Harr, Hres |- *.
  fold r in Hres, Hlen |- *. fold count.
  set (resmap := result_map _ _ _ _ _) in *.
  set (st1 := state_after_run w params st) in *.
  set (mC := <["elapsedTime" := _]> (<["iterationCount" := VInt count]> resmap)).
  set (hA := heap st1 ++ [ObjMap resmap]).
  set (hC := <[r := ObjMap mC]> hA).
  set (mD := <["iteration_data" := VMap (S (S r))]> mC).
  set (idata := iteration_data_map _ _ _ _).
  set (hD := <[r := ObjMap mD]> (hC ++ [ObjMap idata])).
  assert (HlenA : length hA = S (S r)).
  { subst hA. rewrite length_app, Hlen. cbn. lia. }
  assert (HlenC : length hC = S (S r)) by (subst hC; by rewrite length_insert).
  assert (HlenD : length hD = S (S (S r))).
  { subst hD. rewrite length_insert, length_app, HlenC. cbn. lia. }
  assert (HD : hD !! r = Some (ObjMap mD)).
  { apply list_lookup_insert_eq. rewrite length_app. lia. }
  assert (Hd : hD !! S (S r) = Some (ObjMap idata)).
  { subst hD. rewrite list_lookup_insert_ne by lia.
    rewrite lookup_app_r by lia. by rewrite HlenC, Nat.sub_diag. }
  assert (Hkeep : forall l o, l <> r -> hA !! l = Some o -> hD !! l = Some o).
  { intros l o Hne Hl. subst hD hC. rewrite list_lookup_insert_ne by done.
    apply lookup_app_l_Some. by rewrite list_lookup_insert_ne. }
  assert (Hincl : heap_incl (heap st) hD).
  { intros l o Hl. apply Hkeep.
    - apply lookup_lt_Some in Hl. lia.
    - by apply lookup_app_l_Some, Hold. }
  assert (Hcopy : hD !! S r = Some (ObjMap resmap)).
  { apply Hkeep; [lia|]. subst hA. rewrite lookup_app_r by lia.
    by rewrite Hlen, Nat.sub_diag. }
  assert (Hlast : hops_summary_in hD (resmap !! "hops")
                  = Some (Z.of_nat (length hops), final_hop hops)).
  { change (resmap !! "hops")
      with (Some (VSlice SliceOfMaps (length (heap st) + length hops)%nat
                    (length hops))).
    unfold hops_summary_in.
    assert (Harr' : hD !! (length (heap st) + length hops)%nat
                    = Some (ObjArray (VMap <$> seq (length (heap st)) (length hops)))).
    { apply Hkeep; [lia|]. by apply lookup_app_l_Some. }
    pose proof (last_hop_in_run hD hops (length (heap st))) as Hrun.
    unfold loc in *. rewrite Harr', Hrun; [done| |apply emitted_hops_keys].
    intros i m' Hi. apply Hkeep.
    - apply lookup_lt_Some in Hi. lia.
    - by apply lookup_app_l_Some, Hmaps. }
  assert (Hents : condensed hD 0 (Results (plugin st) ++ [VMap (S r)]) = entries).
  { rewrite condensed_app
      by (eapply Forall_impl; [exact Hok|]; intros v; by apply entry_ok_mono).
    rewrite (condensed_mono (heap st) hD) by done.
    subst entries. f_equal. cbn [condensed Nat.add]. unfold loc in *.
    rewrite Hcopy.
    change (resmap !! "host") with (Some (VString (host_of params))).
    change (resmap !! "timestamp")
      with (Some (VString (Format_RFC3339 (now_result w)))).
    cbn iota beta. rewrite Hlast. reflexivity. }
  rewrite Hents.
  destruct (Results (plugin st)) as [|v0 vs] eqn:Hresults.
  - cbn [app length Nat.ltb Nat.leb].
    exists mD. split; [done|]. split.
    { intros key ? ? ? ?. subst mD mC. by rewrite !lookup_insert_ne. }
    do 3 (split; [reflexivity|]). split; [done|]. split; [reflexivity|done].
  - replace (1 <? length ((v0 :: vs) ++ [VMap (S r)]))%nat with true
      by (symmetry; apply Nat.ltb_lt; rewrite length_app; cbn; lia).
    eexists. split.
    { apply list_lookup_insert_eq. rewrite !length_app, HlenD. lia. }
    split.
    { intros key ? ? ? ?. subst mD mC. by rewrite !lookup_insert_ne. }
    do 3 (split; [reflexivity|]).
    split.
    { rewrite list_lookup_insert_ne by lia. by do 2 apply lookup_app_l_Some. }
    split; [done|]. intros _. split; [reflexivity|]. split.
    + rewrite list_lookup_insert_ne by lia.
      rewrite lookup_app_r by (rewrite length_app, length_fmap, HlenD; lia).
      rewrite length_app, length_fmap, HlenD, Nat.sub_diag. reflexivity.
    + intros j e Hj. rewrite list_lookup_insert_ne by lia.
      apply lookup_app_l_Some. rewrite lookup_app_r by lia.
      rewrite HlenD. replace (S (S (S r)) + j - S (S (S r)))%nat with j by lia.
      by rewrite list_lookup_fmap, Hj.
Qed.

Lemma condensed_lookup h results : forall i j l m host ts,
  Forall (entry_ok h) results ->
  Forall (fun v => exists l', v = VMap l') results ->
  results !! j = Some (VMap l) ->
  h !! l = Some (ObjMap m) ->
  m !! "host" = Some (VString host) ->
  m !! "timestamp" = Some (VString ts) ->
  condensed h i results !! j
  = Some (history_entry (i + j) ts host
            (default (0, EmptyString) (hops_summary_in h (m !! "hops"))).1
            (default (0, EmptyString) (hops_summary_in h (m !! "hops"))).2).
Proof.
  induction results as [|res rest IH]; intros i j l m host ts Hok Hmap Hj Hl Hh Ht;
    [done|].
  apply Forall_cons in Hok as [Hres Hrest].
  apply Forall_cons in Hmap as [[l0 ->] Hmaprest].
  destruct Hres as (m0 & host0 & ts0 & Hl0 & Hhost0 & Hts0 & _).
  cbn [condensed]. unfold loc in *. rewrite Hl0, Hhost0, Hts0.
  destruct j as [|j].
  - injection Hj as ->. rewrite Hl in Hl0. injection Hl0 as <-.
    rewrite Hh in Hhost0. injection Hhost0 as <-.
    rewrite Ht in Hts0. injection Hts0 as <-.
    cbn. by rewrite Nat.add_0_r.
  - cbn in Hj. replace (i + S j)%nat with (S i + j)%nat by lia.
    by apply (IH (S i) j l m host ts).
Qed.

Lemma condensed_length h results : forall i,
  Forall (entry_ok h) results ->
  Forall (fun v => exists l', v = VMap l') results ->
  length (condensed h i results) = length results.
Proof.
  induction results as [|res rest IH]; intros i Hok Hmap; [done|].
  apply Forall_cons in Hok as [Hres Hrest].
  apply Forall_cons in Hmap as [[l0 ->] Hmaprest].
  destruct Hres as (m0 & host0 & ts0 & Hl0 & Hhost0 & Hts0 & _).
  cbn [condensed]. unfold loc in *. rewrite Hl0, Hhost0, Hts0. cbn.
  by rewrite IH.
Qed.

(** X10: the result that a call in iteration mode returns keeps the four
    entries of the run and has received "iterationCount", the new count
    of the plugin, "elapsedTime", the time since the plugin was created,
    and "iteration_data", a new map with both flags true and the summary
    "Iteration <count>: <host> - <number of hops> hops, final: <address
    of the last hop>", the address being empty when the run has no hop. *)
Theorem iteration_entries w params st :
  history_ok st ->
  host_of params <> EmptyString ->
  command_failure (exec_Run w "traceroute"
                     (traceroute_args (maxHops_of params) (host_of params))) = None ->
  let res := exec_Run w "traceroute"
               (traceroute_args (maxHops_of params) (host_of params)) in
  let hops := emitted_hops w 0 (Split_newline (cmd_stdout res)) in
  exists r a d st' m,
    executeWithIteration w params st = Returns (VMap r, None) st'
    /\ heap st' !! r = Some (ObjMap m)
    /\ m !! "host" = Some (VString (host_of params))
    /\ m !! "hops" = Some (VSlice SliceOfMaps a (length hops))
    /\ m !! "timestamp" = Some (VString (Format_RFC3339 (now_result w)))
    /\ m !! "rawOutput" = Some (VString (cmd_stdout res))
    /\ m !! "iterationCount" = Some (VInt (IterationCount (plugin st')))
    /\ IterationCount (plugin st') = wrap_int (IterationCount (plugin st) + 1)
    /\ m !! "elapsedTime"
       = Some (VString (Duration_String (now_since w - StartTime (plugin st))))
    /\ m !! "iteration_data" = Some (VMap d)
    /\ heap st' !! d
       = Some (ObjMap
                 {[ "can_iterate" := VBool true;
                    "supports_iteration" := VBool true;
                    "iteration_summary" :=
                      VString ("Iteration " +:+ pretty (IterationCount (plugin st'))
                               +:+ ": " +:+ host_of params +:+ " - "
                               +:+ pretty (Z.of_nat (length hops))
                               +:+ " hops, final: " +:+ final_hop hops) ]}).
Proof.
  intros Hok Hhost Hcmd res hops.
  destruct (heap_after_iteration_lookup w params st Hok)
    as (m & Hr & Hkeep & Hcount & Helapsed & Hdata & Hd & _).
  eexists _, _, _, _, m. split; [by apply executeWithIteration_closed|].
  cbn [heap plugin IterationCount].
  split; [exact Hr|].
  do 4 (split; [by rewrite Hkeep|]).
  split; [exact Hcount|]. split; [reflexivity|]. split; [exact Helapsed|].
  split; [exact Hdata|exact Hd].
Qed.

(** X11: the result carries a "history" entry exactly when the plugin
    held an entry before the call, that is from the second recorded run
    on. *)
Theorem history_entry_from_second_run w params st :
  history_ok st ->
  host_of params <> EmptyString ->
  command_failure (exec_Run w "traceroute"
                     (traceroute_args (maxHops_of params) (host_of params))) = None ->
  exists r st' m,
    executeWithIteration w params st = Returns (VMap r, None) st'
    /\ heap st' !! r = Some (ObjMap m)
    /\ (m !! "history" = None <-> Results (plugin st) = []).
Proof.
  intros Hok Hhost Hcmd.
  destruct (heap_after_iteration_lookup w params st Hok)
    as (m & Hr & _ & _ & _ & _ & _ & Hnone & Hsome).
  eexists _, _, m. split; [by apply executeWithIteration_closed|].
  split; [exact Hr|]. split; [|done].
  intros Hm. destruct (Results (plugin st)) as [|v vs] eqn:Hres; [done|].
  destruct Hsome as [Hhist _]; [done|]. by rewrite Hhist in Hm.
Qed.

(** X12: from the second recorded run on, the "history" list of the
    result has one entry for each stored run, the current one last, in
    the order of the runs; the entry of a stored run has its 1-based
    rank under "iteration" and the host, the timestamp, the number of
    hops and the address of the last hop of that run as the heap had
    them before the call; the last entry is that of the current run. *)
Theorem history_list w params st :
  history_ok st ->
  history_of_maps st ->
  host_of params <> EmptyString ->
  command_failure (exec_Run w "traceroute"
                     (traceroute_args (maxHops_of params) (host_of params))) = None ->
  Results (plugin st) <> [] ->
  let res := exec_Run w "traceroute"
               (traceroute_args (maxHops_of params) (host_of params)) in
  let hops := emitted_hops w 0 (Split_newline (cmd_stdout res)) in
  let n := length (Results (plugin st)) in
  exists r a st',
    executeWithIteration w params st = Returns (VMap r, None) st'
    /\ resolve (heap st') (VMap r) [Key "history"]
       = Some (VSlice SliceOfMaps a (S n))
    /\ (forall j l m host ts key,
          Results (plugin st) !! j = Some (VMap l) ->
          heap st !! l = Some (ObjMap m) ->
          m !! "host" = Some (VString host) ->
          m !! "timestamp" = Some (VString ts) ->
          resolve (heap st') (VMap r) [Key "history"; Index j; Key key]
          = history_entry j ts host
              (default (0, EmptyString) (hops_summary_in (heap st) (m !! "hops"))).1
              (default (0, EmptyString) (hops_summary_in (heap st) (m !! "hops"))).2
            !! key)
    /\ (forall key,
          resolve (heap st') (VMap r) [Key "history"; Index n; Key key]
          = history_entry n (Format_RFC3339 (now_result w)) (host_of params)
              (Z.of_nat (length hops)) (final_hop hops) !! key).
Proof.
  intros Hok Hmaps Hhost Hcmd Hne res hops n.
  destruct (heap_after_iteration_lookup w params st Hok)
    as (m & Hr & _ & _ & _ & _ & _ & _ & Hsome).
  destruct (Hsome Hne) as (Hhist & Harr & Hentries). clear Hsome.
  fold res hops in Hhist, Harr, Hentries, Hr.
  set (r := S (length (heap st) + length hops)) in *.
  set (last_entry := history_entry (length (Results (plugin st))) _ _ _ _) in *.
  set (entries := condensed (heap st) 0 (Results (plugin st)) ++ [last_entry]) in *.
  assert (Hlen : length entries = S n).
  { subst entries. rewrite length_app, condensed_length by done. cbn. lia. }
  assert (Hread : forall j e key,
            entries !! j = Some e ->
            resolve (heap_after_iteration w params st) (VMap r)
              [Key "history"; Index j; Key key] = e !! key).
  { intros j e key Hj. pose proof (lookup_lt_Some _ _ _ Hj) as Hlt.
    cbn [resolve select]. unfold loc in *. rewrite Hr, Hhist. cbn [select].
    apply Nat.ltb_lt in Hlt as Hlt'. rewrite Hlt'. unfold loc in *. rewrite Harr.
    rewrite list_lookup_fmap, (lookup_seq_lt _ _ _ Hlt).
    cbn [fmap option_fmap option_map select].
    unfold loc in *. rewrite (Hentries j e Hj). by destruct (e !! key). }
  exists r, (S (S (S r)) + length entries)%nat.
  eexists. split; [by apply executeWithIteration_closed|]. cbn [heap].
  split; [|split].
  - cbn [resolve select]. unfold loc in *. by rewrite Hr, Hhist, Hlen.
  - intros j l mj host ts key Hj Hl Hhostj Htsj. apply Hread.
    subst entries. apply lookup_app_l_Some.
    by rewrite (condensed_lookup (heap st) _ 0 j l mj host ts).
  - intros key. apply Hread. subst entries.
    rewrite lookup_app_r by (by rewrite condensed_length).
    by rewrite condensed_length, Nat.sub_diag.
Qed.

End Annotations.

(** ** Sequences of calls and the command line *)

Section Service.
Context `{!Platform}.
Local Open Scope list_scope.

Lemma wrap_int_succ a : wrap_int (wrap_int a + 1) = wrap_int (a + 1).
Proof.
  unfold wrap_int.
  replace ((a + 2 ^ 63) mod 2 ^ 64 - 2 ^ 63 + 1 + 2 ^ 63)
    with ((a + 2 ^ 63) mod 2 ^ 64 + 1) by lia.
  rewrite Zplus_mod_idemp_l. f_equal. f_equal. lia.
Qed.

Lemma plugin_inv_initial now h pr : plugin_inv (mkState (NewPlugin now) h pr).
Proof. repeat split; constructor. Qed.

Lemma Execute_keeps_inv w params st :
  plugin_inv st ->
  exists out st',
    Execute w params st = Returns out st'
    /\ plugin_inv st'
    /\ StartTime (plugin st') = StartTime (plugin st)
    /\ (length (Results (plugin st')) <= S (length (Results (plugin st))))%nat.
Proof.
  intros (Hok & Hmaps & Hcount).
  destruct (Execute_keeps_history_ok w params st Hok) as (out & st' & Hrun & Hok').
  exists out, st'. split; [done|].
  destruct (Execute_outcome w params st Hok)
    as [[_ Hrun']|[(_ & e & _ & Hrun')|[(_ & _ & _ & Hrun')
       |(_ & _ & _ & h' & Hrun' & _)]]];
    rewrite Hrun in Hrun'; injection Hrun' as -> ->.
  - repeat split; try done. lia.
  - repeat split; try done. cbn. lia.
  - repeat split; try done. cbn. lia.
  - cbn [plugin StartTime Results IterationCount].
    split; [|split; [done|rewrite length_app; cbn; lia]].
    split; [done|]. split.
    + unfold history_of_maps. cbn [plugin Results].
      apply Forall_app. split; [done|]. apply Forall_singleton. by eexists.
    + cbn [plugin Results IterationCount]. rewrite Hcount, wrap_int_succ.
      f_equal. rewrite length_app. cbn. lia.
Qed.

Lemma serve_keeps_inv calls : forall st,
  plugin_inv st ->
  exists outs st',
    serve calls st = Returns outs st'
    /\ length outs = length calls
    /\ plugin_inv st'
    /\ StartTime (plugin st') = StartTime (plugin st)
    /\ (length (Results (plugin st'))
        <= length (Results (plugin st)) + length calls)%nat.
Proof.
  induction calls as [|[w params] rest IH]; intros st Hinv.
  - exists [], st. split; [reflexivity|]. do 3 (split; [done|]). cbn. lia.
  - destruct (Execute_keeps_inv w params st Hinv)
      as (out & st1 & Hrun & Hinv1 & Hstart1 & Hlen1).
    destruct (IH st1 Hinv1) as (outs & st' & Hserve & Hlen & Hinv' & Hstart & Hlen').
    exists (out :: outs), st'. cbn [serve].
    rewrite bind_unfold, Hrun, bind_unfold, Hserve.
    split; [reflexivity|]. split; [cbn; by rewrite Hlen|]. split; [done|].
    split; [congruence|]. cbn [length]. lia.
Qed.

(** X13: calls made one after the other on a new plugin never panic,
    whatever their parameters, their modes and the answers of the world:
    each returns; the count always equals the number of stored entries
    (up to 64-bit wrap-around), which is at most the number of calls, and
    the start time is the one of the creation. *)
Theorem serve_never_panics calls now :
  exists outs st',
    serve calls (initial_state now) = Returns outs st'
    /\ length outs = length calls
    /\ IterationCount (plugin st')
       = wrap_int (Z.of_nat (length (Results (plugin st'))))
    /\ (length (Results (plugin st')) <= length calls)%nat
    /\ StartTime (plugin st') = now
    /\ history_ok st'.
Proof.
  destruct (serve_keeps_inv calls (initial_state now) (plugin_inv_initial now [] []))
    as (outs & st' & Hserve & Hlen & (Hok & _ & Hcount) & Hstart & Hle).
  exists outs, st'. by repeat split.
Qed.

(** X14: [main] never panics; it always writes something that ends with a
    line feed and exits with status 0 or 1; the status is 0 only when the
    second argument is "--definition" and plugin.json was read, the output
    being its contents, or when the argument starts with "--execute=", its
    remainder was decoded, the call on a new plugin returned no error and
    its result was encoded, the output being that encoding. *)
Theorem main_exits proc w :
  exists out code,
    main proc w = Some (out, code)
    /\ (code = 0 \/ code = 1)
    /\ (exists text, out = Println text)
    /\ (code = 0 ->
        exists arg,
          os_Args proc !! 1%nat = Some arg
          /\ ((arg = "--definition"
               /\ exists contents, os_ReadFile proc "plugin.json" = inl contents
                                   /\ out = Println contents)
              \/ (arg <> "--definition" /\ HasPrefix arg "--execute=" = true
                  /\ exists params h result st' json,
                       json_Unmarshal proc (TrimPrefix arg "--execute=")
                         = inl (params, h)
                       /\ Execute w params
                            (mkState (NewPlugin (process_start proc)) h [])
                          = Returns (result, None) st'
                       /\ json_Marshal proc (heap st') result = inl json
                       /\ out = Println json))).
Proof.
  unfold main.
  destruct (os_Args proc) as [|arg0 [|arg rest]].
  { eexists _, _. split; [reflexivity|]. split; [by right|].
    split; [by eexists|done]. }
  { eexists _, _. split; [reflexivity|]. split; [by right|].
    split; [by eexists|done]. }
  destruct (String.eqb arg "--definition") eqn:Hdef.
  { apply String.eqb_eq in Hdef as ->.
    destruct (os_ReadFile proc "plugin.json") as [contents|err] eqn:Hread.
    - eexists _, _. split; [reflexivity|]. split; [by left|].
      split; [by eexists|]. intros _. eexists. split; [reflexivity|].
      left. split; [done|]. by eexists.
    - eexists _, _. split; [reflexivity|]. split; [by right|].
      split; [by eexists|done]. }
  apply String.eqb_neq in Hdef.
  destruct (HasPrefix arg "--execute=") eqn:Hexec.
  2: { eexists _, _. split; [reflexivity|]. split; [by right|].
       split; [by eexists|done]. }
  destruct (json_Unmarshal proc (TrimPrefix arg "--execute="))
    as [[params h]|err] eqn:Hjson.
  2: { eexists _, _. split; [reflexivity|]. split; [by right|].
       split; [by eexists|done]. }
  destruct (Execute_keeps_history_ok w params
              (mkState (NewPlugin (process_start proc)) h []))
    as ([result [err|]] & st' & Hrun & _); [constructor| |]; rewrite Hrun.
  { eexists _, _. split; [reflexivity|]. split; [by right|].
    split; [by eexists|done]. }
  destruct (json_Marshal proc (heap st') result) as [json|err] eqn:Hmarshal.
  - eexists _, _. split; [reflexivity|]. split; [by left|].
    split; [by eexists|]. intros _. eexists. split; [reflexivity|].
    right. repeat split; try done. by eexists _, _, _, _, _.
  - eexists _, _. split; [reflexivity|]. split; [by right|].
    split; [by eexists|done].
Qed.

(** X15: on a new plugin, which is what every run of [main] works on, a
    call in iteration mode that does not fail returns a result whose
    "iterationCount" is 1 and that has no "history" entry. *)
Theorem new_plugin_first_iteration w params now h pr :
  (assert_bool (params !! "continueToIterate")).1 = true ->
  host_of params <> EmptyString ->
  command_failure (exec_Run w "traceroute"
                     (traceroute_args (maxHops_of params) (host_of params))) = None ->
  exists r st' m,
    Execute w params (mkState (NewPlugin now) h pr) = Returns (VMap r, None) st'
    /\ heap st' !! r = Some (ObjMap m)
    /\ m !! "iterationCount" = Some (VInt 1)
    /\ m !! "history" = None
    /\ Results (plugin st') = [VMap (S r)].
Proof.
  intros Hmode Hhost Hcmd.
  assert (Hok : history_ok (mkState (NewPlugin now) h pr)) by constructor.
  destruct (heap_after_iteration_lookup w params _ Hok)
    as (m & Hr & _ & Hcount & _ & _ & _ & Hnone & _).
  eexists _, _, m. split.
  { unfold Execute. rewrite Hmode. by apply executeWithIteration_closed. }
  split; [exact Hr|]. split; [exact Hcount|]. split; [by apply Hnone|done].
Qed.

(** X16: when the call returns an error, [main] writes the message
    between the quotes of [{"error": "..."}], as it is, and exits with
    status 1; such is the case when the decoded parameters have no host,
    and then no command is run. *)
Theorem main_reports_errors proc w prog arg rest params h :
  os_Args proc = prog :: arg :: rest ->
  arg <> "--definition" ->
  HasPrefix arg "--execute=" = true ->
  json_Unmarshal proc (TrimPrefix arg "--execute=") = inl (params, h) ->
  (forall e st',
     Execute w params (mkState (NewPlugin (process_start proc)) h [])
       = Returns (VNil, Some e) st' ->
     main proc w
     = Some (Println ("{" +:+ dquote +:+ "error" +:+ dquote +:+ ": " +:+ dquote
                        +:+ e +:+ dquote +:+ "}"), 1))
  /\ (host_of params = EmptyString ->
      main proc w = Some (error_line "host parameter is required", 1)
      /\ exists st',
           Execute w params (mkState (NewPlugin (process_start proc)) h [])
             = Returns (VNil, Some host_required) st'
           /\ probes st' = []).
Proof.
  intros Hargs Hdef Hexec Hjson.
  assert (Hmain : forall e st',
            Execute w params (mkState (NewPlugin (process_start proc)) h [])
              = Returns (VNil, Some e) st' ->
            main proc w = Some (error_line e, 1)).
  { intros e st' Hrun. unfold main. rewrite Hargs.
    apply String.eqb_neq in Hdef. by rewrite Hdef, Hexec, Hjson, Hrun. }
  split; [exact Hmain|].
  intros Hhost.
  assert (Hrun : Execute w params (mkState (NewPlugin (process_start proc)) h [])
                 = Returns (VNil, Some host_required)
                     (mkState (NewPlugin (process_start proc)) h [])).
  { unfold Execute. destruct (assert_bool _).1.
    - by apply executeWithIteration_refused, performTraceroute_no_host.
    - by apply performTraceroute_no_host. }
  split; [by apply (Hmain _ _ Hrun)|]. by eexists.
Qed.

End Service.

(** ** More concrete runs *)

Section MoreConcrete.
Import Samples.
Local Existing Instance platform.
Local Open Scope list_scope.

Lemma sample_second_state_ok : history_ok sample_second_state.
Proof.
  apply Forall_singleton.
  eexists _, _, _. split; [vm_compute; reflexivity|].
  split; [reflexivity|]. split; [reflexivity|].
  eexists. split; [vm_compute; reflexivity|].
  eexists. vm_compute. reflexivity.
Qed.

Lemma sample_second_state_maps : history_of_maps sample_second_state.
Proof. apply Forall_singleton. by eexists. Qed.

Lemma display_name_witness :
  exists m, hop_of_line world_ok hop_line = Some m
            /\ m !! "name" = Some (VString "10.0.0.1").
Proof.
  destruct (display_name world_ok hop_line 1) as (m & Hm & _ & Hfail & _).
  - vm_compute. lia.
  - vm_compute. discriminate.
  - reflexivity.
  - exists m. split; [exact Hm|].
    exact (Hfail [] "lookup: no such host" eq_refl).
Defined.

Lemma single_line_output_has_no_hops_witness :
  exists r a st',
    performTraceroute world_silent_failure params_ok (initial_state 0)
      = Returns (VMap r, None) st'
    /\ heap st' !! a = Some (ObjArray []).
Proof.
  destruct (single_line_output_has_no_hops world_silent_failure params_ok
              (initial_state 0))
    as (r & a & st' & Hrun & _ & Harr).
  - vm_compute. discriminate.
  - reflexivity.
  - reflexivity.
  - exists r, a, st'. split; [exact Hrun|exact Harr].
Defined.

Lemma result_lists_the_records_witness :
  exists r st',
    performTraceroute world_ok params_ok (initial_state 0) = Returns (VMap r, None) st'
    /\ resolve (heap st') (VMap r) [Key "hops"; Index 1; Key "host"]
       = Some (VString "*").
Proof.
  destruct (result_lists_the_records world_ok params_ok (initial_state 0))
    as (r & a & st' & m & Hrun & _ & _ & _ & _ & _ & _ & Hread & _).
  - vm_compute. discriminate.
  - reflexivity.
  - exists r, st'. split; [exact Hrun|].
    by rewrite (Hread 1%nat (hop_record 2 "*" "*" float64_zero) "host").
Defined.

Lemma single_shot_leaves_plugin_witness :
  exists out st',
    Execute world_ok params_ok sample_second_state = Returns out st'
    /\ plugin st' = plugin sample_second_state.
Proof.
  destruct (single_shot_leaves_plugin world_ok params_ok sample_second_state)
    as (out & st' & Hrun & Hplugin & _).
  - reflexivity.
  - exists out, st'. split; [exact Hrun|exact Hplugin].
Defined.

Lemma at_most_one_command_witness :
  exists out st',
    Execute world_ok params_ok (initial_state 0) = Returns out st'
    /\ probes st' = [["traceroute"; "-n"; "-m"; "5"; "10.0.0.1"]].
Proof.
  destruct (at_most_one_command world_ok params_ok (initial_state 0))
    as (out & st' & Hrun & [[Hhost _]|[_ Hprobes]]).
  - constructor.
  - vm_compute in Hhost. discriminate Hhost.
  - exists out, st'. split; [exact Hrun|exact Hprobes].
Defined.

Lemma history_is_append_only_witness :
  exists out st' added,
    Execute world_ok sample_iterating_params sample_second_state = Returns out st'
    /\ Results (plugin st') = [VMap 4%nat] ++ added
    /\ StartTime (plugin st') = 0.
Proof.
  destruct (history_is_append_only world_ok sample_iterating_params sample_second_state)
    as (out & st' & added & Hrun & Hres & _ & Hstart & _).
  - apply sample_second_state_ok.
  - exists out, st', added. split; [exact Hrun|]. split; [exact Hres|exact Hstart].
Defined.

Lemma iteration_entries_witness :
  exists r d st' m,
    executeWithIteration world_ok params_ok (initial_state 0) = Returns (VMap r, None) st'
    /\ heap st' !! r = Some (ObjMap m)
    /\ m !! "iteration_data" = Some (VMap d)
    /\ heap st' !! d
       = Some (ObjMap {[ "can_iterate" := VBool true;
                         "supports_iteration" := VBool true;
                         "iteration_summary" :=
                           VString "Iteration 1: 10.0.0.1 - 2 hops, final: *" ]}).
Proof.
  destruct (iteration_entries world_ok params_ok (initial_state 0))
    as (r & a & d & st' & m & Hrun & Hr & _ & _ & _ & _ & _ & Hcount & _ & Hdata & Hd).
  - constructor.
  - vm_compute. discriminate.
  - reflexivity.
  - exists r, d, st', m. split; [exact Hrun|]. split; [exact Hr|].
    split; [exact Hdata|]. rewrite Hd, Hcount. vm_compute. reflexivity.
Defined.

Lemma history_entry_from_second_run_witness :
  exists r st' m,
    executeWithIteration world_ok params_ok (initial_state 0) = Returns (VMap r, None) st'
    /\ heap st' !! r = Some (ObjMap m)
    /\ m !! "history" = None.
Proof.
  destruct (history_entry_from_second_run world_ok params_ok (initial_state 0))
    as (r & st' & m & Hrun & Hr & Hhist).
  - constructor.
  - vm_compute. discriminate.
  - reflexivity.
  - exists r, st', m. split; [exact Hrun|]. split; [exact Hr|].
    apply Hhist. reflexivity.
Defined.

Lemma history_list_witness :
  exists r a st',
    executeWithIteration world_ok params_ok sample_second_state
      = Returns (VMap r, None) st'
    /\ resolve (heap st') (VMap r) [Key "history"] = Some (VSlice SliceOfMaps a 2)
    /\ resolve (heap st') (VMap r) [Key "history"; Index 0; Key "iteration"]
       = Some (VInt 1)
    /\ resolve (heap st') (VMap r) [Key "history"; Index 1; Key "iteration"]
       = Some (VInt 2)
    /\ resolve (heap st') (VMap r) [Key "history"; Index 0; Key "lastHop"]
       = Some (VString "*").
Proof.
  destruct (history_list world_ok params_ok sample_second_state)
    as (r & a & st' & Hrun & Hlist & Hold & Hlast).
  - apply sample_second_state_ok.
  - apply sample_second_state_maps.
  - vm_compute. discriminate.
  - reflexivity.
  - discriminate.
  - exists r, a, st'. split; [exact Hrun|]. split; [exact Hlist|].
    assert (Hentry : forall key,
              resolve (heap st') (VMap r) [Key "history"; Index 0; Key key]
              = history_entry 0 "T100" "10.0.0.1" 2 "*" !! key).
    { intros key.
      rewrite (Hold 0%nat 4%nat
                 (result_map "10.0.0.1" 2%nat 2%nat "T100" output) "10.0.0.1" "T100" key);
        [|reflexivity|vm_compute; reflexivity|reflexivity|reflexivity].
      vm_compute. reflexivity. }
    split; [by rewrite Hentry|]. split; [|by rewrite Hentry].
    etransitivity; [exact (Hlast "iteration")|]. vm_compute. reflexivity.
Defined.

Lemma new_plugin_first_iteration_witness :
  exists r st' m,
    Execute world_ok sample_iterating_params (initial_state 0)
      = Returns (VMap r, None) st'
    /\ heap st' !! r = Some (ObjMap m)
    /\ m !! "iterationCount" = Some (VInt 1)
    /\ m !! "history" = None.
Proof.
  destruct (new_plugin_first_iteration world_ok sample_iterating_params 0 [] [])
    as (r & st' & m & Hrun & Hr & Hcount & Hhist & _).
  - reflexivity.
  - vm_compute. discriminate.
  - reflexivity.
  - exists r, st', m. split; [exact Hrun|]. split; [exact Hr|].
    split; [exact Hcount|exact Hhist].
Defined.

Lemma main_reports_errors_witness :
  main sample_process world_ok
  = Some (error_line "host parameter is required", 1).
Proof.
  destruct (main_reports_errors sample_process world_ok "plugin" "--execute={}" []
              ∅ []) as [_ Hhost].
  - reflexivity.
  - discriminate.
  - reflexivity.
  - reflexivity.
  - by apply Hhost.
Defined.

End MoreConcrete.
